(** * Escape-sequence scanner and terminal command interpreter

    A shallow embedding of the Go packages [ansi] (the incremental
    decoder [DecodeSequence] with its command/parameter codec, the mode
    sequences of [mode.go] and the Sixel sequence of [sixel.go]), [vt]
    (the CSI handlers of the terminal emulator) and [input] (the X10
    mouse report), followed by the properties established about them.

    Conventions of the embedding:
    - a Go [int] is a 64-bit two's complement integer, modelled as a [Z]
      with the wrap-around written out ([int_wrap]) wherever the code
      adds, multiplies or shifts;
    - a [byte] is [Byte.byte]; [bval] gives its value in [0, 255];
    - slices are lists; an index outside the slice is a run-time panic,
      modelled by the [Panic] result;
    - a pointer that may be nil ([*Parser]) is an [option]; the object it
      points to is threaded through explicitly and handed back with the
      results, since the code mutates it in place;
    - a Go [string] is the list of its bytes ([str], [esc] for a literal
      that begins with [ESC]); [strconv.Itoa] and [strings.Join] are
      [strconv_Itoa] and [strings_Join];
    - the interface [Mode] with its two implementations is the inductive
      type [ansi.Mode]. *)

From Stdlib Require Import ZArith Lia Bool List.
From Stdlib Require Strings.Byte.
From stdpp Require Import base option list numbers strings gmap.
From coqutil Require Import Z.bitblast.

Local Open Scope Z_scope.

(** ** Machine integers, bytes and panics *)

Abbreviation byte := Byte.byte.

Definition bval (c : byte) : Z := Z.of_N (Byte.to_N c).

Definition int_wrap (z : Z) : Z := (z + 2 ^ 63) mod 2 ^ 64 - 2 ^ 63.

Definition uint8 (z : Z) : Z := z mod 256.

Definition len {A} (l : list A) : Z := Z.of_nat (length l).

Inductive result (A : Type) : Type :=
  | Ok (a : A)
  | Panic.
Arguments Ok {A} a.
Arguments Panic {A}.

#[global] Instance result_ret : MRet result := fun _ a => Ok a.
#[global] Instance result_bind : MBind result := fun _ _ f m =>
  match m with Ok a => f a | Panic => Panic end.

(** [l[i]] and [l[i] = x] of Go: both panic outside [0, len(l)). *)
Definition index {A} (l : list A) (i : Z) : result A :=
  if bool_decide (0 <= i) then
    match l !! Z.to_nat i with Some x => Ok x | None => Panic end
  else Panic.

Definition store {A} (l : list A) (i : Z) (x : A) : result (list A) :=
  if bool_decide (0 <= i < len l) then Ok (<[Z.to_nat i := x]> l) else Panic.

(** [b[:i]] and [b[i:]]; the scanner only slices inside the buffer. *)
Definition slice_to {A} (b : list A) (i : Z) : list A := take (Z.to_nat i) b.
Definition slice_from {A} (b : list A) (i : Z) : list A := drop (Z.to_nat i) b.

(** ** Package parser: packing constants

    The file that declares these constants is not among the sources; the
    functions below use them only by name, so they are a parameter of the
    whole development.  [Marker], [Intermediate] and [Command] are the
    unpacking helpers of the same missing file. *)
Module parser.

Class Consts := {
  MarkerShift : Z;
  IntermedShift : Z;
  CommandMask : Z;
  HasMoreFlag : Z;
  ParamMask : Z;
  MissingParam : Z;
  MissingCommand : Z
}.

(** Modelled from the spec: the unpacking helpers [parser.Marker],
    [parser.Intermediate] and [parser.Command], missing from the
    sources.  The spec calls them the inverse of the packing done by
    [Cmd]: each field is shifted back down and masked. *)
Definition Marker `{Consts} (cmd : Z) : Z :=
  Z.land (Z.shiftr cmd MarkerShift) CommandMask.
Definition Intermediate `{Consts} (cmd : Z) : Z :=
  Z.land (Z.shiftr cmd IntermedShift) CommandMask.
Definition Command `{Consts} (cmd : Z) : Z :=
  Z.land cmd CommandMask.

End parser.

(** The layout used to run the code on concrete inputs: final byte in
    the low byte, marker and intermediate in the next two bytes (as the
    spec lays them out), the has-more flag in the sign bit of a 32-bit
    word and the all-ones value below it as the missing sentinel. *)
Definition layout32 : parser.Consts := {|
  parser.MarkerShift := 8;
  parser.IntermedShift := 16;
  parser.CommandMask := 0xff;
  parser.HasMoreFlag := - 2 ^ 31;
  parser.ParamMask := 2 ^ 31 - 1;
  parser.MissingParam := 2 ^ 31 - 1;
  parser.MissingCommand := 2 ^ 31 - 1
|}.

(** ** Package uniseg: the grapheme collaborator

    [uniseg.FirstGraphemeCluster] is an external library; the scanner
    only needs the cluster it returns and its width. *)
Class Segmenter := {
  uniseg_FirstGraphemeCluster : list byte -> Z -> list byte * list byte * Z * Z
}.

(** A stand-in segmenter used to run examples: one UTF-8 encoded rune,
    sized by its lead byte, reported one cell wide. *)
Definition rune_size (c : byte) : nat :=
  if bval c <? 0xC0 then 1%nat
  else if bval c <? 0xE0 then 2%nat
  else if bval c <? 0xF0 then 3%nat else 4%nat.

Definition one_rune_segmenter : Segmenter := {|
  uniseg_FirstGraphemeCluster := fun b state =>
    match b with
    | [] => ([], [], 0, state)
    | c :: _ => (take (rune_size c) b, drop (rune_size c) b, 1, state)
    end
|}.

(** ** Packages strconv and strings of the Go standard library

    [strconv.Itoa] renders an [int] in base 10: the digits, most
    significant first and with no leading zero, after a minus sign for
    a negative number.  An [int] has at most 19 digits, which bounds
    the loop.  [strings.Join] concatenates its elements with the
    separator between them. *)
Definition strconv_digit (d : Z) : byte :=
  default Byte.x30 (Byte.of_N (Z.to_N (0x30 + d))).

Fixpoint strconv_formatBits (fuel : nat) (u : Z) (acc : list byte) : list byte :=
  match fuel with
  | O => acc
  | S fuel' =>
      let acc' := strconv_digit (u mod 10) :: acc in
      if u <? 10 then acc' else strconv_formatBits fuel' (u / 10) acc'
  end.

Definition strconv_Itoa (i : Z) : list byte :=
  if i <? 0 then Byte.x2d :: strconv_formatBits 20 (- i) []
  else strconv_formatBits 20 i [].

Fixpoint strings_Join (elems : list (list byte)) (sep : list byte) : list byte :=
  match elems with
  | [] => []
  | [e] => e
  | e :: rest => e ++ sep ++ strings_Join rest sep
  end.

(** A Go string literal as its bytes; [esc s] is the literal
    ["\x1b" + s]. *)
Definition str (s : string) : list byte := String.list_byte_of_string s.
Definition esc (s : string) : list byte := Byte.x1b :: str s.

(** ** Package ansi *)
Module ansi.

(** C0 and C1 control codes (ECMA-48 values). *)
Definition BEL : Z := 0x07.
Definition CAN : Z := 0x18.
Definition SUB : Z := 0x1A.
Definition ESC : Z := 0x1B.
Definition US  : Z := 0x1F.
Definition DEL : Z := 0x7F.
Definition DCS : Z := 0x90.
Definition SOS : Z := 0x98.
Definition CSI : Z := 0x9B.
Definition ST  : Z := 0x9C.
Definition OSC : Z := 0x9D.
Definition PM  : Z := 0x9E.
Definition APC : Z := 0x9F.

Inductive State : Set :=
  | NormalState
  | MarkerState
  | ParamsState
  | IntermedState
  | EscapeState
  | StringState.

#[global] Instance State_eq_dec : EqDecision State.
Proof. solve_decision. Defined.

(** The parser context: parameter slots, packed command, data buffer. *)
Record Parser := mkParser {
  params : list Z;
  paramsLen : Z;
  cmd : Z;
  data : list byte;
  dataLen : Z
}.

Definition set_params (P : Parser) (v : list Z) : Parser :=
  mkParser v (paramsLen P) (cmd P) (data P) (dataLen P).
Definition set_paramsLen (P : Parser) (v : Z) : Parser :=
  mkParser (params P) v (cmd P) (data P) (dataLen P).
Definition set_cmd (P : Parser) (v : Z) : Parser :=
  mkParser (params P) (paramsLen P) v (data P) (dataLen P).
Definition set_data (P : Parser) (v : list byte) : Parser :=
  mkParser (params P) (paramsLen P) (cmd P) v (dataLen P).
Definition set_dataLen (P : Parser) (v : Z) : Parser :=
  mkParser (params P) (paramsLen P) (cmd P) (data P) v.

(** [if p != nil { ... }] *)
Definition with_parser (p : option Parser) (f : Parser -> result Parser)
  : result (option Parser) :=
  match p with
  | None => Ok None
  | Some P => P' ← f P; Ok (Some P')
  end.

(** *** Prefix tests *)

Definition has_prefix2 (b : list byte) (c8 : Z) (c7 : Z) : bool :=
  match b with
  | [] => false
  | x :: r =>
      (bval x =? c8)
      || match r with
         | [] => false
         | y :: _ => (bval x =? ESC) && (bval y =? c7)
         end
  end.

Definition HasCsiPrefix (b : list byte) : bool := has_prefix2 b CSI 0x5B.
Definition HasOscPrefix (b : list byte) : bool := has_prefix2 b OSC 0x5D.
Definition HasApcPrefix (b : list byte) : bool := has_prefix2 b APC 0x5F.
Definition HasDcsPrefix (b : list byte) : bool := has_prefix2 b DCS 0x50.
Definition HasSosPrefix (b : list byte) : bool := has_prefix2 b SOS 0x58.
Definition HasPmPrefix (b : list byte) : bool := has_prefix2 b PM 0x5E.
Definition HasStPrefix (b : list byte) : bool := has_prefix2 b ST 0x5C.
Definition HasEscPrefix (b : list byte) : bool :=
  match b with [] => false | x :: _ => bval x =? ESC end.

(** [Equal], [HasPrefix] and [HasSuffix] *)
Fixpoint Equal (a b : list byte) : bool :=
  match a, b with
  | [], [] => true
  | x :: a', y :: b' => Byte.eqb x y && Equal a' b'
  | _, _ => false
  end.

Definition HasPrefix (b prefix : list byte) : bool :=
  (len prefix <=? len b) && Equal (slice_to b (len prefix)) prefix.

Definition HasSuffix (b suffix : list byte) : bool :=
  (len suffix <=? len b) && Equal (slice_from b (len b - len suffix)) suffix.

(** [utf8.RuneStart] of the Go standard library: [b&0xC0 != 0x80]. *)
Definition utf8_RuneStart (c : byte) : bool :=
  negb (Z.land (bval c) 0xC0 =? 0x80).

(** *** The scanner

    One iteration of the [for] loop of [DecodeSequence] either goes on
    to the next byte ([continue], or [break] out of the [switch]) with
    a new state and context, or leaves the function with a [return]. *)

Record Decoded := mkDecoded {
  seq : list byte;
  width : Z;
  n : Z;
  newState : State;
  ctx : option Parser
}.

Inductive Outcome : Type :=
  | Continue (state : State) (p : option Parser)
  | Return (r : Decoded).

Section scanner.
Context `{!parser.Consts} `{!Segmenter}.

(** [if len(p.params) > 0 { p.params[0] = parser.MissingParam }] *)
Definition clear_first_param (P : Parser) : Parser :=
  match params P with
  | [] => P
  | _ :: ps => set_params P (parser.MissingParam :: ps)
  end.

(** [p.cmd &^= 0xff << shift; p.cmd |= int(c) << shift] *)
Definition put_field (P : Parser) (shift : Z) (c : byte) : Parser :=
  let cleared := Z.ldiff (cmd P) (int_wrap (Z.shiftl 0xff shift)) in
  set_cmd P (Z.lor cleared (int_wrap (Z.shiftl (bval c) shift))).

(** [p.cmd &^= 0xff; p.cmd |= int(c)] *)
Definition put_final (P : Parser) (c : byte) : Parser :=
  set_cmd P (Z.lor (Z.ldiff (cmd P) 0xff) (bval c)).

(** The loop of [parseOscCmd] over [p.data[0 .. p.dataLen)], with
    [k] iterations left and [j] the loop index. *)
Fixpoint parseOscLoop (k : nat) (j : Z) (dat : list byte) (c : Z) : result Z :=
  match k with
  | O => Ok c
  | S k' =>
      d ← index dat j;
      if (bval d <? 0x30) || (0x39 <? bval d) then Ok c
      else
        let c0 := if c =? parser.MissingCommand then 0 else c in
        let c1 := int_wrap (c0 * 10) in
        let c2 := int_wrap (c1 + (bval d - 0x30)) in
        parseOscLoop k' (j + 1) dat c2
  end.

Definition parseOscCmd (p : option Parser) : result (option Parser) :=
  match p with
  | None => Ok None
  | Some P =>
      if negb (cmd P =? parser.MissingCommand) then Ok (Some P)
      else
        c ← parseOscLoop (Z.to_nat (dataLen P)) 0 (data P) (cmd P);
        Ok (Some (set_cmd P c))
  end.

(** [if HasOscPrefix(b) { parseOscCmd(p) }] *)
Definition parseOscCmd_if_osc (b : list byte) (p : option Parser)
  : result (option Parser) :=
  if HasOscPrefix b then parseOscCmd p else Ok p.

Definition ret (s : list byte) (w : Z) (k : Z) (p : option Parser) : Outcome :=
  Return (mkDecoded s w k NormalState p).

(** [case NormalState] *)
Definition normalCase (b : list byte) (i : Z) (c : byte) (p : option Parser)
  : result Outcome :=
  let v := bval c in
  if v =? ESC then
    p' ← with_parser p (fun P =>
      Ok (set_dataLen (set_paramsLen (set_cmd (clear_first_param P) 0) 0) 0));
    Ok (Continue EscapeState p')
  else if (v =? CSI) || (v =? DCS) then
    p' ← with_parser p (fun P =>
      Ok (set_dataLen (set_paramsLen (set_cmd (clear_first_param P) 0) 0) 0));
    Ok (Continue MarkerState p')
  else if (v =? OSC) || (v =? APC) || (v =? SOS) || (v =? PM) then
    p' ← with_parser p (fun P =>
      Ok (set_dataLen (set_cmd P parser.MissingCommand) 0));
    Ok (Continue StringState p')
  else
    p' ← with_parser p (fun P =>
      Ok (set_cmd (set_paramsLen (set_dataLen P 0) 0) 0));
    if (US <? v) && (v <? DEL) then
      (* ASCII printable characters *)
      Ok (ret (slice_to (slice_from b i) 1) 1 1 p')
    else if (v <=? US) || (v =? DEL) || (v <? 0xC0) then
      (* C0 & C1 control characters & DEL *)
      Ok (ret (slice_to (slice_from b i) 1) 0 1 p')
    else if utf8_RuneStart c then
      let '(cluster, _, w, _) := uniseg_FirstGraphemeCluster b (-1) in
      let i' := i + len cluster in
      Ok (ret (slice_to b i') w i' p')
    else
      (* Invalid UTF-8 sequence *)
      Ok (ret (slice_to b i) 0 i p').

(** [case IntermedState] *)
Definition bump_last_param (P : Parser) : result Parser :=
  (* Increment the last parameter *)
  if (0 <? paramsLen P) && (paramsLen P <? len (params P) - 1) then
    Ok (set_paramsLen P (int_wrap (paramsLen P + 1)))
  else if (paramsLen P =? 0) && (0 <? len (params P)) then
    p0 ← index (params P) 0;
    if negb (p0 =? parser.MissingParam)
    then Ok (set_paramsLen P (int_wrap (paramsLen P + 1)))
    else Ok P
  else Ok P.

Definition intermedCase (b : list byte) (i : Z) (c : byte) (p : option Parser)
  : result Outcome :=
  let v := bval c in
  if (0x20 <=? v) && (v <=? 0x2F) then
    p' ← with_parser p (fun P => Ok (put_field P parser.IntermedShift c));
    Ok (Continue IntermedState p')
  else
    p1 ← with_parser p bump_last_param;
    if (0x40 <=? v) && (v <=? 0x7E) then
      p2 ← with_parser p1 (fun P => Ok (put_final P c));
      if HasDcsPrefix b then
        (* Continue to collect DCS data *)
        p3 ← with_parser p2 (fun P => Ok (set_dataLen P 0));
        Ok (Continue StringState p3)
      else Ok (ret (slice_to b (i + 1)) 0 (i + 1) p2)
    else
      (* Invalid CSI/DCS sequence *)
      Ok (ret (slice_to b i) 0 i p1).

(** [case ParamsState], falling through to [IntermedState] *)
Definition add_digit (P : Parser) (c : byte) : result Parser :=
  v ← index (params P) (paramsLen P);
  let v0 := if v =? parser.MissingParam then 0 else v in
  let v1 := int_wrap (v0 * 10) in
  let v2 := int_wrap (v1 + (bval c - 0x30)) in
  ps ← store (params P) (paramsLen P) v2;
  Ok (set_params P ps).

Definition flag_has_more (P : Parser) : result Parser :=
  v ← index (params P) (paramsLen P);
  ps ← store (params P) (paramsLen P) (Z.lor v parser.HasMoreFlag);
  Ok (set_params P ps).

Definition next_param (P : Parser) : result Parser :=
  let k := int_wrap (paramsLen P + 1) in
  let P1 := set_paramsLen P k in
  if k <? len (params P1) then
    ps ← store (params P1) k parser.MissingParam;
    Ok (set_params P1 ps)
  else Ok P1.

Definition paramsCase (b : list byte) (i : Z) (c : byte) (p : option Parser)
  : result Outcome :=
  let v := bval c in
  if (0x30 <=? v) && (v <=? 0x39) then
    p' ← with_parser p (fun P => add_digit P c);
    Ok (Continue ParamsState p')
  else
    p1 ← (if v =? 0x3A then with_parser p flag_has_more else Ok p);
    if (v =? 0x3B) || (v =? 0x3A) then
      p2 ← with_parser p1 next_param;
      Ok (Continue ParamsState p2)
    else intermedCase b i c p1.

(** [case MarkerState], falling through to [ParamsState] *)
Definition markerCase (b : list byte) (i : Z) (c : byte) (p : option Parser)
  : result Outcome :=
  let v := bval c in
  if (0x3C <=? v) && (v <=? 0x3F) then
    (* We only collect the last marker character. *)
    p' ← with_parser p (fun P => Ok (put_field P parser.MarkerShift c));
    Ok (Continue MarkerState p')
  else paramsCase b i c p.

(** [case EscapeState] *)
Definition escapeCase (b : list byte) (i : Z) (c : byte) (p : option Parser)
  : result Outcome :=
  let v := bval c in
  if (v =? 0x5B) || (v =? 0x50) then
    p' ← with_parser p (fun P =>
      Ok (set_cmd (set_paramsLen (clear_first_param P) 0) 0));
    Ok (Continue MarkerState p')
  else if (v =? 0x5D) || (v =? 0x58) || (v =? 0x5E) || (v =? 0x5F) then
    p' ← with_parser p (fun P =>
      Ok (set_dataLen (set_cmd P parser.MissingCommand) 0));
    Ok (Continue StringState p')
  else if (0x20 <=? v) && (v <=? 0x2F) then
    p' ← with_parser p (fun P => Ok (put_field P parser.IntermedShift c));
    Ok (Continue EscapeState p')
  else if (0x30 <=? v) && (v <=? 0x7E) then
    p' ← with_parser p (fun P => Ok (put_final P c));
    Ok (ret (slice_to b (i + 1)) 0 (i + 1) p')
  else
    (* Invalid escape sequence *)
    Ok (ret (slice_to b i) 0 i p).

(** [case StringState] *)
Definition append_data (b : list byte) (c : byte) (p : option Parser)
  : result (option Parser) :=
  match p with
  | None => Ok None
  | Some P =>
      if dataLen P <? len (data P) then
        d ← store (data P) (dataLen P) c;
        let P1 := set_dataLen (set_data P d) (int_wrap (dataLen P + 1)) in
        (* Parse the OSC command number *)
        if (bval c =? 0x3B) && HasOscPrefix b
        then parseOscCmd (Some P1)
        else Ok (Some P1)
      else Ok (Some P)
  end.

Definition stringCase (b : list byte) (i : Z) (c : byte) (p : option Parser)
  : result Outcome :=
  let v := bval c in
  if (v =? BEL) && HasOscPrefix b then
    p' ← parseOscCmd p;
    Ok (ret (slice_to b (i + 1)) 0 (i + 1) p')
  else if (v =? CAN) || (v =? SUB) then
    p' ← parseOscCmd_if_osc b p;
    (* Cancel the sequence *)
    Ok (ret (slice_to b i) 0 i p')
  else if v =? ST then
    p' ← parseOscCmd_if_osc b p;
    Ok (ret (slice_to b (i + 1)) 0 (i + 1) p')
  else if v =? ESC then
    if HasStPrefix (slice_from b i) then
      p' ← parseOscCmd_if_osc b p;
      (* End of string 7-bit (ST) *)
      Ok (ret (slice_to b (i + 2)) 0 (i + 2) p')
    else
      (* Otherwise, cancel the sequence *)
      Ok (ret (slice_to b i) 0 i p)
  else
    p' ← append_data b c p;
    Ok (Continue StringState p').

(** The body of the loop: [switch state]. *)
Definition step (b : list byte) (i : Z) (c : byte) (state : State)
    (p : option Parser) : result Outcome :=
  match state with
  | NormalState => normalCase b i c p
  | MarkerState => markerCase b i c p
  | ParamsState => paramsCase b i c p
  | IntermedState => intermedCase b i c p
  | EscapeState => escapeCase b i c p
  | StringState => stringCase b i c p
  end.

(** The loop [for i := ...; i < len(b); i++] over the bytes [rest]
    still to be read, the first of which is [b[i]]. *)
Fixpoint scan (b rest : list byte) (i : Z) (state : State) (p : option Parser)
  : result Outcome :=
  match rest with
  | [] => Ok (Continue state p)
  | c :: rest' =>
      o ← step b i c state p;
      match o with
      | Continue state' p' => scan b rest' (i + 1) state' p'
      | Return r => Ok (Return r)
      end
  end.

(** [DecodeSequence]: the loop, then [return b, 0, len(b), state]. *)
Definition DecodeSequence (b : list byte) (state : State) (p : option Parser)
  : result Decoded :=
  o ← scan b b 0 state p;
  match o with
  | Continue state' p' => Ok (mkDecoded b 0 (len b) state' p')
  | Return r => Ok r
  end.

End scanner.

(** *** Command and parameter codec *)

(** [type Command int] and its methods [Marker], [Intermediate] and
    [Command]. *)
Definition Command_Marker `{!parser.Consts} (c : Z) : Z := parser.Marker c.
Definition Command_Intermediate `{!parser.Consts} (c : Z) : Z :=
  parser.Intermediate c.
Definition Command_Command `{!parser.Consts} (c : Z) : Z := parser.Command c.

(** [Cmd(marker, inter, cmd)] *)
Definition Cmd `{!parser.Consts} (marker inter cmd : Z) : Z :=
  let c := Z.land cmd parser.CommandMask in
  let c := Z.lor c
    (int_wrap (Z.shiftl (Z.land marker parser.CommandMask) parser.MarkerShift)) in
  Z.lor c
    (int_wrap (Z.shiftl (Z.land inter parser.CommandMask) parser.IntermedShift)).

(** [type Parameter int] and its methods [Param(def)] and [HasMore]. *)
Definition Parameter_Param `{!parser.Consts} (s : Z) (def : Z) : Z :=
  let p := Z.land s parser.ParamMask in
  if p =? parser.MissingParam then def else p.
Definition Parameter_HasMore `{!parser.Consts} (s : Z) : bool :=
  negb (Z.land s parser.HasMoreFlag =? 0).

(** [Param(p, hasMore)] *)
Definition Param `{!parser.Consts} (p : Z) (hasMore : bool) : Z :=
  let s := Z.land p parser.ParamMask in
  if hasMore then Z.lor s parser.HasMoreFlag else s.


(** *** Mode sequences

    [type Mode interface { Mode() int }] and its two implementations,
    [ANSIMode] and [DECMode]; a type switch on the interface value is a
    match on the constructor. *)
Inductive Mode : Set :=
  | ANSIMode (m : Z)
  | DECMode (m : Z).

Definition Mode_Mode (m : Mode) : Z :=
  match m with ANSIMode k => k | DECMode k => k end.

Definition isDECMode (m : Mode) : bool :=
  match m with DECMode _ => true | ANSIMode _ => false end.

(** [setMode(reset, modes...)] *)
Definition setMode (reset : bool) (modes : list Mode) : list byte :=
  match modes with
  | [] => []
  | [m] =>
      let cmd := if reset then str "l" else str "h" in
      let seq := esc "[" in
      let seq := if isDECMode m then seq ++ str "?" else seq in
      seq ++ strconv_Itoa (Mode_Mode m) ++ cmd
  | _ =>
      let cmd := if reset then str "l" else str "h" in
      let seq := esc "[" in
      let '(dec, list) :=
        fold_left (fun '(dec, list) m =>
                     (if isDECMode m then true else dec,
                      list ++ [strconv_Itoa (Mode_Mode m)]))
                  modes (false, []) in
      let seq := if dec then seq ++ str "?" else seq in
      seq ++ strings_Join list (str ";") ++ cmd
  end.

Definition SetMode (modes : list Mode) : list byte := setMode false modes.
Definition SM (modes : list Mode) : list byte := SetMode modes.
Definition ResetMode (modes : list Mode) : list byte := setMode true modes.
Definition RM (modes : list Mode) : list byte := ResetMode modes.

(** [RequestMode(m)] *)
Definition RequestMode (m : Mode) : list byte :=
  let seq := esc "[" in
  let seq := if isDECMode m then seq ++ str "?" else seq in
  seq ++ strconv_Itoa (Mode_Mode m) ++ str "$p".
Definition DECRQM (m : Mode) : list byte := RequestMode m.

(** [ReportMode(mode, value)] *)
Definition ReportMode (mode value : Z) : list byte :=
  let mode := if mode <? 0 then 0 else mode in
  let value := if value <? 0 then 0 else value in
  esc "[" ++ strconv_Itoa mode ++ str ";" ++ strconv_Itoa value ++ str "$y".
Definition DECRPM (mode value : Z) : list byte := ReportMode mode value.

(** The mode constants and the sequences spelled out beside them. *)
Definition CursorKeysMode : Mode := DECMode 1.
Definition DECCKM : Mode := CursorKeysMode.
Definition SetCursorKeysMode : list byte := esc "[?1h".
Definition ResetCursorKeysMode : list byte := esc "[?1l".
Definition RequestCursorKeysMode : list byte := esc "[?1$p".
Definition EnableCursorKeys : list byte := esc "[?1h".
Definition DisableCursorKeys : list byte := esc "[?1l".
Definition OriginMode : Mode := DECMode 6.
Definition SetOriginMode : list byte := esc "[?6h".
Definition ResetOriginMode : list byte := esc "[?6l".
Definition RequestOriginMode : list byte := esc "[?6$p".
Definition AutowrapMode : Mode := DECMode 7.
Definition DECAWM : Mode := AutowrapMode.
Definition SetAutowrapMode : list byte := esc "[?7h".
Definition ResetAutowrapMode : list byte := esc "[?7l".
Definition RequestAutowrapMode : list byte := esc "[?7$p".
Definition X10MouseMode : Mode := DECMode 9.
Definition SetX10MouseMode : list byte := esc "[?9h".
Definition ResetX10MouseMode : list byte := esc "[?9l".
Definition RequestX10MouseMode : list byte := esc "[?9$p".
Definition TextCursorEnableMode : Mode := DECMode 25.
Definition DECTCEM : Mode := TextCursorEnableMode.
Definition SetTextCursorEnableMode : list byte := esc "[?25h".
Definition ResetTextCursorEnableMode : list byte := esc "[?25l".
Definition RequestTextCursorEnableMode : list byte := esc "[?25$p".
Definition ShowCursor : list byte := SetTextCursorEnableMode.
Definition HideCursor : list byte := ResetTextCursorEnableMode.
Definition CursorEnableMode : Mode := DECMode 25.
Definition RequestCursorVisibility : list byte := esc "[?25$p".
Definition NumericKeypadMode : Mode := DECMode 66.
Definition DECNKM : Mode := NumericKeypadMode.
Definition SetNumericKeypadMode : list byte := esc "[?66h".
Definition ResetNumericKeypadMode : list byte := esc "[?66l".
Definition RequestNumericKeypadMode : list byte := esc "[?66$p".
Definition NormalMouseMode : Mode := DECMode 1000.
Definition SetNormalMouseMode : list byte := esc "[?1000h".
Definition ResetNormalMouseMode : list byte := esc "[?1000l".
Definition RequestNormalMouseMode : list byte := esc "[?1000$p".
Definition MouseMode : Mode := DECMode 1000.
Definition EnableMouse : list byte := esc "[?1000h".
Definition DisableMouse : list byte := esc "[?1000l".
Definition RequestMouse : list byte := esc "[?1000$p".
Definition HighlightMouseMode : Mode := DECMode 1001.
Definition SetHighlightMouseMode : list byte := esc "[?1001h".
Definition ResetHighlightMouseMode : list byte := esc "[?1001l".
Definition RequestHighlightMouseMode : list byte := esc "[?1001$p".
Definition MouseHiliteMode : Mode := DECMode 1001.
Definition EnableMouseHilite : list byte := esc "[?1001h".
Definition DisableMouseHilite : list byte := esc "[?1001l".
Definition RequestMouseHilite : list byte := esc "[?1001$p".
Definition ButtonEventMouseMode : Mode := DECMode 1002.
Definition SetButtonEventMouseMode : list byte := esc "[?1002h".
Definition ResetButtonEventMouseMode : list byte := esc "[?1002l".
Definition RequestButtonEventMouseMode : list byte := esc "[?1002$p".
Definition MouseCellMotionMode : Mode := DECMode 1002.
Definition EnableMouseCellMotion : list byte := esc "[?1002h".
Definition DisableMouseCellMotion : list byte := esc "[?1002l".
Definition RequestMouseCellMotion : list byte := esc "[?1002$p".
Definition AnyEventMouseMode : Mode := DECMode 1003.
Definition SetAnyEventMouseMode : list byte := esc "[?1003h".
Definition ResetAnyEventMouseMode : list byte := esc "[?1003l".
Definition RequestAnyEventMouseMode : list byte := esc "[?1003$p".
Definition MouseAllMotionMode : Mode := DECMode 1003.
Definition EnableMouseAllMotion : list byte := esc "[?1003h".
Definition DisableMouseAllMotion : list byte := esc "[?1003l".
Definition RequestMouseAllMotion : list byte := esc "[?1003$p".
Definition FocusEventMode : Mode := DECMode 1004.
Definition SetFocusEventMode : list byte := esc "[?1004h".
Definition ResetFocusEventMode : list byte := esc "[?1004l".
Definition RequestFocusEventMode : list byte := esc "[?1004$p".
Definition ReportFocusMode : Mode := DECMode 1004.
Definition EnableReportFocus : list byte := esc "[?1004h".
Definition DisableReportFocus : list byte := esc "[?1004l".
Definition RequestReportFocus : list byte := esc "[?1004$p".
Definition MouseSgrExtMode : Mode := DECMode 1006.
Definition SetSgrExtMouseMode : list byte := esc "[?1006h".
Definition ResetSgrExtMouseMode : list byte := esc "[?1006l".
Definition RequestSgrExtMouseMode : list byte := esc "[?1006$p".
Definition EnableMouseSgrExt : list byte := esc "[?1006h".
Definition DisableMouseSgrExt : list byte := esc "[?1006l".
Definition RequestMouseSgrExt : list byte := esc "[?1006$p".
Definition AltScreenBufferMode : Mode := DECMode 1049.
Definition SetAltScreenBufferMode : list byte := esc "[?1049h".
Definition ResetAltScreenBufferMode : list byte := esc "[?1049l".
Definition RequestAltScreenBufferMode : list byte := esc "[?1049$p".
Definition EnableAltScreenBuffer : list byte := esc "[?1049h".
Definition DisableAltScreenBuffer : list byte := esc "[?1049l".
Definition RequestAltScreenBuffer : list byte := esc "[?1049$p".
Definition BracketedPasteMode : Mode := DECMode 2004.
Definition SetBracketedPasteMode : list byte := esc "[?2004h".
Definition ResetBracketedPasteMode : list byte := esc "[?2004l".
Definition RequestBracketedPasteMode : list byte := esc "[?2004$p".
Definition EnableBracketedPaste : list byte := esc "[?2004h".
Definition DisableBracketedPaste : list byte := esc "[?2004l".
Definition RequestBracketedPaste : list byte := esc "[?2004$p".
Definition SynchronizedOutputMode : Mode := DECMode 2026.
Definition SetSynchronizedOutputMode : list byte := esc "[?2026h".
Definition ResetSynchronizedOutputMode : list byte := esc "[?2026l".
Definition RequestSynchronizedOutputMode : list byte := esc "[?2026$p".
Definition SyncdOutputMode : Mode := DECMode 2026.
Definition EnableSyncdOutput : list byte := esc "[?2026h".
Definition DisableSyncdOutput : list byte := esc "[?2026l".
Definition RequestSyncdOutput : list byte := esc "[?2026$p".
Definition GraphemeClusteringMode : Mode := DECMode 2027.
Definition SetGraphemeClusteringMode : list byte := esc "[?2027h".
Definition ResetGraphemeClusteringMode : list byte := esc "[?2027l".
Definition RequestGraphemeClusteringMode : list byte := esc "[?2027$p".
Definition EnableGraphemeClustering : list byte := esc "[?2027h".
Definition DisableGraphemeClustering : list byte := esc "[?2027l".
Definition RequestGraphemeClustering : list byte := esc "[?2027$p".
Definition Win32InputMode : Mode := DECMode 9001.
Definition SetWin32InputMode : list byte := esc "[?9001h".
Definition ResetWin32InputMode : list byte := esc "[?9001l".
Definition RequestWin32InputMode : list byte := esc "[?9001$p".
Definition EnableWin32Input : list byte := esc "[?9001h".
Definition DisableWin32Input : list byte := esc "[?9001l".
Definition RequestWin32Input : list byte := esc "[?9001$p".

(** *** Sixel sequences *)
Record SixelSequence := mkSixelSequence {
  PixelWidth : Z;
  PixelHeight : Z;
  ImageWidth : Z;
  ImageHeight : Z;
  PaletteString : list byte;
  PixelString : list byte
}.

Definition SixelSequence_Clone (s : SixelSequence) : SixelSequence :=
  mkSixelSequence (PixelWidth s) (PixelHeight s) (ImageWidth s) (ImageHeight s)
                  (PaletteString s) (PixelString s).

(** [buffer()]: the bytes written to the [bytes.Buffer], in order. *)
Definition SixelSequence_buffer (s : SixelSequence) : list byte :=
  [Byte.x1b]
  (* P<a>;<b>;<c>q *)
  ++ str "P0;1;0q"
  ++ [Byte.x22]
  ++ strconv_Itoa (PixelWidth s)
  ++ [Byte.x3b]
  ++ strconv_Itoa (PixelHeight s)
  ++ [Byte.x3b]
  ++ strconv_Itoa (ImageWidth s)
  ++ [Byte.x3b]
  ++ strconv_Itoa (ImageHeight s)
  ++ PaletteString s
  ++ PixelString s
  (* ST *)
  ++ [Byte.x1b]
  ++ [Byte.x5c].

Definition SixelSequence_String (s : SixelSequence) : list byte :=
  SixelSequence_buffer s.
Definition SixelSequence_Bytes (s : SixelSequence) : list byte :=
  SixelSequence_buffer s.

End ansi.

(** ** Package cellbuf: the screen buffer collaborator *)
Module cellbuf.

(** Modelled from the spec: the colours of a pen, missing from the
    sources; a colour is unset ([None]) or one of basic (8/16),
    extended (256) and true-colour RGB. *)
Inductive Color : Set :=
  | BasicColor (k : Z)
  | ExtendedColor (k : Z)
  | RGBA (r g b a : Z).

Inductive UnderlineStyle : Set :=
  | NoUnderline
  | SingleUnderline
  | DoubleUnderline
  | CurlyUnderline
  | DottedUnderline
  | DashedUnderline.

(** Modelled from the spec: the pen ([cellbuf.Style]), missing from the
    sources: bold, faint, italic, underline style, the two blinks,
    reverse, conceal, strikethrough and the three colours. *)
Record Style := mkStyle {
  Fg : option Color;
  Bg : option Color;
  Ul : option Color;
  bold : bool;
  faint : bool;
  italic : bool;
  slowBlink : bool;
  rapidBlink : bool;
  reverse : bool;
  conceal : bool;
  strikethrough : bool;
  UlStyle : UnderlineStyle
}.

Definition zeroStyle : Style :=
  mkStyle None None None false false false false false false false false
          NoUnderline.

Definition Reset (_ : Style) : Style := zeroStyle.
Definition Bold (v : bool) (s : Style) : Style :=
  mkStyle (Fg s) (Bg s) (Ul s) v (faint s) (italic s) (slowBlink s)
          (rapidBlink s) (reverse s) (conceal s) (strikethrough s) (UlStyle s).
Definition Faint (v : bool) (s : Style) : Style :=
  mkStyle (Fg s) (Bg s) (Ul s) (bold s) v (italic s) (slowBlink s)
          (rapidBlink s) (reverse s) (conceal s) (strikethrough s) (UlStyle s).
Definition Italic (v : bool) (s : Style) : Style :=
  mkStyle (Fg s) (Bg s) (Ul s) (bold s) (faint s) v (slowBlink s)
          (rapidBlink s) (reverse s) (conceal s) (strikethrough s) (UlStyle s).
Definition SlowBlink (v : bool) (s : Style) : Style :=
  mkStyle (Fg s) (Bg s) (Ul s) (bold s) (faint s) (italic s) v
          (rapidBlink s) (reverse s) (conceal s) (strikethrough s) (UlStyle s).
Definition RapidBlink (v : bool) (s : Style) : Style :=
  mkStyle (Fg s) (Bg s) (Ul s) (bold s) (faint s) (italic s) (slowBlink s)
          v (reverse s) (conceal s) (strikethrough s) (UlStyle s).
Definition Reverse (v : bool) (s : Style) : Style :=
  mkStyle (Fg s) (Bg s) (Ul s) (bold s) (faint s) (italic s) (slowBlink s)
          (rapidBlink s) v (conceal s) (strikethrough s) (UlStyle s).
Definition Conceal (v : bool) (s : Style) : Style :=
  mkStyle (Fg s) (Bg s) (Ul s) (bold s) (faint s) (italic s) (slowBlink s)
          (rapidBlink s) (reverse s) v (strikethrough s) (UlStyle s).
Definition Strikethrough (v : bool) (s : Style) : Style :=
  mkStyle (Fg s) (Bg s) (Ul s) (bold s) (faint s) (italic s) (slowBlink s)
          (rapidBlink s) (reverse s) (conceal s) v (UlStyle s).
Definition SetUnderlineStyle (u : UnderlineStyle) (s : Style) : Style :=
  mkStyle (Fg s) (Bg s) (Ul s) (bold s) (faint s) (italic s) (slowBlink s)
          (rapidBlink s) (reverse s) (conceal s) (strikethrough s) u.
Definition Underline (v : bool) (s : Style) : Style :=
  SetUnderlineStyle (if v then SingleUnderline else NoUnderline) s.
Definition Foreground (c : option Color) (s : Style) : Style :=
  mkStyle c (Bg s) (Ul s) (bold s) (faint s) (italic s) (slowBlink s)
          (rapidBlink s) (reverse s) (conceal s) (strikethrough s) (UlStyle s).
Definition Background (c : option Color) (s : Style) : Style :=
  mkStyle (Fg s) c (Ul s) (bold s) (faint s) (italic s) (slowBlink s)
          (rapidBlink s) (reverse s) (conceal s) (strikethrough s) (UlStyle s).
Definition UnderlineColor (c : option Color) (s : Style) : Style :=
  mkStyle (Fg s) (Bg s) c (bold s) (faint s) (italic s) (slowBlink s)
          (rapidBlink s) (reverse s) (conceal s) (strikethrough s) (UlStyle s).

(** A style that keeps the background of [s] and nothing else. *)
Definition background_only (s : Style) : Style := Background (Bg s) zeroStyle.

Record Cell := mkCell {
  Content : string;
  Width : Z;
  CellStyle : Style
}.

Record Rectangle := mkRect {
  X : Z;
  Y : Z;
  RectWidth : Z;
  RectHeight : Z
}.

(** Modelled from the spec: the cell grid behind a screen, missing from
    the sources, as [w * h] cells in row-major order.  [Fill] writes
    the cell at every position of the rectangle that lies on the grid;
    [Clear] does so with the blank cell, over the whole grid when no
    rectangle is given. *)
Record Buffer := mkBuffer {
  buf_width : Z;
  buf_height : Z;
  cells : list Cell
}.

Definition blankCell : Cell := mkCell " " 1 zeroStyle.

Definition in_rect (r : Rectangle) (x y : Z) : bool :=
  (X r <=? x) && (x <? X r + RectWidth r)
  && (Y r <=? y) && (y <? Y r + RectHeight r).

Definition Fill (c : Cell) (r : Rectangle) (bf : Buffer) : Buffer :=
  mkBuffer (buf_width bf) (buf_height bf)
    (imap (fun k old =>
             let x := Z.of_nat k mod buf_width bf in
             let y := Z.of_nat k / buf_width bf in
             if in_rect r x y then c else old)
          (cells bf)).

Definition Clear (r : option Rectangle) (bf : Buffer) : Buffer :=
  match r with
  | None => mkBuffer (buf_width bf) (buf_height bf) (const blankCell <$> cells bf)
  | Some r => Fill blankCell r bf
  end.

Definition cell_at (bf : Buffer) (x y : Z) : option Cell :=
  if (0 <=? x) && (x <? buf_width bf) && (0 <=? y) && (y <? buf_height bf)
  then cells bf !! Z.to_nat (y * buf_width bf + x)
  else None.

End cellbuf.

(** ** Package vt: the CSI handlers of the terminal emulator *)
Module vt.
Import cellbuf.

Definition max (a b : Z) : Z := if a >? b then a else b.
Definition min (a b : Z) : Z := if a >? b then b else a.

Definition clamp (v low high : Z) : Z :=
  let '(low, high) := if high <? low then (high, low) else (low, high) in
  min high (max low v).

Inductive ModeSetting : Set :=
  | ModeReset
  | ModeSet.

#[global] Instance ModeSetting_eq_dec : EqDecision ModeSetting.
Proof. solve_decision. Defined.

Definition IsSet (m : ModeSetting) : bool :=
  match m with ModeSet => true | ModeReset => false end.

Record Cursor := mkCursor {
  PosX : Z;
  PosY : Z;
  Visible : bool;
  Pen : Style
}.

(** Modelled from the spec: the screen ([vt.Screen]), missing from the
    sources: a cell grid, a cursor with the current pen, and tab stops
    (the columns that carry a stop). *)
Record Screen := mkScreen {
  buf : Buffer;
  cur : Cursor;
  tabstops : list Z
}.

Definition Width (s : Screen) : Z := buf_width (buf s).
Definition Height (s : Screen) : Z := buf_height (buf s).

(** Modelled from the spec: [move_cursor(x, y)] places the cursor at
    [(x, y)]; [fill] and [clear] act on the grid. *)
Definition moveCursor (x y : Z) (s : Screen) : Screen :=
  mkScreen (buf s) (mkCursor x y (Visible (cur s)) (Pen (cur s))) (tabstops s).
Definition ScreenFill (c : Cell) (r : Rectangle) (s : Screen) : Screen :=
  mkScreen (Fill c r (buf s)) (cur s) (tabstops s).
Definition ScreenClear (r : option Rectangle) (s : Screen) : Screen :=
  mkScreen (Clear r (buf s)) (cur s) (tabstops s).
Definition set_Visible (v : bool) (s : Screen) : Screen :=
  mkScreen (buf s)
    (mkCursor (PosX (cur s)) (PosY (cur s)) v (Pen (cur s))) (tabstops s).
Definition set_Pen (pen : Style) (s : Screen) : Screen :=
  mkScreen (buf s)
    (mkCursor (PosX (cur s)) (PosY (cur s)) (Visible (cur s)) pen) (tabstops s).

(** Modelled from the spec: [next(column)] of the tab-stop collaborator
    advances to the next stop, or to the last column if none remain. *)
Definition Next (s : Screen) (col : Z) : Z :=
  foldr (fun stop acc => if (col <? stop) && (stop <? acc) then stop else acc)
        (Width s - 1) (tabstops s).

(** The terminal: two screens, [scr] pointing at one of them ([false]
    for [&t.scrs[0]], [true] for [&t.scrs[1]]), the parser context and
    the two mode tables. *)
Record Terminal := mkTerminal {
  scrs0 : Screen;
  scrs1 : Screen;
  scr : bool;
  parser : ansi.Parser;
  modes : gmap Z ModeSetting;
  pmodes : gmap Z ModeSetting
}.

(** [*t.scr] and assignments through [t.scr]. *)
Definition active (t : Terminal) : Screen :=
  if scr t then scrs1 t else scrs0 t.
Definition set_active (t : Terminal) (s : Screen) : Terminal :=
  if scr t
  then mkTerminal (scrs0 t) s (scr t) (parser t) (modes t) (pmodes t)
  else mkTerminal s (scrs1 t) (scr t) (parser t) (modes t) (pmodes t).
Definition set_scr (t : Terminal) (k : bool) : Terminal :=
  mkTerminal (scrs0 t) (scrs1 t) k (parser t) (modes t) (pmodes t).
Definition set_modes (t : Terminal) (m : gmap Z ModeSetting) : Terminal :=
  mkTerminal (scrs0 t) (scrs1 t) (scr t) (parser t) m (pmodes t).
Definition set_pmodes (t : Terminal) (m : gmap Z ModeSetting) : Terminal :=
  mkTerminal (scrs0 t) (scrs1 t) (scr t) (parser t) (modes t) m.
Definition set_parser (t : Terminal) (p : ansi.Parser) : Terminal :=
  mkTerminal (scrs0 t) (scrs1 t) (scr t) p (modes t) (pmodes t).

Definition spaceCell : Cell := mkCell " " 1 zeroStyle.

(** [c := spaceCell; c.Style = t.scr.cur.Pen] *)
Definition penCell (s : Screen) : Cell :=
  mkCell (Content spaceCell) (cellbuf.Width spaceCell) (Pen (cur s)).

Definition CursorEnableMode : Z := 25.
Definition AltScreenBufferMode : Z := 1049.

Section handlers.
Context `{!parser.Consts}.

(** The handlers read parameters with the argument-less accessor
    [Param()] of the packed parameter; [missing_value] is what that
    accessor reports for an omitted parameter. *)
Variable missing_value : Z.

Definition ParamValue (s : Z) : Z := ansi.Parameter_Param s missing_value.

(** [handleMode] *)
Definition handleMode (t : Terminal) : result Terminal :=
  if ansi.paramsLen (parser t) =? 0 then Ok t
  else
    let cmd := ansi.cmd (parser t) in
    p0 ← index (ansi.params (parser t)) 0;
    let mode := ParamValue p0 in
    let setting :=
      if ansi.Command_Command cmd =? 0x68 then ModeSet else ModeReset in
    if ansi.Command_Marker cmd =? 0x3F then
      let t1 := set_pmodes t (<[mode := setting]> (pmodes t)) in
      if mode =? CursorEnableMode then
        Ok (set_active t1 (set_Visible (IsSet setting) (active t1)))
      else if mode =? 1047 then
        (* Alternate Screen Buffer *)
        if bool_decide (setting = ModeSet)
        then Ok (set_scr t1 true)
        else Ok (set_scr t1 false)
      else if mode =? AltScreenBufferMode then
        if bool_decide (setting = ModeSet) then
          let t2 := set_scr t1 true in
          Ok (set_active t2 (ScreenClear None (active t2)))
        else Ok (set_scr t1 false)
      else Ok t1
    else Ok (set_modes t (<[mode := setting]> (modes t))).

(** [handleScreen] *)
Definition handleScreen (t : Terminal) : result Terminal :=
  count ← (if 0 <? ansi.paramsLen (parser t)
           then p0 ← index (ansi.params (parser t)) 0; Ok (ParamValue p0)
           else Ok 0);
  let s := active t in
  let w := Width s in
  let h := Height s in
  let y := PosY (cur s) in
  if ansi.Command_Command (ansi.cmd (parser t)) =? 0x4A then
    if count =? 0 then
      Ok (set_active t (ScreenClear (Some (mkRect 0 y w (int_wrap (h - y)))) s))
    else if count =? 1 then
      Ok (set_active t (ScreenClear (Some (mkRect 0 0 w (int_wrap (y + 1)))) s))
    else if (count =? 2) || (count =? 3) then
      Ok (set_active t (ScreenClear (Some (mkRect 0 0 w h)) s))
    else Ok t
  else Ok t.

(** [handleLine] *)
Definition handleLine (t : Terminal) : result Terminal :=
  count ← (if 0 <? ansi.paramsLen (parser t)
           then p0 ← index (ansi.params (parser t)) 0; Ok (ParamValue p0)
           else Ok 0);
  if ansi.Command_Command (ansi.cmd (parser t)) =? 0x4B then
    let s := active t in
    let x := PosX (cur s) in
    let y := PosY (cur s) in
    let w := Width s in
    if count =? 0 then
      Ok (set_active t
            (ScreenFill (penCell s) (mkRect x y (int_wrap (w - x)) 1) s))
    else if count =? 1 then
      Ok (set_active t
            (ScreenFill (penCell s) (mkRect 0 y (int_wrap (x + 1)) 1) s))
    else if count =? 2 then
      Ok (set_active t (ScreenFill (penCell s) (mkRect 0 y w 1) s))
    else Ok t
  else Ok t.

(** [handleCursor] *)
Definition handleCursor (t : Terminal) : result Terminal :=
  let p := parser t in
  let s := active t in
  let width := Width s in
  let height := Height s in
  n ← (if 0 <? ansi.paramsLen p then index (ansi.params p) 0 else Ok 1);
  let x := PosX (cur s) in
  let y := PosY (cur s) in
  let c := ansi.Command_Command (ansi.cmd p) in
  '(x', y', s') ←
    (if c =? 0x41 then (* CUU - Cursor Up *)
       Ok (x, max 0 (int_wrap (y - n)), s)
     else if c =? 0x42 then (* CUD - Cursor Down *)
       Ok (x, min (int_wrap (height - 1)) (int_wrap (y + n)), s)
     else if c =? 0x43 then (* CUF - Cursor Forward *)
       Ok (min (int_wrap (width - 1)) (int_wrap (x + n)), y, s)
     else if c =? 0x44 then (* CUB - Cursor Back *)
       Ok (max 0 (int_wrap (x - n)), y, s)
     else if c =? 0x45 then (* CNL - Cursor Next Line *)
       Ok (0, min (int_wrap (height - 1)) (int_wrap (y + n)), s)
     else if c =? 0x46 then (* CPL - Cursor Previous Line *)
       Ok (0, max 0 (int_wrap (y - n)), s)
     else if c =? 0x47 then (* CHA - Cursor Character Absolute *)
       Ok (min (int_wrap (width - 1)) (max 0 (int_wrap (n - 1))), y, s)
     else if (c =? 0x48) || (c =? 0x66) then (* CUP, HVP *)
       if 2 <=? ansi.paramsLen p then
         p0 ← index (ansi.params p) 0;
         p1 ← index (ansi.params p) 1;
         let row := ParamValue p0 in
         let col := ParamValue p1 in
         Ok (min (int_wrap (width - 1)) (max 0 (int_wrap (col - 1))),
             min (int_wrap (height - 1)) (max 0 (int_wrap (row - 1))), s)
       else Ok (0, 0, s)
     else if c =? 0x49 then (* CHT - Cursor Forward Tabulation *)
       Ok (Nat.iter (Z.to_nat n) (Next s) x, y, s)
     else if c =? 0x58 then (* ECH - Erase Character *)
       Ok (min (int_wrap (width - 1)) (int_wrap (x + n)), y,
           ScreenFill (penCell s) (mkRect x y n 1) s)
     else if c =? 0x64 then (* VPA - Vertical Line Position Absolute *)
       Ok (x, min (int_wrap (height - 1)) (max 0 (int_wrap (n - 1))), s)
     else if c =? 0x65 then (* VPR - Vertical Line Position Relative *)
       Ok (x, min (int_wrap (height - 1)) (max 0 (int_wrap (y + n))), s)
     else Ok (x, y, s));
  Ok (set_active t (moveCursor x' y' s')).

(** [readColor]: the colour read, if any, and the value left in
    [*idxp]. *)
Definition readColor (i : Z) (params : list Z) : result (option Color * Z) :=
  let paramsLen := len params in
  if i >? paramsLen - 1 then Ok (None, i)
  else
    (* Note: we accept both main and subparams here *)
    param ← index params (i + 1);
    if param =? 2 then (* RGB *)
      if i >? paramsLen - 4 then Ok (None, i)
      else
        r ← index params (i + 2);
        g ← index params (i + 3);
        b ← index params (i + 4);
        Ok (Some (RGBA (uint8 r) (uint8 g) (uint8 b) 0xff), i + 4)
    else if param =? 5 then (* 256 colors *)
      if i >? paramsLen - 2 then Ok (None, i)
      else
        v ← index params (i + 2);
        Ok (Some (ExtendedColor (uint8 v)), i + 2)
    else Ok (None, i).

(** One iteration of the loop of [handleSgr] at index [i]: the new
    pen and the value of [i] before the loop's [i++]. *)
Definition sgrStep (params : list Z) (i : Z) (pen : Style)
  : result (Style * Z) :=
  r ← index params i;
  let param := ParamValue r in
  let hasMore := ansi.Parameter_HasMore r in
  if param =? 0 then Ok (Reset pen, i)
  else if param =? 1 then Ok (Bold true pen, i)
  else if param =? 2 then Ok (Faint true pen, i)
  else if param =? 3 then Ok (Italic true pen, i)
  else if param =? 4 then
    if hasMore then
      (* Only accept subparameters i.e. separated by ":" *)
      nx ← index params (i + 1);
      let nextParam := ParamValue nx in
      if nextParam =? 0 then Ok (SetUnderlineStyle NoUnderline pen, i)
      else if nextParam =? 1 then Ok (SetUnderlineStyle SingleUnderline pen, i)
      else if nextParam =? 2 then Ok (SetUnderlineStyle DoubleUnderline pen, i)
      else if nextParam =? 3 then Ok (SetUnderlineStyle CurlyUnderline pen, i)
      else if nextParam =? 4 then Ok (SetUnderlineStyle DottedUnderline pen, i)
      else if nextParam =? 5 then Ok (SetUnderlineStyle DashedUnderline pen, i)
      else Ok (pen, i)
    else Ok (Underline true pen, i)
  else if param =? 5 then Ok (SlowBlink true pen, i)
  else if param =? 6 then Ok (RapidBlink true pen, i)
  else if param =? 7 then Ok (Reverse true pen, i)
  else if param =? 8 then Ok (Conceal true pen, i)
  else if param =? 9 then Ok (Strikethrough true pen, i)
  else if param =? 22 then Ok (Faint false (Bold false pen), i)
  else if param =? 23 then Ok (Italic false pen, i)
  else if param =? 24 then Ok (Underline false pen, i)
  else if param =? 25 then Ok (RapidBlink false (SlowBlink false pen), i)
  else if param =? 27 then Ok (Reverse false pen, i)
  else if param =? 28 then Ok (Conceal false pen, i)
  else if param =? 29 then Ok (Strikethrough false pen, i)
  else if (30 <=? param) && (param <=? 37) then
    Ok (Foreground (Some (BasicColor (uint8 (param - 30)))) pen, i)
  else if param =? 38 then
    '(c, i') ← readColor i params;
    Ok (match c with Some _ => Foreground c pen | None => pen end, i')
  else if param =? 39 then Ok (Foreground None pen, i)
  else if (40 <=? param) && (param <=? 47) then
    Ok (Background (Some (BasicColor (uint8 (param - 40)))) pen, i)
  else if param =? 48 then
    '(c, i') ← readColor i params;
    Ok (match c with Some _ => Background c pen | None => pen end, i')
  else if param =? 49 then Ok (Background None pen, i)
  else if param =? 58 then
    '(c, i') ← readColor i params;
    Ok (match c with Some _ => UnderlineColor c pen | None => pen end, i')
  else if param =? 59 then Ok (UnderlineColor None pen, i)
  else if (90 <=? param) && (param <=? 97) then
    Ok (Foreground (Some (BasicColor (uint8 (8 + uint8 (param - 90))))) pen, i)
  else if (100 <=? param) && (param <=? 107) then
    Ok (Background (Some (BasicColor (uint8 (8 + uint8 (param - 100))))) pen, i)
  else Ok (pen, i).

(** The loop [for i := 0; i < len(params); i++]; every iteration
    advances [i], so [fuel = len(params)] iterations are enough. *)
Fixpoint sgrLoop (fuel : nat) (params : list Z) (i : Z) (pen : Style)
  : result Style :=
  match fuel with
  | O => Ok pen
  | S fuel' =>
      if i <? len params then
        '(pen', i') ← sgrStep params i pen;
        sgrLoop fuel' params (i' + 1) pen'
      else Ok pen
  end.

(** [handleSgr] *)
Definition handleSgr (t : Terminal) : result Terminal :=
  let p := parser t in
  let s := active t in
  if ansi.paramsLen p =? 0 then
    Ok (set_active t (set_Pen (Reset (Pen (cur s))) s))
  else if bool_decide (0 <= ansi.paramsLen p <= len (ansi.params p)) then
    let params := slice_to (ansi.params p) (ansi.paramsLen p) in
    pen ← sgrLoop (length params) params 0 (Pen (cur s));
    Ok (set_active t (set_Pen pen s))
  else Panic.

(** [handleCsi]: dispatch on the packed command of the parser. *)
Definition handleCsi (t : Terminal) : result Terminal :=
  let cmd := ansi.cmd (parser t) in
  if (cmd =? 0x41) || (cmd =? 0x42) || (cmd =? 0x43) || (cmd =? 0x44)
     || (cmd =? 0x45) || (cmd =? 0x46) || (cmd =? 0x47) || (cmd =? 0x48)
     || (cmd =? 0x49) || (cmd =? 0x58) || (cmd =? 0x64) || (cmd =? 0x65)
  then handleCursor t
  else if cmd =? 0x6D then handleSgr t
  else if cmd =? 0x4A then handleScreen t
  else if (cmd =? 0x4B) || (cmd =? 0x4C) || (cmd =? 0x4D) || (cmd =? 0x53)
          || (cmd =? 0x54)
  then handleLine t
  else if (cmd =? 0x6C) || (cmd =? 0x68)
          || (cmd =? Z.lor 0x6C (int_wrap (Z.shiftl 0x3F parser.MarkerShift)))
          || (cmd =? Z.lor 0x68 (int_wrap (Z.shiftl 0x3F parser.MarkerShift)))
  then handleMode t
  else Ok t.

End handlers.

End vt.

(** ** Package input: the X10 mouse report *)
Module input.

Inductive MouseButton : Set :=
  | MouseNone
  | MouseLeft
  | MouseMiddle
  | MouseRight
  | MouseWheelUp
  | MouseWheelDown
  | MouseWheelLeft
  | MouseWheelRight
  | MouseBackward
  | MouseForward
  | MouseButton10
  | MouseButton11.

(** The modifier set [{shift, alt, ctrl}]. *)
Record KeyMod := mkMod {
  ModShift : bool;
  ModAlt : bool;
  ModCtrl : bool
}.

Record Mouse := mkMouse {
  X : Z;
  Y : Z;
  Button : MouseButton;
  Mod : KeyMod
}.

Inductive Event : Set :=
  | MouseClickEvent (m : Mouse)
  | MouseReleaseEvent (m : Mouse)
  | MouseMotionEvent (m : Mouse)
  | MouseWheelEvent (m : Mouse).

Definition mouse_of (e : Event) : Mouse :=
  match e with
  | MouseClickEvent m | MouseReleaseEvent m
  | MouseMotionEvent m | MouseWheelEvent m => m
  end.

(** [byte(z)]: conversion of an [int] to a byte keeps the low 8 bits. *)
Definition to_byte (z : Z) : byte :=
  default Byte.x00 (Byte.of_N (Z.to_N (z mod 256))).

(** The [encode] helper of [TestParseX10MouseDownEvent]:
    [ESC [ M], then [byte(32) + b], [byte(x + 32 + 1)], [byte(y + 32 + 1)]. *)
Definition encode (b : byte) (x y : Z) : list byte :=
  [ Byte.x1b; Byte.x5b; Byte.x4d;
    to_byte (32 + bval b); to_byte (x + 32 + 1); to_byte (y + 32 + 1) ].

(** Modelled from the spec: the button byte of a mouse report, decoded
    by [parseMouseButton], missing from the sources.  Bits 0-1 select
    the base button, bit 2 is shift, bit 3 alt, bit 4 ctrl, bit 5 the
    motion flag, bit 6 marks a wheel report and bit 7 an
    extended-button report. *)
Definition parseMouseButton (b : Z) : KeyMod * MouseButton * bool * bool :=
  let low := Z.land b 3 in
  let btn :=
    if Z.testbit b 6 then
      (if low =? 0 then MouseWheelUp else if low =? 1 then MouseWheelDown
       else if low =? 2 then MouseWheelLeft else MouseWheelRight)
    else if Z.testbit b 7 then
      (if low =? 0 then MouseBackward else if low =? 1 then MouseForward
       else if low =? 2 then MouseButton10 else MouseButton11)
    else
      (if low =? 0 then MouseLeft else if low =? 1 then MouseMiddle
       else if low =? 2 then MouseRight else MouseNone) in
  let isMotion := Z.testbit b 5 in
  let isRelease :=
    negb isMotion && negb (Z.testbit b 6) && negb (Z.testbit b 7) && (low =? 3) in
  (mkMod (Z.testbit b 2) (Z.testbit b 3) (Z.testbit b 4), btn, isRelease, isMotion).

Definition isWheel (btn : MouseButton) : bool :=
  match btn with
  | MouseWheelUp | MouseWheelDown | MouseWheelLeft | MouseWheelRight => true
  | _ => false
  end.

(** Modelled from the spec: [parseX10MouseEvent], missing from the
    sources (only its test is there).  The three bytes after the
    prefix [ESC [ M] are the button byte (offset by 32) and the two
    coordinates; the coordinates are decoded as
    [x = raw_x_byte - 33], [y = raw_y_byte - 33] in signed arithmetic,
    with no correction for the wrap-around of the wire byte. *)
Definition parseX10MouseEvent (buf : list byte) : result Event :=
  v0 ← index buf 3;
  v1 ← index buf 4;
  v2 ← index buf 5;
  let b := bval v0 - 32 in
  let '(mod_, btn, isRelease, isMotion) := parseMouseButton b in
  let x := bval v1 - 33 in
  let y := bval v2 - 33 in
  let m := mkMouse x y btn mod_ in
  if isWheel btn then Ok (MouseWheelEvent m)
  else if isMotion then Ok (MouseMotionEvent m)
  else if isRelease then Ok (MouseReleaseEvent m)
  else Ok (MouseClickEvent m).

End input.

(** ** Vocabulary of the statements *)

(** The layout the spec gives to a packed command: each field masked to
    8 bits, the final byte in the low byte, then the marker, then the
    intermediate. *)
Definition command_layout `{!parser.Consts} : Prop :=
  parser.CommandMask = 0xff /\ parser.MarkerShift = 8
  /\ parser.IntermedShift = 16.

(** What a packed parameter needs: the has-more flag lies outside the
    value mask, and the missing sentinel inside it. *)
Definition param_layout `{!parser.Consts} : Prop :=
  Z.land parser.HasMoreFlag parser.ParamMask = 0
  /\ parser.HasMoreFlag <> 0
  /\ Z.land parser.MissingParam parser.ParamMask = parser.MissingParam.

(** A parameter value in range: representable under the mask and not
    the sentinel. *)
Definition param_in_range `{!parser.Consts} (p : Z) : Prop :=
  Z.land p parser.ParamMask = p /\ p <> parser.MissingParam.

Definition valid_marker (m : Z) : Prop := m = 0 \/ 0x3C <= m <= 0x3F.
Definition valid_intermediate (i : Z) : Prop := i = 0 \/ 0x20 <= i <= 0x2F.
Definition valid_final (c : Z) : Prop := 0x40 <= c <= 0x7E.

(** ** Inputs used to run the code *)

(** The value taken for [missing_value] when a handler is run on a
    concrete input; none of the inputs below has an omitted parameter. *)
Definition no_value : Z := -1.

(** A parser context with [k] parameter slots and [d] data bytes, as a
    fresh context is before its first use. *)
Definition fresh_parser (k d : nat) : ansi.Parser :=
  ansi.mkParser (replicate k 0) 0 0 (replicate d Byte.x00) 0.

(** [ESC [ 1 ; 2 m] *)
Definition sgr_two_params : list byte :=
  [Byte.x1b; Byte.x5b; Byte.x31; Byte.x3b; Byte.x32; Byte.x6d].

(** [ESC [ ; ; m] *)
Definition sgr_two_separators : list byte :=
  [Byte.x1b; Byte.x5b; Byte.x3b; Byte.x3b; Byte.x6d].

(** [ESC [ 1;1; ... ;1 m] with 33 parameters. *)
Definition sgr_33_params : list byte :=
  [Byte.x1b; Byte.x5b] ++ concat (replicate 32 [Byte.x31; Byte.x3b])
  ++ [Byte.x31; Byte.x6d].

(** A screen of [w] columns and [h] rows, all blank, with the cursor at
    [(x, y)], the pen [pen] and a tab stop every eight columns. *)
Definition blank_screen (w h : nat) (x y : Z) (pen : cellbuf.Style) : vt.Screen :=
  vt.mkScreen
    (cellbuf.mkBuffer (Z.of_nat w) (Z.of_nat h)
                      (replicate (w * h) cellbuf.blankCell))
    (vt.mkCursor x y true pen)
    (map (fun k => Z.of_nat (8 * S k)) (seq 0 ((w - 1) / 8))).

(** A terminal on the primary screen with the given parser context. *)
Definition terminal_with (s0 s1 : vt.Screen) (p : ansi.Parser) : vt.Terminal :=
  vt.mkTerminal s0 s1 false p ∅ ∅.


(** [ESC [ 9223372036854775807 B]: cursor down by the largest [int]. *)
Definition cud_max_int : list byte :=
  [Byte.x1b; Byte.x5b; Byte.x39; Byte.x32; Byte.x32; Byte.x33; Byte.x33;
   Byte.x37; Byte.x32; Byte.x30; Byte.x33; Byte.x36; Byte.x38; Byte.x35;
   Byte.x34; Byte.x37; Byte.x37; Byte.x35; Byte.x38; Byte.x30; Byte.x37;
   Byte.x42].

(** [ESC [ 9999999999999999999 B]: a count of nineteen nines. *)
Definition cud_nineteen_nines : list byte :=
  [Byte.x1b; Byte.x5b] ++ replicate 19 Byte.x39 ++ [Byte.x42].

(** [ESC [ 3 8 m], [ESC [ 3 8 ; 5 m] and [ESC [ 3 8 ; 2 ; 1 ; 2 m] *)
Definition sgr_38 : list byte :=
  [Byte.x1b; Byte.x5b; Byte.x33; Byte.x38; Byte.x6d].
Definition sgr_38_5 : list byte :=
  [Byte.x1b; Byte.x5b; Byte.x33; Byte.x38; Byte.x3b; Byte.x35; Byte.x6d].
Definition sgr_38_2_1_2 : list byte :=
  [Byte.x1b; Byte.x5b; Byte.x33; Byte.x38; Byte.x3b; Byte.x32; Byte.x3b;
   Byte.x31; Byte.x3b; Byte.x32; Byte.x6d].

(** [ESC [ ? 1 0 4 7 h] and [ESC [ 3 X] *)
Definition set_mode_1047 : list byte :=
  [Byte.x1b; Byte.x5b; Byte.x3f; Byte.x31; Byte.x30; Byte.x34; Byte.x37;
   Byte.x68].
Definition ech_3 : list byte := [Byte.x1b; Byte.x5b; Byte.x33; Byte.x58].

(** [ESC [ 9223372036854775807 X]: erase the largest [int] of cells. *)
Definition ech_max_int : list byte :=
  [Byte.x1b; Byte.x5b] ++ strconv_Itoa 9223372036854775807 ++ [Byte.x58].

(** The context the scanner leaves after decoding [b] with a fresh
    16-slot context, under the layout [layout32]. *)
Definition context_after (b : list byte) : result ansi.Parser :=
  r ← @ansi.DecodeSequence layout32 one_rune_segmenter b ansi.NormalState
        (Some (fresh_parser 16 0));
  match ansi.ctx r with Some P => Ok P | None => Panic end.

(** Decode [b], then let the terminal [t] handle it as a CSI sequence. *)
Definition decode_and_handle (t : vt.Terminal) (b : list byte)
  : result vt.Terminal :=
  P ← context_after b;
  @vt.handleCsi layout32 no_value (vt.set_parser t P).

(** A pen that is bold on a red background, and a cell showing [x]. *)
Definition bold_on_red : cellbuf.Style :=
  cellbuf.Bold true (cellbuf.Background (Some (cellbuf.BasicColor 1))
                                        cellbuf.zeroStyle).
Definition cell_x : cellbuf.Cell := cellbuf.mkCell "x" 1 cellbuf.zeroStyle.

(** A screen like [blank_screen], showing [x] in its top-left cell. *)
Definition marked_screen (w h : nat) : vt.Screen :=
  let s := blank_screen w h 0 0 cellbuf.zeroStyle in
  vt.mkScreen
    (cellbuf.mkBuffer (cellbuf.buf_width (vt.buf s)) (cellbuf.buf_height (vt.buf s))
                      (<[0%nat := cell_x]> (cellbuf.cells (vt.buf s))))
    (vt.cur s) (vt.tabstops s).

(** Where the cursor of the active screen is. *)
Definition cursor_pos (t : vt.Terminal) : Z * Z :=
  (vt.PosX (vt.cur (vt.active t)), vt.PosY (vt.cur (vt.active t))).

(** The cursor lies on the active screen. *)
Definition cursor_in_bounds (t : vt.Terminal) : Prop :=
  0 <= vt.PosX (vt.cur (vt.active t)) <= vt.Width (vt.active t) - 1
  /\ 0 <= vt.PosY (vt.cur (vt.active t)) <= vt.Height (vt.active t) - 1.


(** A well-formed cell grid: at least one column, and [w * h] cells. *)
Definition grid_ok (bf : cellbuf.Buffer) : Prop :=
  0 < cellbuf.buf_width bf /\ 0 <= cellbuf.buf_height bf
  /\ len (cellbuf.cells bf) = cellbuf.buf_width bf * cellbuf.buf_height bf.

(** The parser context holds a mode request: marker [?], the final byte
    [final], and [mode] as its one parameter. *)
Definition mode_request `{!parser.Consts} (t : vt.Terminal) (final mode : Z) : Prop :=
  ansi.cmd (vt.parser t) = ansi.Cmd 0x3F 0 final
  /\ ansi.paramsLen (vt.parser t) = 1
  /\ ansi.params (vt.parser t) !! 0%nat = Some (ansi.Param mode false).


(** The count a cursor command reads: the first parameter slot as it is
    stored, or 1 when the sequence has no parameter. *)
Definition first_count (P : ansi.Parser) : option Z :=
  if 0 <? ansi.paramsLen P then ansi.params P !! 0%nat else Some 1.

(** [ESC [ ? 1 0 4 9 h] *)
Definition set_mode_1049 : list byte :=
  [Byte.x1b; Byte.x5b; Byte.x3f; Byte.x31; Byte.x30; Byte.x34; Byte.x39;
   Byte.x68].

(** A terminal whose alternate screen shows [x] in its top-left cell,
    holding the request [ESC [ ? 1049 h] as the scanner leaves it. *)
Definition terminal_1049 : vt.Terminal :=
  terminal_with (blank_screen 80 24 0 0 cellbuf.zeroStyle) (marked_screen 80 24)
                (ansi.mkParser (1049 :: replicate 15 0) 1 0x3F68 [] 0).

(** A terminal with the cursor at [(2, 1)] and a bold-on-red pen,
    holding the request [ESC [ 3 X] as the scanner leaves it. *)
Definition terminal_ech : vt.Terminal :=
  terminal_with (blank_screen 80 24 2 1 bold_on_red)
                (blank_screen 80 24 0 0 cellbuf.zeroStyle)
                (ansi.mkParser (3 :: replicate 15 0) 1 0x58 [] 0).


(** ** Vocabulary of the scanner statements *)

(** The bytes on which the scanner gives up in each state: the byte [c]
    read in [state], followed in the buffer by [rest], fits no
    transition of that state.  [MarkerState] and [ParamsState] fall
    through to [IntermedState] before giving up. *)
Definition aborts_in (state : ansi.State) (c : byte) (rest : list byte) : Prop :=
  match state with
  | ansi.NormalState => False
  | ansi.EscapeState | ansi.MarkerState => bval c < 0x20 \/ 0x7E < bval c
  | ansi.ParamsState =>
      bval c < 0x20 \/ 0x7E < bval c \/ 0x3C <= bval c <= 0x3F
  | ansi.IntermedState =>
      bval c < 0x20 \/ 0x7E < bval c \/ 0x30 <= bval c <= 0x3F
  | ansi.StringState =>
      bval c = ansi.CAN \/ bval c = ansi.SUB
      \/ (bval c = ansi.ESC /\ ansi.HasStPrefix (c :: rest) = false)
  end.

(** The data cursor of a context lies inside its data buffer (whose
    length, as that of any slice, is an [int]). *)
Definition data_ok (p : option ansi.Parser) : Prop :=
  match p with
  | None => True
  | Some P => 0 <= ansi.dataLen P <= len (ansi.data P) /\ len (ansi.data P) < 2 ^ 63
  end.

(** The contract of the grapheme collaborator: the first cluster of a
    non-empty buffer is a non-empty part of it. *)
Definition segmenter_ok `{!Segmenter} : Prop :=
  forall b state,
    b <> [] ->
    1 <= len (uniseg_FirstGraphemeCluster b state).1.1.1 <= len b.

(** The run of one outcome of the scanner, moved to a buffer [b'] in
    which the same bytes lie [shift] positions further on. *)
Definition relocate (b' : list byte) (shift : Z) (o : ansi.Outcome) : ansi.Outcome :=
  match o with
  | ansi.Continue s p => ansi.Continue s p
  | ansi.Return r =>
      ansi.Return (ansi.mkDecoded (slice_to b' (ansi.n r + shift)) (ansi.width r)
                                  (ansi.n r + shift) (ansi.newState r) (ansi.ctx r))
  end.

(** The bytes that, after [ESC], introduce a CSI, DCS or string
    sequence: [[ P ] X ^ _]. *)
Definition is_introducer (c : byte) : bool :=
  (bval c =? 0x5B) || (bval c =? 0x50) || (bval c =? 0x5D)
  || (bval c =? 0x58) || (bval c =? 0x5E) || (bval c =? 0x5F).

(** A plain escape sequence: [ESC] followed by bytes none of which is an
    introducer. *)
Definition plain_escape (b : list byte) : bool :=
  match b with
  | [] => false
  | c :: rest => (bval c =? ansi.ESC) && forallb (fun x => negb (is_introducer x)) rest
  end.

(** The states of a CSI or plain escape sequence under way, with the
    bytes still to come: after [ESC] either [[] comes next or no
    introducer comes at all. *)
Definition csi_or_esc_state (s : ansi.State) (rest : list byte) : bool :=
  match s with
  | ansi.MarkerState | ansi.ParamsState | ansi.IntermedState => true
  | ansi.EscapeState =>
      match rest with
      | [] => true
      | c :: _ => (bval c =? 0x5B) || forallb (fun x => negb (is_introducer x)) rest
      end
  | _ => false
  end.


(** A buffer that starts a CSI sequence (7-bit or 8-bit introducer) or a
    plain escape sequence. *)
Definition csi_or_plain_escape (b : list byte) : bool :=
  ansi.HasCsiPrefix b || plain_escape b.

(** [ESC ] 0 ; t BEL] (an OSC string ended by BEL), cut after [ESC ] 0]. *)
Definition osc_head : list byte := [Byte.x1b; Byte.x5d; Byte.x30].
Definition osc_tail : list byte := [Byte.x3b; Byte.x74; Byte.x07].

(** [ESC P 1 q x ESC \] (a DCS string), cut after [ESC P 1]. *)
Definition dcs_head : list byte := [Byte.x1b; Byte.x50; Byte.x31].
Definition dcs_tail : list byte := [Byte.x71; Byte.x78; Byte.x1b; Byte.x5c].

(** [ESC [ 1 ; 3 1 m], cut after [ESC [ 1 ;]. *)
Definition sgr_head : list byte := [Byte.x1b; Byte.x5b; Byte.x31; Byte.x3b].
Definition sgr_tail : list byte := [Byte.x33; Byte.x31; Byte.x6d].


(** Two contexts with the same data buffer and data cursor. *)
Definition same_data (P P' : ansi.Parser) : Prop :=
  ansi.data P' = ansi.data P /\ ansi.dataLen P' = ansi.dataLen P.

(** The number of parameter separators ([;] and [:]) in a buffer. *)
Fixpoint separators (b : list byte) : Z :=
  match b with
  | [] => 0
  | c :: rest =>
      (if (bval c =? 0x3B) || (bval c =? 0x3A) then 1 else 0) + separators rest
  end.

(** The context, if there is one, has a slot left after every separator
    of the buffer: its slots (fewer than [2^63], as in any slice) are
    more than the parameters already counted plus the separators to
    come. *)
Definition has_room (b : list byte) (p : option ansi.Parser) : Prop :=
  match p with
  | None => True
  | Some P =>
      data_ok (Some P) /\ len (ansi.params P) < 2 ^ 63
      /\ 0 <= ansi.paramsLen P
      /\ ansi.paramsLen P + separators b < len (ansi.params P)
  end.

(** The loop of the documentation example of [DecodeSequence]:
    [for len(input) > 0 { seq, width, n, newState := DecodeSequence(input,
    state, p); state = newState; input = input[n:] }], with the tokens
    it meets collected.  [fuel] bounds the number of calls: [None] when
    they do not suffice. *)
Fixpoint decode_loop `{!parser.Consts} `{!Segmenter} (fuel : nat)
    (input : list byte) (state : ansi.State) (p : option ansi.Parser)
  : result (option (list ansi.Decoded)) :=
  match input, fuel with
  | [], _ => Ok (Some [])
  | _ :: _, O => Ok None
  | _ :: _, S fuel' =>
      r ← ansi.DecodeSequence input state p;
      rest ← decode_loop fuel' (slice_from input (ansi.n r)) (ansi.newState r)
                         (ansi.ctx r);
      Ok (match rest with Some tokens => Some (r :: tokens) | None => None end)
  end.

(** What the scan keeps true of a context that has room, with [rest]
    still to be read in state [s]. *)
Definition room_inv (s : ansi.State) (rest : list byte) (P : ansi.Parser) : Prop :=
  data_ok (Some P) /\ len (ansi.params P) < 2 ^ 63
  /\ (s = ansi.StringState
      \/ (0 <= ansi.paramsLen P
          /\ ansi.paramsLen P + separators rest < len (ansi.params P))).


(** An operation on the parameter slots that keeps the data buffer and
    the number of slots. *)
Definition slots_kept (P P' : ansi.Parser) : Prop :=
  same_data P P' /\ len (ansi.params P') = len (ansi.params P).

(** After one iteration on a context with room: it goes on with a
    context that still has room, or it returns. *)
Definition room_post (rest : list byte) (o : ansi.Outcome) : Prop :=
  match o with
  | ansi.Continue s' p' => exists P', p' = Some P' /\ room_inv s' rest P'
  | ansi.Return _ => True
  end.


(** [ESC [ 1 BEL B]: a CSI sequence broken off by BEL at offset 3. *)
Definition csi_broken_head : list byte := [Byte.x1b; Byte.x5b; Byte.x31].
Definition csi_broken_tail : list byte := [Byte.x42].


(** The X10 report for button bits [b] at [(x, y)], encoded as the test
    suite encodes it and decoded. *)
Definition x10 (b x y : Z) : result input.Event :=
  input.parseX10MouseEvent (input.encode (input.to_byte b) x y).

Definition mouse (x y : Z) (btn : input.MouseButton) (shift alt ctrl : bool)
  : input.Mouse :=
  input.mkMouse x y btn (input.mkMod shift alt ctrl).

(** The screen has at least one cell and its sizes are far from the
    largest [int]. *)
Definition screen_size_ok (s : vt.Screen) : Prop :=
  1 <= vt.Width s < 2 ^ 62 /\ 1 <= vt.Height s < 2 ^ 62.


(** ** Vocabulary of the further scanner statements *)

(** A result of the scanner without the context it hands back. *)
Definition token_of (r : ansi.Decoded) : list byte * Z * Z * ansi.State :=
  (ansi.seq r, ansi.width r, ansi.n r, ansi.newState r).

(** Two contexts of the same capacity: both nil, or with as many
    parameter slots and as many data bytes. *)
Definition same_capacity (p p' : option ansi.Parser) : Prop :=
  match p, p' with
  | None, None => True
  | Some P, Some P' =>
      len (ansi.params P') = len (ansi.params P)
      /\ len (ansi.data P') = len (ansi.data P)
  | _, _ => False
  end.

(** The outcome of one iteration with the context dropped. *)
Definition forget_ctx (o : ansi.Outcome) : ansi.Outcome :=
  match o with
  | ansi.Continue s _ => ansi.Continue s None
  | ansi.Return r =>
      ansi.Return (ansi.mkDecoded (ansi.seq r) (ansi.width r) (ansi.n r)
                                  (ansi.newState r) None)
  end.

(** The context an outcome of one iteration carries. *)
Definition ctx_of (o : ansi.Outcome) : option ansi.Parser :=
  match o with ansi.Continue _ p => p | ansi.Return r => ansi.ctx r end.


(** ** Vocabulary of the statements on parameters *)

(** A decimal digit, and the number a run of digits denotes when read
    after the value [v0]. *)
Definition is_digit (c : byte) : Prop := 0x30 <= bval c <= 0x39.

Definition dec_value (ds : list byte) (v0 : Z) : Z :=
  fold_left (fun v d => v * 10 + (bval d - 0x30)) ds v0.

(** The sentinels are values of type [int] that no parameter reaches:
    a parameter or command number [m] fits when it lies below them. *)
Definition sentinels_are_ints `{!parser.Consts} : Prop :=
  parser.MissingParam < 2 ^ 63 /\ parser.MissingCommand < 2 ^ 63.

Definition param_fits `{!parser.Consts} (m : Z) : Prop :=
  0 <= m < parser.MissingParam.

(** The command word the scanner builds for a sequence with the given
    marker, intermediate and final bytes, starting from zero. *)
Definition csi_cmd `{!parser.Consts} (marker inter : option byte) (final : byte) : Z :=
  let P0 := ansi.mkParser [] 0 0 [] 0 in
  let P1 := from_option (ansi.put_field P0 parser.MarkerShift) P0 marker in
  let P2 := from_option (ansi.put_field P1 parser.IntermedShift) P1 inter in
  ansi.cmd (ansi.put_final P2 final).

(** The bytes of a CSI sequence: [ESC [], an optional marker, numbers
    joined by [;], an optional intermediate, and the final byte. *)
Definition csi_bytes (marker : option byte) (ms : list Z) (inter : option byte)
    (final : byte) : list byte :=
  Byte.x1b :: Byte.x5b :: option_list marker
  ++ strings_Join (map strconv_Itoa ms) (str ";")
  ++ option_list inter ++ [final].

(** The number of parameters the scanner counts when a sequence has
    [k >= 1] of them and the context [slots] slots: all of them, unless
    they fill every slot of a context with two slots or more. *)
Definition counted (k slots : Z) : Z :=
  if (k =? 1) || (k <? slots) then k else k - 1.

(** The marker and the final byte of a mode sequence. *)
Definition mode_marker (modes : list ansi.Mode) : option byte :=
  if existsb ansi.isDECMode modes then Some Byte.x3f else None.
Definition mode_final (reset : bool) : byte :=
  if reset then Byte.x6c else Byte.x68.


(** ** Vocabulary of the statements on string sequences *)

(** One byte of string data added to the context, when it has room
    left, and a run of bytes added one after the other. *)
Definition push_data (P : ansi.Parser) (c : byte) : ansi.Parser :=
  if ansi.dataLen P <? len (ansi.data P)
  then ansi.set_dataLen
         (ansi.set_data P (<[Z.to_nat (ansi.dataLen P) := c]> (ansi.data P)))
         (ansi.dataLen P + 1)
  else P.

Definition collect (P : ansi.Parser) (payload : list byte) : ansi.Parser :=
  fold_left push_data payload P.

(** The data a context has collected: [p.data[:p.dataLen]]. *)
Definition collected (P : ansi.Parser) : list byte :=
  slice_to (ansi.data P) (ansi.dataLen P).

(** A byte that neither ends nor cancels a string sequence; in an OSC
    string [BEL] does end it. *)
Definition string_byte (osc : bool) (c : byte) : Prop :=
  bval c <> ansi.CAN /\ bval c <> ansi.SUB /\ bval c <> ansi.ST
  /\ bval c <> ansi.ESC /\ (osc = true -> bval c <> ansi.BEL).

(** The data string of a Sixel sequence: the raster attributes, the
    palette and the pixels. *)
Definition sixel_data (s : ansi.SixelSequence) : list byte :=
  [Byte.x22]
  ++ strconv_Itoa (ansi.PixelWidth s) ++ [Byte.x3b]
  ++ strconv_Itoa (ansi.PixelHeight s) ++ [Byte.x3b]
  ++ strconv_Itoa (ansi.ImageWidth s) ++ [Byte.x3b]
  ++ strconv_Itoa (ansi.ImageHeight s)
  ++ ansi.PaletteString s ++ ansi.PixelString s.

(** An OSC sequence ended by [BEL]: [ESC ]], the command number in
    decimal, [;], the payload, [BEL]. *)
Definition osc_bytes (k : Z) (payload : list byte) : list byte :=
  Byte.x1b :: Byte.x5d :: strconv_Itoa k ++ Byte.x3b :: payload ++ [Byte.x07].


(** ** Vocabulary of the statements on the handlers *)

(** The count an erase command reads: the value of the first parameter
    (the default reported for an omitted one being [mv]), or 0 when
    the sequence has no parameter. *)
Definition first_value `{!parser.Consts} (mv : Z) (P : ansi.Parser) : option Z :=
  if 0 <? ansi.paramsLen P
  then (fun r => ansi.Parameter_Param r mv) <$> ansi.params P !! 0%nat
  else Some 0.

(** The parameters [handleSgr] reads, handled from the first one on. *)
Definition sgr_run `{!parser.Consts} (mv : Z) (params : list Z)
    (pen : cellbuf.Style) : result cellbuf.Style :=
  vt.sgrLoop mv (length params) params 0 pen.

(** A parameter that [handleSgr] handles on its own: not the start of
    an extended colour, and not an underline with a sub-parameter. *)
Definition sgr_plain `{!parser.Consts} (mv : Z) (r : Z) : Prop :=
  let v := ansi.Parameter_Param r mv in
  v <> 38 /\ v <> 48 /\ v <> 58
  /\ (v = 4 -> ansi.Parameter_HasMore r = false).

(** The underline style that the sub-parameter [n] of [4:n] selects. *)
Definition underline_sub (n : Z) (pen : cellbuf.Style) : cellbuf.Style :=
  if n =? 0 then cellbuf.SetUnderlineStyle cellbuf.NoUnderline pen
  else if n =? 1 then cellbuf.SetUnderlineStyle cellbuf.SingleUnderline pen
  else if n =? 2 then cellbuf.SetUnderlineStyle cellbuf.DoubleUnderline pen
  else if n =? 3 then cellbuf.SetUnderlineStyle cellbuf.CurlyUnderline pen
  else if n =? 4 then cellbuf.SetUnderlineStyle cellbuf.DottedUnderline pen
  else if n =? 5 then cellbuf.SetUnderlineStyle cellbuf.DashedUnderline pen
  else pen.

(** The pen colour an extended-colour code sets: 38 the foreground,
    48 the background, 58 the underline colour. *)
Definition set_colour (code : Z) (c : option cellbuf.Color)
    (pen : cellbuf.Style) : cellbuf.Style :=
  if code =? 38 then cellbuf.Foreground c pen
  else if code =? 48 then cellbuf.Background c pen
  else cellbuf.UnderlineColor c pen.

Definition colour_code (v : Z) : Prop := v = 38 \/ v = 48 \/ v = 58.

(** * Properties *)

(** ** Tactics *)

(** Boolean tests of the code, turned into the propositions they decide. *)
Ltac bool_to_prop :=
  rewrite ?orb_true_iff, ?andb_true_iff, ?orb_false_iff, ?andb_false_iff,
    ?negb_true_iff, ?negb_false_iff, ?Z.eqb_eq, ?Z.eqb_neq,
    ?Z.leb_le, ?Z.ltb_lt, ?Z.leb_gt, ?Z.ltb_ge in *.

(** The binds of the error monad and the [if p != nil] blocks, reduced. *)
Ltac scan_simpl :=
  cbn [mbind result_bind ansi.with_parser ansi.ret relocate
       ansi.n ansi.seq ansi.width ansi.newState ansi.ctx] in *.

(** ** Bytes and machine integers *)

Lemma bval_range (c : byte) : 0 <= bval c <= 255.
Proof.
  unfold bval. pose proof (Byte.to_N_bounded c). lia.
Qed.

Lemma int_wrap_small z : - 2 ^ 63 <= z < 2 ^ 63 -> int_wrap z = z.
Proof.
  intros Hz. unfold int_wrap.
  rewrite Z.mod_small by lia. lia.
Qed.

Lemma byte_testbit z k :
  0 <= z <= 255 -> k < 0 \/ 8 <= k -> Z.testbit z k = false.
Proof.
  intros Hz [Hk|Hk]; [by apply Z.testbit_neg_r|].
  destruct (Z.eq_dec z 0) as [->|Hn]; [apply Z.testbit_0_l|].
  apply Z.bits_above_log2; [lia|].
  assert (Z.log2 z < 8); [|lia].
  apply Z.log2_lt_pow2; lia.
Qed.

Lemma bval_to_byte z : bval (input.to_byte z) = z mod 256.
Proof.
  unfold bval, input.to_byte.
  assert (Hlt : (Z.to_N (z mod 256) <= 255)%N).
  { pose proof (Z.mod_pos_bound z 256). lia. }
  destruct (Byte.of_N (Z.to_N (z mod 256))) as [c|] eqn:Hc.
  - apply Byte.to_of_N in Hc. simpl. rewrite Hc.
    pose proof (Z.mod_pos_bound z 256). lia.
  - apply Byte.of_N_None_iff in Hc. lia.
Qed.

Lemma index_lookup {A} (l : list A) (i : Z) (x : A) :
  0 <= i -> l !! Z.to_nat i = Some x -> index l i = Ok x.
Proof.
  intros Hi Hx. unfold index. by rewrite bool_decide_eq_true_2, Hx.
Qed.

Lemma index_Ok {A} (l : list A) (i : Z) (x : A) :
  index l i = Ok x -> 0 <= i < len l /\ l !! Z.to_nat i = Some x.
Proof.
  unfold index. case_bool_decide as Hi; [|done].
  destruct (l !! Z.to_nat i) as [y|] eqn:Hy; [|done].
  intros [= ->]. apply lookup_lt_Some in Hy as Hlt. unfold len. split; [lia|done].
Qed.

Lemma index_in_range {A} (l : list A) (i : Z) :
  0 <= i < len l -> exists x, index l i = Ok x /\ l !! Z.to_nat i = Some x.
Proof.
  intros Hi. unfold len in Hi.
  destruct (lookup_lt_is_Some_2 l (Z.to_nat i)) as [x Hx]; [lia|].
  exists x. split; [|done]. apply index_lookup; [lia|done].
Qed.

Lemma index_out_of_range {A} (l : list A) (i : Z) :
  ~ 0 <= i < len l -> index l i = @Panic A.
Proof.
  intros Hi. unfold index. case_bool_decide as H0; [|done].
  rewrite lookup_ge_None_2; [done|]. unfold len in Hi. lia.
Qed.

(** ** The command and parameter codec *)

Section codec_proofs.
Context `{!parser.Consts}.

Lemma Cmd_layout m i c :
  command_layout ->
  0 <= m <= 255 -> 0 <= i <= 255 -> 0 <= c <= 255 ->
  ansi.Cmd m i c = Z.lor (Z.lor c (Z.shiftl m 8)) (Z.shiftl i 16).
Proof.
  intros (Hmask & Hms & His) Hm Hi Hc.
  unfold ansi.Cmd. rewrite Hmask, Hms, His.
  change 255 with (Z.ones 8).
  rewrite !Z.land_ones by lia.
  rewrite !Z.mod_small by (change (2 ^ 8) with 256; lia).
  rewrite !int_wrap_small; [done| |];
    rewrite Z.shiftl_mul_pow2 by lia; lia.
Qed.

Ltac drop_byte_bits :=
  repeat match goal with
  | Hz : 0 <= ?z <= 255 |- context [Z.testbit ?z ?k] =>
      rewrite (byte_testbit z k Hz) by lia
  end.

Lemma unpack_Cmd m i c :
  command_layout ->
  0 <= m <= 255 -> 0 <= i <= 255 -> 0 <= c <= 255 ->
  ansi.Command_Marker (ansi.Cmd m i c) = m
  /\ ansi.Command_Intermediate (ansi.Cmd m i c) = i
  /\ ansi.Command_Command (ansi.Cmd m i c) = c.
Proof.
  intros Hl Hm Hi Hc. rewrite Cmd_layout by done.
  destruct Hl as (Hmask & Hms & His).
  unfold ansi.Command_Marker, ansi.Command_Intermediate, ansi.Command_Command,
    parser.Marker, parser.Intermediate, parser.Command.
  rewrite Hmask, Hms, His. change 255 with (Z.ones 8).
  repeat split; Z.bitblast; drop_byte_bits;
    rewrite ?orb_false_r, ?orb_false_l, ?andb_true_r, ?andb_false_r; try done.
  all: symmetry; apply byte_testbit; [done|lia].
Qed.

Lemma Param_unpack p hasMore def :
  param_layout -> param_in_range p ->
  ansi.Parameter_Param (ansi.Param p hasMore) def = p
  /\ ansi.Parameter_HasMore (ansi.Param p hasMore) = hasMore.
Proof.
  intros (Hdisj & Hflag & Hmiss) [Hp Hne].
  unfold ansi.Parameter_Param, ansi.Parameter_HasMore, ansi.Param.
  rewrite Hp. destruct hasMore.
  - rewrite Z.land_lor_distr_l, Hp, Hdisj, Z.lor_0_r.
    rewrite (proj2 (Z.eqb_neq _ _) Hne). split; [done|].
    rewrite Z.land_lor_distr_l, Z.land_diag.
    apply negb_true_iff, Z.eqb_neq. intros Hz.
    apply Z.lor_eq_0_iff in Hz. tauto.
  - rewrite Hp, (proj2 (Z.eqb_neq _ _) Hne). split; [done|].
    rewrite <- Hp, <- Z.land_assoc, (Z.land_comm parser.ParamMask), Hdisj.
    by rewrite Z.land_0_r.
Qed.

Lemma Param_missing hasMore def :
  param_layout ->
  ansi.Parameter_Param (ansi.Param parser.MissingParam hasMore) def = def
  /\ ansi.Parameter_Param parser.MissingParam def = def.
Proof.
  intros (Hdisj & Hflag & Hmiss).
  unfold ansi.Parameter_Param, ansi.Param. rewrite Hmiss.
  destruct hasMore.
  - by rewrite Z.land_lor_distr_l, Hmiss, Hdisj, Z.lor_0_r, Z.eqb_refl.
  - by rewrite Hmiss, Z.eqb_refl.
Qed.

(** C8.  Packing round-trips: for valid marker, intermediate and final
    bytes, [Cmd] followed by the three accessors gives the bytes back;
    for every parameter value in range and either has-more flag,
    [Param] followed by [Param(def)] and [HasMore] gives the value and
    the flag back; and the missing sentinel, packed or as stored,
    reads back as the caller's default. *)
Theorem codec_round_trip :
  command_layout -> param_layout ->
  (forall marker inter cmd,
      valid_marker marker -> valid_intermediate inter -> valid_final cmd ->
      (ansi.Command_Marker (ansi.Cmd marker inter cmd),
       ansi.Command_Intermediate (ansi.Cmd marker inter cmd),
       ansi.Command_Command (ansi.Cmd marker inter cmd))
      = (marker, inter, cmd))
  /\ (forall p hasMore def,
         param_in_range p ->
         (ansi.Parameter_Param (ansi.Param p hasMore) def,
          ansi.Parameter_HasMore (ansi.Param p hasMore))
         = (p, hasMore))
  /\ (forall hasMore def,
         ansi.Parameter_Param (ansi.Param parser.MissingParam hasMore) def = def
         /\ ansi.Parameter_Param parser.MissingParam def = def).
Proof.
  intros Hc Hp. split; [|split].
  - intros m i c Hm Hi Hf.
    destruct (unpack_Cmd m i c Hc) as (-> & -> & ->);
      unfold valid_marker, valid_intermediate, valid_final in *; try lia.
    done.
  - intros p hm def Hr.
    by destruct (Param_unpack p hm def Hp Hr) as [-> ->].
  - intros hm def. by apply Param_missing.
Qed.

End codec_proofs.

Lemma layout32_command_layout : @command_layout layout32.
Proof. by repeat split. Qed.

Lemma layout32_param_layout : @param_layout layout32.
Proof. by repeat split. Qed.

Lemma codec_round_trip_witness :
  @command_layout layout32 /\ @param_layout layout32
  /\ (@ansi.Command_Marker layout32 (@ansi.Cmd layout32 0x3F 0x24 0x70),
      @ansi.Command_Intermediate layout32 (@ansi.Cmd layout32 0x3F 0x24 0x70),
      @ansi.Command_Command layout32 (@ansi.Cmd layout32 0x3F 0x24 0x70))
     = (0x3F, 0x24, 0x70).
Proof.
  split; [by repeat split|]. split; [by repeat split|].
  refine (proj1 (@codec_round_trip layout32 _ _) 0x3F 0x24 0x70 _ _ _).
  - by repeat split.
  - by repeat split.
  - right; lia.
  - right; lia.
  - unfold valid_final; lia.
Defined.

(** ** The X10 mouse report *)

Lemma parseX10MouseEvent_coordinates buf v0 v1 v2 :
  index buf 3 = Ok v0 -> index buf 4 = Ok v1 -> index buf 5 = Ok v2 ->
  exists e, input.parseX10MouseEvent buf = Ok e
    /\ input.X (input.mouse_of e) = bval v1 - 33
    /\ input.Y (input.mouse_of e) = bval v2 - 33.
Proof.
  intros H0 H1 H2. unfold input.parseX10MouseEvent.
  rewrite H0, H1, H2. cbn [mbind result_bind].
  destruct (input.parseMouseButton _) as [[[md btn] rel] mot].
  destruct (input.isWheel btn), mot, rel; eexists; (split; [reflexivity|done]).
Qed.

(** C7.  An X10 report decodes its coordinates as the wire byte minus
    33, in signed arithmetic and with no correction for the wrap-around
    of the byte; encoding [x = 250, y = 223] and decoding gives exactly
    [x = -6, y = -33]. *)
Theorem x10_coordinates_wrap :
  (forall b x y,
      exists e, input.parseX10MouseEvent (input.encode b x y) = Ok e
        /\ input.X (input.mouse_of e) = (x + 33) mod 256 - 33
        /\ input.Y (input.mouse_of e) = (y + 33) mod 256 - 33)
  /\ input.parseX10MouseEvent (input.encode Byte.x20 250 223)
     = Ok (input.MouseMotionEvent
             (input.mkMouse (-6) (-33) input.MouseLeft
                            (input.mkMod false false false))).
Proof.
  split; [|by vm_compute].
  intros b x y.
  destruct (parseX10MouseEvent_coordinates (input.encode b x y)
              (input.to_byte (32 + bval b)) (input.to_byte (x + 32 + 1))
              (input.to_byte (y + 32 + 1)))
    as (e & He & Hx & Hy); [done..|].
  exists e. rewrite Hx, Hy, !bval_to_byte.
  by replace (x + 32 + 1) with (x + 33) by lia;
     replace (y + 32 + 1) with (y + 33) by lia.
Qed.

(** The decoder modelled from the spec agrees with the table of
    [TestParseX10MouseDownEvent]. *)
Lemma x10_test_table :
  x10 0x00 0 0 = Ok (input.MouseClickEvent (mouse 0 0 input.MouseLeft false false false))
  /\ x10 0x00 222 222
     = Ok (input.MouseClickEvent (mouse 222 222 input.MouseLeft false false false))
  /\ x10 0x00 32 16
     = Ok (input.MouseClickEvent (mouse 32 16 input.MouseLeft false false false))
  /\ x10 0x20 32 16
     = Ok (input.MouseMotionEvent (mouse 32 16 input.MouseLeft false false false))
  /\ x10 0x01 32 16
     = Ok (input.MouseClickEvent (mouse 32 16 input.MouseMiddle false false false))
  /\ x10 0x21 32 16
     = Ok (input.MouseMotionEvent (mouse 32 16 input.MouseMiddle false false false))
  /\ x10 0x02 32 16
     = Ok (input.MouseClickEvent (mouse 32 16 input.MouseRight false false false))
  /\ x10 0x22 32 16
     = Ok (input.MouseMotionEvent (mouse 32 16 input.MouseRight false false false))
  /\ x10 0x23 32 16
     = Ok (input.MouseMotionEvent (mouse 32 16 input.MouseNone false false false))
  /\ x10 0x40 32 16
     = Ok (input.MouseWheelEvent (mouse 32 16 input.MouseWheelUp false false false))
  /\ x10 0x41 32 16
     = Ok (input.MouseWheelEvent (mouse 32 16 input.MouseWheelDown false false false))
  /\ x10 0x42 32 16
     = Ok (input.MouseWheelEvent (mouse 32 16 input.MouseWheelLeft false false false))
  /\ x10 0x43 32 16
     = Ok (input.MouseWheelEvent (mouse 32 16 input.MouseWheelRight false false false))
  /\ x10 0x03 32 16
     = Ok (input.MouseReleaseEvent (mouse 32 16 input.MouseNone false false false))
  /\ x10 0x80 32 16
     = Ok (input.MouseClickEvent (mouse 32 16 input.MouseBackward false false false))
  /\ x10 0x81 32 16
     = Ok (input.MouseClickEvent (mouse 32 16 input.MouseForward false false false))
  /\ x10 0x82 32 16
     = Ok (input.MouseClickEvent (mouse 32 16 input.MouseButton10 false false false))
  /\ x10 0x83 32 16
     = Ok (input.MouseClickEvent (mouse 32 16 input.MouseButton11 false false false))
  /\ x10 0x0A 32 16
     = Ok (input.MouseClickEvent (mouse 32 16 input.MouseRight false true false))
  /\ x10 0x12 32 16
     = Ok (input.MouseClickEvent (mouse 32 16 input.MouseRight false false true))
  /\ x10 0x2A 32 16
     = Ok (input.MouseMotionEvent (mouse 32 16 input.MouseRight false true false))
  /\ x10 0x32 32 16
     = Ok (input.MouseMotionEvent (mouse 32 16 input.MouseRight false false true))
  /\ x10 0x1A 32 16
     = Ok (input.MouseClickEvent (mouse 32 16 input.MouseRight false true true))
  /\ x10 0x50 32 16
     = Ok (input.MouseWheelEvent (mouse 32 16 input.MouseWheelUp false false true))
  /\ x10 0x49 32 16
     = Ok (input.MouseWheelEvent (mouse 32 16 input.MouseWheelDown false true false))
  /\ x10 0x59 32 16
     = Ok (input.MouseWheelEvent (mouse 32 16 input.MouseWheelDown false true true))
  /\ x10 0x20 250 223
     = Ok (input.MouseMotionEvent (mouse (-6) (-33) input.MouseLeft false false false)).
Proof. by vm_compute. Qed.

(** ** Failing runs of the scanner and of the handlers *)

Section runs.
#[local] Existing Instance layout32.
#[local] Existing Instance one_rune_segmenter.

(** C3.  More parameters than the context has slots: the scanner reads
    [p.params[p.paramsLen]] past the end of the slice and panics, with
    two parameters for one slot as with 33 parameters for 32 slots;
    and with separators alone the recorded count (2) exceeds the
    capacity (1). *)
Theorem params_overflow_panics :
  ansi.DecodeSequence sgr_two_params ansi.NormalState
                      (Some (fresh_parser 1 0)) = Panic
  /\ ansi.DecodeSequence sgr_33_params ansi.NormalState
                         (Some (fresh_parser 32 0)) = Panic
  /\ (exists r P,
         ansi.DecodeSequence sgr_two_separators ansi.NormalState
                             (Some (fresh_parser 1 0)) = Ok r
         /\ ansi.ctx r = Some P
         /\ ansi.paramsLen P = 2 /\ len (ansi.params P) = 1).
Proof.
  split; [by vm_compute|]. split; [by vm_compute|].
  eexists _, _. split; [by vm_compute|]. by vm_compute.
Qed.

(** C4.  Cursor down by the largest [int] from row 1 of an 80x24
    screen: [y + n] wraps around and the cursor is left on row
    [-2^63]; a count of nineteen nines wraps in the scanner and leaves
    the cursor on a negative row as well. *)
Theorem cursor_down_leaves_screen :
  let t := terminal_with (blank_screen 80 24 0 1 cellbuf.zeroStyle)
                         (blank_screen 80 24 0 0 cellbuf.zeroStyle)
                         (fresh_parser 16 0) in
  cursor_in_bounds t
  /\ (exists t', decode_and_handle t cud_max_int = Ok t'
                 /\ cursor_pos t' = (0, - 2 ^ 63)
                 /\ ~ cursor_in_bounds t')
  /\ (exists t', decode_and_handle t cud_nineteen_nines = Ok t'
                 /\ cursor_pos t' = (0, -8446744073709551616)
                 /\ ~ cursor_in_bounds t').
Proof.
  split; [by vm_compute|]. split.
  - eexists. split; [by vm_compute|]. split; [by vm_compute|].
    unfold cursor_in_bounds. vm_compute. intros [_ [H _]]. by apply H.
  - eexists. split; [by vm_compute|]. split; [by vm_compute|].
    unfold cursor_in_bounds. vm_compute. intros [_ [H _]]. by apply H.
Qed.

(** C6.  A truncated extended-colour group: with the code last
    ([38]), with [38;5] and with [38;2;1;2], [readColor] indexes past
    the end of the parameters and the interpreter panics. *)
Theorem truncated_color_panics :
  let t := terminal_with (blank_screen 80 24 0 0 cellbuf.zeroStyle)
                         (blank_screen 80 24 0 0 cellbuf.zeroStyle)
                         (fresh_parser 16 0) in
  vt.readColor 0 [38] = Panic
  /\ vt.readColor 0 [38; 5] = Panic
  /\ vt.readColor 0 [38; 2; 1; 2] = Panic
  /\ decode_and_handle t sgr_38 = Panic
  /\ decode_and_handle t sgr_38_5 = Panic
  /\ decode_and_handle t sgr_38_2_1_2 = Panic.
Proof. by vm_compute. Qed.

End runs.

(** ** The screen buffer *)

Lemma cell_at_Fill c r bf x y :
  grid_ok bf ->
  0 <= x < cellbuf.buf_width bf -> 0 <= y < cellbuf.buf_height bf ->
  cellbuf.cell_at (cellbuf.Fill c r bf) x y
  = if cellbuf.in_rect r x y then Some c else cellbuf.cell_at bf x y.
Proof.
  intros (Hw & Hh & Hlen) Hx Hy.
  unfold cellbuf.cell_at, cellbuf.Fill. cbn [cellbuf.buf_width cellbuf.buf_height cellbuf.cells].
  assert (Hin : (0 <=? x) && (x <? cellbuf.buf_width bf) && (0 <=? y)
                && (y <? cellbuf.buf_height bf) = true).
  { repeat (apply andb_true_intro; split); lia. }
  rewrite Hin, list_lookup_imap.
  set (k := Z.to_nat (y * cellbuf.buf_width bf + x)).
  assert (Hk : Z.of_nat k = y * cellbuf.buf_width bf + x) by (unfold k; nia).
  assert (Hmod : Z.of_nat k mod cellbuf.buf_width bf = x).
  { rewrite Hk, Z.add_comm, Z.mod_add by lia. apply Z.mod_small; lia. }
  assert (Hdiv : Z.of_nat k / cellbuf.buf_width bf = y).
  { rewrite Hk, Z.add_comm, Z.div_add by lia. rewrite Z.div_small; lia. }
  rewrite Hmod, Hdiv.
  destruct (cellbuf.cells bf !! k) as [old|] eqn:Hold.
  - simpl. by destruct (cellbuf.in_rect r x y).
  - apply lookup_ge_None in Hold. unfold len in Hlen. nia.
Qed.

Lemma cell_at_Clear_all bf x y c :
  cellbuf.cell_at (cellbuf.Clear None bf) x y = Some c -> c = cellbuf.blankCell.
Proof.
  unfold cellbuf.cell_at, cellbuf.Clear.
  cbn [cellbuf.buf_width cellbuf.buf_height cellbuf.cells].
  destruct (_ && _); [|done].
  rewrite list_lookup_fmap. destruct (cellbuf.cells bf !! _); simpl; congruence.
Qed.

(** ** Mode set and reset *)

Section mode_proofs.
Context `{!parser.Consts}.
Variable missing_value : Z.

Lemma mode_command final :
  command_layout -> final = 0x68 \/ final = 0x6C ->
  ansi.Cmd 0x3F 0 final = Z.lor final 0x3F00
  /\ Z.lor final (int_wrap (Z.shiftl 0x3F parser.MarkerShift)) = Z.lor final 0x3F00
  /\ ansi.Command_Command (Z.lor final 0x3F00) = final
  /\ ansi.Command_Marker (Z.lor final 0x3F00) = 0x3F.
Proof.
  intros (Hmask & Hms & His) Hf.
  unfold ansi.Cmd, ansi.Command_Command, ansi.Command_Marker,
    parser.Command, parser.Marker.
  rewrite Hmask, Hms, His. by destruct Hf as [-> | ->].
Qed.

Lemma ParamValue_Param mode :
  param_layout -> param_in_range mode ->
  vt.ParamValue missing_value (ansi.Param mode false) = mode.
Proof.
  intros Hl Hr. unfold vt.ParamValue.
  by destruct (Param_unpack mode false missing_value Hl Hr) as [-> _].
Qed.

(** C5, as amended.  A request to set ([h]) or reset ([l]) DEC private
    mode 1049 or 1047 makes the alternate screen active on set and the
    primary screen active on reset, and records the setting; the
    primary screen is never touched; the alternate screen is cleared
    when mode 1049 is set, and left as it is in the three other cases,
    in particular when mode 1047 is set. *)
Theorem alt_screen_switch t final mode :
  command_layout -> param_layout -> param_in_range mode ->
  final = 0x68 \/ final = 0x6C ->
  mode = 1049 \/ mode = 1047 ->
  mode_request t final mode ->
  exists t',
    vt.handleCsi missing_value t = Ok t'
    /\ vt.scr t' = bool_decide (final = 0x68)
    /\ vt.scrs0 t' = vt.scrs0 t
    /\ vt.scrs1 t'
       = (if bool_decide (final = 0x68 /\ mode = 1049)
          then vt.ScreenClear None (vt.scrs1 t) else vt.scrs1 t)
    /\ vt.pmodes t' !! mode
       = Some (if bool_decide (final = 0x68) then vt.ModeSet else vt.ModeReset).
Proof.
  intros Hc Hp Hr Hf Hm (Hcmd & Hlen & Hpar).
  destruct (mode_command final Hc Hf) as (Hpack & _ & Hfin & Hmark).
  destruct (mode_command 0x68 Hc (or_introl eq_refl)) as (_ & Hh & _).
  destruct (mode_command 0x6C Hc (or_intror eq_refl)) as (_ & Hl & _).
  assert (Hgo : vt.handleCsi missing_value t = vt.handleMode missing_value t).
  { unfold vt.handleCsi. rewrite Hcmd, Hpack, Hh, Hl.
    by destruct Hf as [-> | ->]. }
  rewrite Hgo.
  unfold vt.handleMode. rewrite Hlen, Hcmd, Hpack, Hfin, Hmark.
  cbn [Z.eqb Pos.eqb].
  rewrite (index_lookup _ 0 _ (Z.le_refl 0) Hpar). cbn [mbind result_bind].
  rewrite (ParamValue_Param mode Hp Hr).
  unfold vt.CursorEnableMode, vt.AltScreenBufferMode.
  destruct Hf as [-> | ->], Hm as [-> | ->]; cbn;
    eexists; (split; [reflexivity|]);
    destruct t as [s0 s1 k P ms pms]; cbn;
    rewrite lookup_insert_eq; done.
Qed.

End mode_proofs.

Lemma terminal_1049_from_scanner :
  context_after set_mode_1049 = Ok (vt.parser terminal_1049).
Proof. by vm_compute. Qed.

Lemma alt_screen_switch_witness :
  exists t',
    @vt.handleCsi layout32 no_value terminal_1049 = Ok t'
    /\ vt.scr t' = true
    /\ vt.scrs0 t' = vt.scrs0 terminal_1049
    /\ vt.scrs1 t' = vt.ScreenClear None (vt.scrs1 terminal_1049)
    /\ vt.pmodes t' !! 1049 = Some vt.ModeSet.
Proof.
  apply (@alt_screen_switch layout32 no_value terminal_1049 0x68 1049).
  - by repeat split.
  - by repeat split.
  - by split.
  - by left.
  - by left.
  - by repeat split.
Defined.

(** C5, the claim as stated fails for mode 1047: after [ESC [ ? 1047 h]
    the alternate screen is active and still shows what it showed
    before, so it has not been cleared. *)
Lemma mode_1047_does_not_clear :
  let t := terminal_with (blank_screen 80 24 0 0 cellbuf.zeroStyle)
                         (marked_screen 80 24) (fresh_parser 16 0) in
  exists t',
    decode_and_handle t set_mode_1047 = Ok t'
    /\ vt.scr t' = true
    /\ cellbuf.cell_at (vt.buf (vt.active t')) 0 0 = Some cell_x
    /\ cellbuf.cell_at (vt.buf (vt.ScreenClear None (vt.scrs1 t))) 0 0
       = Some cellbuf.blankCell
    /\ cell_x <> cellbuf.blankCell.
Proof.
  eexists. split; [by vm_compute|]. by vm_compute.
Qed.

(** ** Erase character *)

Lemma vt_min_eq a b : vt.min a b = Z.min a b.
Proof. unfold vt.min. destruct (Z.gtb_spec a b); lia. Qed.

Lemma vt_max_eq a b : vt.max a b = Z.max a b.
Proof. unfold vt.max. destruct (Z.gtb_spec a b); lia. Qed.

Lemma in_rect_true_iff r x y :
  cellbuf.in_rect r x y = true
  <-> cellbuf.X r <= x < cellbuf.X r + cellbuf.RectWidth r
      /\ cellbuf.Y r <= y < cellbuf.Y r + cellbuf.RectHeight r.
Proof.
  unfold cellbuf.in_rect. rewrite !andb_true_iff, !Z.leb_le, !Z.ltb_lt. lia.
Qed.

Section ech_proofs.
Context `{!parser.Consts}.
Variable missing_value : Z.

(** [CSI n X], as long as the sum [x + n] is an [int]: the cells
    written and the column the cursor is given. *)
Lemma erase_character_cells t n :
  command_layout ->
  ansi.cmd (vt.parser t) = 0x58 ->
  first_count (vt.parser t) = Some n ->
  grid_ok (vt.buf (vt.active t)) ->
  vt.Width (vt.active t) < 2 ^ 63 ->
  - 2 ^ 63 <= vt.PosX (vt.cur (vt.active t)) + n < 2 ^ 63 ->
  exists t',
    vt.handleCsi missing_value t = Ok t'
    /\ (forall k j,
           0 <= k < vt.Width (vt.active t) -> 0 <= j < vt.Height (vt.active t) ->
           cellbuf.cell_at (vt.buf (vt.active t')) k j
           = if bool_decide (vt.PosX (vt.cur (vt.active t)) <= k
                               < vt.PosX (vt.cur (vt.active t)) + n
                             /\ j = vt.PosY (vt.cur (vt.active t)))
             then Some (cellbuf.mkCell " " 1 (vt.Pen (vt.cur (vt.active t))))
             else cellbuf.cell_at (vt.buf (vt.active t)) k j)
    /\ cursor_pos t'
       = (Z.min (vt.Width (vt.active t) - 1) (vt.PosX (vt.cur (vt.active t)) + n),
          vt.PosY (vt.cur (vt.active t)))
    /\ vt.Pen (vt.cur (vt.active t')) = vt.Pen (vt.cur (vt.active t))
    /\ vt.scr t' = vt.scr t.
Proof.
  intros (Hmask & Hms & His) Hcmd Hn Hgrid Hw Hxn.
  assert (Hgo : vt.handleCsi missing_value t = vt.handleCursor missing_value t).
  { unfold vt.handleCsi. by rewrite Hcmd. }
  rewrite Hgo. unfold vt.handleCursor.
  assert (Hcount : (if 0 <? ansi.paramsLen (vt.parser t)
                    then index (ansi.params (vt.parser t)) 0 else Ok 1) = Ok n).
  { unfold first_count in Hn. destruct (0 <? _); [|congruence].
    by apply index_lookup. }
  rewrite Hcount. cbn [mbind result_bind].
  unfold ansi.Command_Command, parser.Command. rewrite Hcmd, Hmask.
  change (Z.land 88 255) with 88. cbn [Z.eqb Pos.eqb orb].
  destruct Hgrid as (Hw0 & Hh0 & Hlen).
  fold (vt.Width (vt.active t)) in *. fold (vt.Height (vt.active t)) in *.
  rewrite !int_wrap_small by lia. rewrite vt_min_eq.
  eexists. split; [reflexivity|].
  assert (Hcells : forall s k j,
             grid_ok (vt.buf s) ->
             0 <= k < vt.Width s -> 0 <= j < vt.Height s ->
             cellbuf.cell_at
               (cellbuf.Fill (vt.penCell s)
                  (cellbuf.mkRect (vt.PosX (vt.cur s)) (vt.PosY (vt.cur s)) n 1)
                  (vt.buf s)) k j
             = if bool_decide (vt.PosX (vt.cur s) <= k < vt.PosX (vt.cur s) + n
                               /\ j = vt.PosY (vt.cur s))
               then Some (cellbuf.mkCell " " 1 (vt.Pen (vt.cur s)))
               else cellbuf.cell_at (vt.buf s) k j).
  { intros s k j Hg Hk Hj. rewrite cell_at_Fill by done.
    destruct (cellbuf.in_rect _ k j) eqn:Hr; case_bool_decide as Hin; try done.
    - apply in_rect_true_iff in Hr. cbn in Hr. exfalso. apply Hin. lia.
    - exfalso. apply not_true_iff_false in Hr. apply Hr.
      apply in_rect_true_iff. cbn. lia. }
  destruct t as [s0 s1 [] P ms pms]; cbn in *;
    (repeat split; try done);
    intros k j Hk Hj; by apply Hcells.
Qed.

(** C9, as amended.  For a count [n >= 0] whose sum with the column
    [x] of the cursor is an [int] ([x + n < 2^63]), the cursor lying on
    the screen: [CSI n X] writes, in the [n] cells from the cursor on
    (as far as they lie on the screen), a blank cell that carries the
    whole current pen, every attribute of it and not only the
    background; the other cells keep their content; the cursor then
    advances by [n], clamped to the screen width: it moves to column
    [min (width - 1) (x + n)] of the same row, which lies between [x]
    and [width - 1]. *)
Theorem erase_character t n :
  command_layout ->
  ansi.cmd (vt.parser t) = 0x58 ->
  first_count (vt.parser t) = Some n ->
  grid_ok (vt.buf (vt.active t)) ->
  vt.Width (vt.active t) < 2 ^ 63 ->
  0 <= vt.PosX (vt.cur (vt.active t)) < vt.Width (vt.active t) ->
  0 <= n -> vt.PosX (vt.cur (vt.active t)) + n < 2 ^ 63 ->
  exists t',
    vt.handleCsi missing_value t = Ok t'
    /\ (forall k j,
           0 <= k < vt.Width (vt.active t) -> 0 <= j < vt.Height (vt.active t) ->
           cellbuf.cell_at (vt.buf (vt.active t')) k j
           = if bool_decide (vt.PosX (vt.cur (vt.active t)) <= k
                               < vt.PosX (vt.cur (vt.active t)) + n
                             /\ j = vt.PosY (vt.cur (vt.active t)))
             then Some (cellbuf.mkCell " " 1 (vt.Pen (vt.cur (vt.active t))))
             else cellbuf.cell_at (vt.buf (vt.active t)) k j)
    /\ cursor_pos t'
       = (Z.min (vt.Width (vt.active t) - 1) (vt.PosX (vt.cur (vt.active t)) + n),
          vt.PosY (vt.cur (vt.active t)))
    /\ vt.PosX (vt.cur (vt.active t)) <= vt.PosX (vt.cur (vt.active t'))
       <= vt.Width (vt.active t) - 1
    /\ vt.Pen (vt.cur (vt.active t')) = vt.Pen (vt.cur (vt.active t))
    /\ vt.scr t' = vt.scr t.
Proof.
  intros Hl Hcmd Hn Hgrid Hw Hx Hn0 Hxn.
  destruct (erase_character_cells t n Hl Hcmd Hn Hgrid Hw ltac:(lia))
    as (t' & Hrun & Hcells & Hcur & Hpen & Hscr).
  exists t'. split; [done|]. split; [done|]. split; [done|].
  split; [|done]. unfold cursor_pos in Hcur. injection Hcur as Hcx _.
  rewrite Hcx. lia.
Qed.

End ech_proofs.

Lemma terminal_ech_from_scanner :
  context_after ech_3 = Ok (vt.parser terminal_ech).
Proof. by vm_compute. Qed.

Lemma erase_character_witness :
  exists t',
    @vt.handleCsi layout32 no_value terminal_ech = Ok t'
    /\ (forall k j,
           0 <= k < vt.Width (vt.active terminal_ech) ->
           0 <= j < vt.Height (vt.active terminal_ech) ->
           cellbuf.cell_at (vt.buf (vt.active t')) k j
           = if bool_decide (vt.PosX (vt.cur (vt.active terminal_ech)) <= k
                               < vt.PosX (vt.cur (vt.active terminal_ech)) + 3
                             /\ j = vt.PosY (vt.cur (vt.active terminal_ech)))
             then Some (cellbuf.mkCell " " 1
                          (vt.Pen (vt.cur (vt.active terminal_ech))))
             else cellbuf.cell_at (vt.buf (vt.active terminal_ech)) k j)
    /\ cursor_pos t'
       = (Z.min (vt.Width (vt.active terminal_ech) - 1)
                (vt.PosX (vt.cur (vt.active terminal_ech)) + 3),
          vt.PosY (vt.cur (vt.active terminal_ech)))
    /\ vt.PosX (vt.cur (vt.active terminal_ech)) <= vt.PosX (vt.cur (vt.active t'))
       <= vt.Width (vt.active terminal_ech) - 1
    /\ vt.Pen (vt.cur (vt.active t')) = vt.Pen (vt.cur (vt.active terminal_ech))
    /\ vt.scr t' = vt.scr terminal_ech.
Proof.
  apply (@erase_character layout32 no_value terminal_ech 3).
  - by repeat split.
  - reflexivity.
  - reflexivity.
  - by repeat split.
  - by vm_compute.
  - by vm_compute.
  - by vm_compute.
  - by vm_compute.
Defined.

(** C9, the claim as stated fails: with a bold pen on a red background,
    the cells erased by [ESC [ 3 X] are bold as well, so their style is
    not the pen's background alone.  And the count has to be one for
    which [x + n] is an [int]: with the largest [int] as count the sum
    wraps around and the cursor is sent to a negative column, as it is
    by the cursor motions of C4. *)
Lemma ech_cell_keeps_bold :
  let t := terminal_with (blank_screen 80 24 2 1 bold_on_red)
                         (blank_screen 80 24 0 0 cellbuf.zeroStyle)
                         (fresh_parser 16 0) in
  (exists t' c,
      decode_and_handle t ech_3 = Ok t'
      /\ cellbuf.cell_at (vt.buf (vt.active t')) 2 1 = Some c
      /\ cellbuf.CellStyle c = bold_on_red
      /\ cellbuf.bold (cellbuf.CellStyle c) = true
      /\ cellbuf.CellStyle c
         <> cellbuf.background_only (vt.Pen (vt.cur (vt.active t))))
  /\ (exists t',
         decode_and_handle t ech_max_int = Ok t'
         /\ cursor_pos t' = (-9223372036854775807, 1)).
Proof.
  split.
  - eexists _, _. split; [by vm_compute|]. split; [by vm_compute|].
    by vm_compute.
  - eexists. split; by vm_compute.
Qed.

(** ** Cursor motion within the range of [int] *)

Section cursor_proofs.
Context `{!parser.Consts}.
Variable missing_value : Z.

Lemma Next_bounds s col :
  1 <= vt.Width s -> 0 <= col -> 0 <= vt.Next s col <= vt.Width s - 1.
Proof.
  intros Hw Hcol. unfold vt.Next.
  induction (vt.tabstops s) as [|stop stops IH]; cbn [foldr]; [lia|].
  destruct (_ && _) eqn:Hc; [|done]. bool_to_prop. lia.
Qed.

Lemma Next_iter_bounds s k col :
  1 <= vt.Width s -> 0 <= col <= vt.Width s - 1 ->
  0 <= Nat.iter k (vt.Next s) col <= vt.Width s - 1.
Proof.
  intros Hw Hcol. induction k as [|k IH]; [done|].
  rewrite Nat.iter_succ. apply Next_bounds; lia.
Qed.

(** X20.  A cursor command with a count from 0 up to [2^62] (and
    whatever row and column [H] and [f] are given) leaves the cursor on
    the screen.  Beyond that range the sums [x + n] and [y + n] wrap
    around, and a negative count takes [A B C D E F X] off the screen
    (see [cursor_down_leaves_screen]). *)
Lemma handleCursor_in_bounds t n :
  first_count (vt.parser t) = Some n -> 0 <= n < 2 ^ 62 ->
  2 <= len (ansi.params (vt.parser t)) ->
  screen_size_ok (vt.active t) -> cursor_in_bounds t ->
  exists t', vt.handleCursor missing_value t = Ok t' /\ cursor_in_bounds t'
             /\ vt.scr t' = vt.scr t.
Proof.
  intros Hn Hrange Hslots [Hw Hh] [Hx Hy]. unfold vt.handleCursor.
  assert (Hcount : (if 0 <? ansi.paramsLen (vt.parser t)
                    then index (ansi.params (vt.parser t)) 0 else Ok 1) = Ok n).
  { unfold first_count in Hn. destruct (0 <? _); [|congruence].
    by apply index_lookup. }
  rewrite Hcount. cbn [mbind result_bind].
  destruct (index_in_range (ansi.params (vt.parser t)) 0) as (p0 & -> & _); [lia|].
  destruct (index_in_range (ansi.params (vt.parser t)) 1) as (p1 & -> & _); [lia|].
  cbn [mbind result_bind].
  pose proof (Next_iter_bounds (vt.active t) (Z.to_nat n)
                (vt.PosX (vt.cur (vt.active t))) ltac:(lia) Hx) as Htab.
  set (row := vt.ParamValue missing_value p0).
  set (col := vt.ParamValue missing_value p1).
  assert (Hwrap : forall z, - 2 ^ 63 <= int_wrap z < 2 ^ 63).
  { intros z. unfold int_wrap. pose proof (Z.mod_pos_bound (z + 2 ^ 63) (2 ^ 64)). lia. }
  pose proof (Hwrap (row - 1)) as Hrow. pose proof (Hwrap (col - 1)) as Hcol.
  pose proof (Hwrap (n - 1)) as Hn1.
  pose proof (Hwrap (vt.PosY (vt.cur (vt.active t)) + n)) as Hyn.
  rewrite !(int_wrap_small (vt.Width _ - 1)), !(int_wrap_small (vt.Height _ - 1)),
    !(int_wrap_small (_ + n)), !(int_wrap_small (_ - n)) by lia.
  repeat match goal with
  | |- context [if ?c then _ else _] =>
      lazymatch type of c with bool => destruct c eqn:? end
  end.
  all: eexists; split; [reflexivity|].
  all: unfold cursor_in_bounds; destruct t as [s0 s1 [] P ms pms]; cbn in *.
  all: rewrite ?vt_min_eq, ?vt_max_eq.
  all: unfold vt.Width, vt.Height in *; cbn [vt.moveCursor vt.ScreenFill vt.buf cellbuf.Fill cellbuf.buf_width cellbuf.buf_height].
  all: (split; [|done]); lia.
Qed.

End cursor_proofs.

(** ** Extended colours in SGR *)

(** What [readColor] does with the [k >= 1] parameters that start at
    the colour code (index [i]): it fails when the code is the last
    parameter; with sub-code 5 it fails on [38;5] and reads an indexed
    colour otherwise; with sub-code 2 it ignores [38;2] and [38;2;r],
    fails on [38;2;r;g] and reads an RGB colour otherwise. *)
Lemma readColor_last params i :
  0 <= i -> len params = i + 1 -> vt.readColor i params = Panic.
Proof.
  intros Hi Hlen. unfold vt.readColor.
  destruct (Z.gtb_spec i (len params - 1)); [lia|].
  by rewrite (index_out_of_range params (i + 1)) by lia.
Qed.

Lemma readColor_indexed params i k :
  0 <= i -> len params = i + k -> 2 <= k ->
  params !! Z.to_nat (i + 1) = Some 5 ->
  vt.readColor i params
  = if k =? 2 then Panic
    else v ← index params (i + 2);
         Ok (Some (cellbuf.ExtendedColor (uint8 v)), i + 2).
Proof.
  intros Hi Hlen Hk Hsub. unfold vt.readColor.
  destruct (Z.gtb_spec i (len params - 1)); [lia|].
  rewrite (index_lookup params (i + 1) 5) by (lia || done).
  cbn [mbind result_bind Z.eqb Pos.eqb].
  destruct (Z.gtb_spec i (len params - 2)); [lia|].
  destruct (k =? 2) eqn:Hk2; [|done].
  apply Z.eqb_eq in Hk2. by rewrite (index_out_of_range params (i + 2)) by lia.
Qed.

Lemma readColor_rgb params i k :
  0 <= i -> len params = i + k -> 2 <= k ->
  params !! Z.to_nat (i + 1) = Some 2 ->
  vt.readColor i params
  = if k <=? 3 then Ok (None, i)
    else if k =? 4 then Panic
    else r ← index params (i + 2);
         g ← index params (i + 3);
         b ← index params (i + 4);
         Ok (Some (cellbuf.RGBA (uint8 r) (uint8 g) (uint8 b) 0xff), i + 4).
Proof.
  intros Hi Hlen Hk Hsub. unfold vt.readColor.
  destruct (Z.gtb_spec i (len params - 1)); [lia|].
  rewrite (index_lookup params (i + 1) 2) by (lia || done).
  cbn [mbind result_bind Z.eqb Pos.eqb].
  destruct (k <=? 3) eqn:Hk3.
  { apply Z.leb_le in Hk3. destruct (Z.gtb_spec i (len params - 4)); [done|lia]. }
  apply Z.leb_gt in Hk3. destruct (Z.gtb_spec i (len params - 4)); [lia|].
  destruct (k =? 4) eqn:Hk4; [|done]. apply Z.eqb_eq in Hk4.
  destruct (index_in_range params (i + 2)) as (r & -> & _); [lia|].
  destruct (index_in_range params (i + 3)) as (g & -> & _); [lia|].
  cbn [mbind result_bind]. by rewrite (index_out_of_range params (i + 4)) by lia.
Qed.

(** ** The loop of [handleSgr] *)

Section sgr_proofs.
Context `{!parser.Consts}.
Variable missing_value : Z.

Lemma readColor_advances params i c i' :
  vt.readColor i params = Ok (c, i') -> i <= i'.
Proof.
  unfold vt.readColor. intros Hr.
  repeat match type of Hr with
  | context [if ?c then _ else _] =>
      lazymatch type of c with bool => destruct c end
  | context [index ?l ?k] => destruct (index l k); cbn [mbind result_bind] in Hr
  end; try discriminate; injection Hr as _ <-; lia.
Qed.

Lemma sgrStep_advances params i pen pen' i' :
  vt.sgrStep missing_value params i pen = Ok (pen', i') -> i <= i'.
Proof.
  unfold vt.sgrStep. intros Hs.
  destruct (index params i) as [r|]; [|discriminate].
  cbn [mbind result_bind] in Hs.
  repeat match type of Hs with
  | context [vt.readColor ?k ?l] =>
      let E := fresh "E" in
      destruct (vt.readColor k l) as [[c k']|] eqn:E;
      [apply readColor_advances in E|]; cbn [mbind result_bind] in Hs
  | context [if ?c then _ else _] =>
      lazymatch type of c with bool => destruct c end
  | context [index ?l ?k] => destruct (index l k); cbn [mbind result_bind] in Hs
  end; try discriminate; injection Hs as _ <-; lia.
Qed.

(** Every iteration advances the index, so the loop never stops for
    want of fuel once the fuel covers the parameters that remain:
    more fuel changes nothing. *)
Lemma sgrLoop_fuel fuel extra params i pen :
  len params - i <= Z.of_nat fuel ->
  vt.sgrLoop missing_value (fuel + extra) params i pen
  = vt.sgrLoop missing_value fuel params i pen.
Proof.
  revert i pen. induction fuel as [|fuel IH]; intros i pen Hfuel.
  - destruct extra as [|extra]; [done|]. cbn [Nat.add vt.sgrLoop].
    destruct (Z.ltb_spec i (len params)); [lia|done].
  - cbn [Nat.add vt.sgrLoop].
    destruct (Z.ltb_spec i (len params)); [|done].
    destruct (vt.sgrStep missing_value params i pen) as [[pen' i']|] eqn:Hs;
      [|done].
    cbn [mbind result_bind]. apply sgrStep_advances in Hs. apply IH. lia.
Qed.

End sgr_proofs.

(** ** The scanner *)

Section scanner_proofs.
Context `{!parser.Consts} `{!Segmenter}.

Lemma scan_app b r1 r2 i s p :
  ansi.scan b (r1 ++ r2) i s p
  = match ansi.scan b r1 i s p with
    | Ok (ansi.Continue s' p') => ansi.scan b r2 (i + len r1) s' p'
    | other => other
    end.
Proof.
  revert i s p. induction r1 as [|c r1 IH]; intros i s p.
  - cbn. unfold len. cbn. by rewrite Z.add_0_r.
  - cbn [app ansi.scan]. destruct (ansi.step b i c s p) as [[s' p'|r]|]; cbn; [|done..].
    rewrite IH. replace (i + 1 + len r1) with (i + len (c :: r1)); [done|].
    unfold len. cbn [length]. lia.
Qed.

Lemma with_parser_None f : ansi.with_parser None f = Ok None.
Proof. done. Qed.

(** Case analysis on one iteration of the loop: on the context being
    nil or not, on every test of the byte, and on the outcome of every
    access to the parameter slots. *)
Ltac step_cases :=
  repeat first
    [ progress scan_simpl
    | match goal with
      | |- context [if ?c then _ else _] =>
          lazymatch type of c with bool => destruct c eqn:? end
      | |- context [ansi.bump_last_param ?P] =>
          destruct (ansi.bump_last_param P) eqn:?
      | |- context [ansi.add_digit ?P ?c] =>
          destruct (ansi.add_digit P c) eqn:?
      | |- context [ansi.flag_has_more ?P] =>
          destruct (ansi.flag_has_more P) eqn:?
      | |- context [ansi.next_param ?P] =>
          destruct (ansi.next_param P) eqn:?
      end ].

Lemma step_relocate b b' i i' c s p :
  s <> ansi.NormalState -> s <> ansi.StringState ->
  ansi.HasDcsPrefix b = ansi.HasDcsPrefix b' ->
  ansi.step b' i' c s p
  = match ansi.step b i c s p with
    | Ok o => Ok (relocate b' (i' - i) o)
    | Panic => Panic
    end.
Proof.
  intros Hn Hs Hd.
  destruct p as [P|], s; try done; cbn [ansi.step];
    unfold ansi.markerCase, ansi.paramsCase, ansi.intermedCase, ansi.escapeCase;
    rewrite <- ?Hd.
  all: step_cases; try done.
  all: unfold ansi.ret;
    replace (i + 1 + (i' - i)) with (i' + 1) by lia;
    replace (i + (i' - i)) with i' by lia; done.
Qed.

Lemma csi_or_esc_state_not_normal s rest :
  csi_or_esc_state s rest = true ->
  s <> ansi.NormalState /\ s <> ansi.StringState.
Proof. by destruct s. Qed.

(** What one iteration does in the states of a CSI or escape sequence:
    it goes on only over a byte of [0x20, 0x7E] and stays within those
    states unless a string starts; it returns the buffer up to the
    byte read, with or without that byte, and without it when the
    byte lies outside [0x20, 0x7E]. *)
Lemma step_csi_or_esc b i c rest s p o :
  csi_or_esc_state s (c :: rest) = true ->
  ansi.HasDcsPrefix b = false ->
  ansi.step b i c s p = Ok o ->
  match o with
  | ansi.Continue s' p' =>
      csi_or_esc_state s' rest = true /\ 0x20 <= bval c <= 0x7E
  | ansi.Return r =>
      ansi.seq r = slice_to b (ansi.n r) /\ ansi.width r = 0
      /\ ansi.newState r = ansi.NormalState
      /\ (ansi.n r = i \/ (ansi.n r = i + 1 /\ 0x20 <= bval c <= 0x7E))
  end.
Proof.
  intros Hs Hd.
  destruct p as [P|], s; try done; cbn [ansi.step];
    unfold ansi.markerCase, ansi.paramsCase, ansi.intermedCase, ansi.escapeCase;
    rewrite ?Hd.
  all: step_cases; intros; simplify_eq; cbn.
  all: try (split; [done|lia]).
  all: try (repeat split; try done; (by left) || (right; split; [done|lia])).
  all: cbn in Hs; unfold is_introducer in Hs.
  all: try (split; [|lia]).
  all: try (destruct rest as [|c' rest']; [done|]).
  all: repeat match goal with
       | H : (_ || _) = true |- _ => apply orb_prop in H as [H|H]
       | H : (_ || _) = false |- _ => apply orb_false_elim in H as [? ?]
       | H : (_ && _) = true |- _ => apply andb_prop in H as [? ?]
       | H : negb _ = true |- _ => apply negb_true_iff in H
       end; try congruence; try lia.
  all: match goal with
       | Hall : forallb _ _ = true |- _ => apply orb_true_intro; right; exact Hall
       end.
Qed.


Lemma scan_csi_or_esc b rest i s p o :
  csi_or_esc_state s rest = true ->
  ansi.HasDcsPrefix b = false ->
  ansi.scan b rest i s p = Ok o ->
  match o with
  | ansi.Continue s' p' => csi_or_esc_state s' [] = true
  | ansi.Return r =>
      ansi.seq r = slice_to b (ansi.n r) /\ ansi.width r = 0
      /\ ansi.newState r = ansi.NormalState
      /\ i <= ansi.n r <= i + len rest
  end.
Proof.
  intros Hs Hd. revert i s p Hs.
  induction rest as [|c rest IH]; intros i s p Hs Ho.
  - cbn in Ho. simplify_eq. by destruct s.
  - cbn [ansi.scan] in Ho.
    destruct (ansi.step b i c s p) as [o1|] eqn:Hstep; [|done].
    pose proof (step_csi_or_esc b i c rest s p o1 Hs Hd Hstep) as Hone.
    cbn [mbind result_bind] in Ho. destruct o1 as [s1 p1|r1].
    + destruct Hone as [Hs1 _]. specialize (IH (i + 1) s1 p1 Hs1 Ho).
      destruct o as [s' p'|r]; [done|].
      destruct IH as (Hseq & Hw & Hst & Hn). repeat split; try done.
      all: unfold len in *; cbn [length]; lia.
    + simplify_eq. destruct Hone as (Hseq & Hw & Hst & Hn).
      repeat split; try done; unfold len; cbn [length]; lia.
Qed.

Lemma scan_csi_or_esc_app b r1 r2 i s p s' p' :
  csi_or_esc_state s (r1 ++ r2) = true ->
  ansi.HasDcsPrefix b = false ->
  ansi.scan b r1 i s p = Ok (ansi.Continue s' p') ->
  csi_or_esc_state s' r2 = true.
Proof.
  intros Hs Hd. revert i s p Hs.
  induction r1 as [|c r1 IH]; intros i s p Hs Ho.
  - cbn in Ho. by simplify_eq.
  - cbn [ansi.scan] in Ho.
    destruct (ansi.step b i c s p) as [o1|] eqn:Hstep; [|done].
    pose proof (step_csi_or_esc b i c (r1 ++ r2) s p o1 Hs Hd Hstep) as Hone.
    cbn [mbind result_bind] in Ho. destruct o1 as [s1 p1|r1']; [|done].
    destruct Hone as [Hs1 _]. by apply (IH (i + 1) s1 p1).
Qed.

(** In the states of a CSI or escape sequence the scanner looks at the
    buffer only to cut the token out of it: on another buffer that
    holds the same bytes elsewhere it runs alike. *)
Lemma scan_relocate b b' rest i i' s p :
  csi_or_esc_state s rest = true ->
  ansi.HasDcsPrefix b = false -> ansi.HasDcsPrefix b' = false ->
  ansi.scan b' rest i' s p
  = match ansi.scan b rest i s p with
    | Ok o => Ok (relocate b' (i' - i) o)
    | Panic => Panic
    end.
Proof.
  intros Hs Hd Hd'. revert i i' s p Hs.
  induction rest as [|c rest IH]; intros i i' s p Hs; [done|].
  cbn [ansi.scan].
  destruct (csi_or_esc_state_not_normal _ _ Hs) as [Hn Hstr].
  rewrite (step_relocate b b' i i' c s p Hn Hstr) by congruence.
  destruct (ansi.step b i c s p) as [o1|] eqn:Hstep; [|done].
  pose proof (step_csi_or_esc b i c rest s p o1 Hs Hd Hstep) as Hone.
  cbn [mbind result_bind]. destruct o1 as [s1 p1|r1]; cbn [relocate]; [|done].
  destruct Hone as [Hs1 _]. rewrite (IH (i + 1) (i' + 1) s1 p1 Hs1).
  by replace (i' + 1 - (i + 1)) with (i' - i) by lia.
Qed.

Lemma has_prefix2_app b1 b2 c8 c7 :
  ansi.has_prefix2 (b1 ++ b2) c8 c7 = false -> b1 <> [] ->
  ansi.has_prefix2 b1 c8 c7 = false.
Proof.
  destruct b1 as [|x [|y b1]]; [done| |done].
  intros Hpre _. cbn in *. destruct b2; cbn in *.
  - by rewrite orb_false_r in *.
  - apply orb_false_elim in Hpre as [-> _]. done.
Qed.

Lemma csi_or_plain_escape_not_dcs b :
  csi_or_plain_escape b = true -> ansi.HasDcsPrefix b = false.
Proof.
  unfold csi_or_plain_escape, ansi.HasCsiPrefix, ansi.HasDcsPrefix, plain_escape,
    ansi.has_prefix2, is_introducer, ansi.CSI, ansi.DCS, ansi.ESC.
  destruct b as [|x [|y r]]; [done| |]; cbn [forallb];
    intros Hk; bool_to_prop; lia.
Qed.

Lemma csi_or_plain_escape_start c0 tail p :
  csi_or_plain_escape (c0 :: tail) = true ->
  exists s1 p1,
    csi_or_esc_state s1 tail = true
    /\ forall b i, ansi.step b i c0 ansi.NormalState p = Ok (ansi.Continue s1 p1).
Proof.
  unfold csi_or_plain_escape, ansi.HasCsiPrefix, plain_escape,
    ansi.has_prefix2, ansi.CSI, ansi.ESC.
  intros Hk. cbn [ansi.step]. unfold ansi.normalCase.
  destruct (bval c0 =? ansi.ESC) eqn:Hesc.
  - destruct p as [P|]; cbn; eexists ansi.EscapeState, _;
      (split; [|done]); cbn; destruct tail as [|y r]; try done;
      unfold ansi.ESC in *; bool_to_prop;
      destruct Hk as [[Hk|Hk]|Hk]; try lia; tauto.
  - assert (Hcsi : (bval c0 =? ansi.CSI) = true).
    { unfold ansi.ESC, ansi.CSI in *. destruct tail; bool_to_prop; lia. }
    rewrite Hcsi. destruct p as [P|]; cbn; by eexists ansi.MarkerState, _.
Qed.

Lemma csi_or_esc_state_app_l s r1 r2 :
  csi_or_esc_state s (r1 ++ r2) = true -> csi_or_esc_state s r1 = true.
Proof.
  destruct s, r1 as [|c r1]; try done. cbn [csi_or_esc_state app].
  change (c :: r1 ++ r2) with ((c :: r1) ++ r2). rewrite forallb_app.
  intros Hs. bool_to_prop. tauto.
Qed.

Lemma slice_to_whole {A} (l : list A) k :
  slice_to l k = l -> len l <= Z.max k 0.
Proof.
  unfold slice_to, len. intros Heq.
  assert (Hl : length (take (Z.to_nat k) l) = length l) by congruence.
  rewrite length_take in Hl. lia.
Qed.

Lemma DecodeSequence_nil s p :
  ansi.DecodeSequence [] s p = Ok (ansi.mkDecoded [] 0 0 s p).
Proof. done. Qed.

(** X22.  A complete CSI sequence or plain escape sequence (a buffer
    that begins with a CSI introducer, or with [ESC] and holds no
    introducer byte, and that comes back whole as one token, in
    [NormalState], when decoded from [NormalState]) can be cut at any
    position: decoding the first part, then the second
    part with the state and the context the first call left, gives
    the same token bytes, the same width, the same count of bytes, the
    same final state and the same final context as decoding the
    sequence in one call. *)
Theorem csi_esc_resumable b1 b2 p r :
  csi_or_plain_escape (b1 ++ b2) = true ->
  ansi.DecodeSequence (b1 ++ b2) ansi.NormalState p = Ok r ->
  ansi.seq r = b1 ++ b2 -> ansi.newState r = ansi.NormalState ->
  exists r1 r2,
    ansi.DecodeSequence b1 ansi.NormalState p = Ok r1
    /\ ansi.DecodeSequence b2 (ansi.newState r1) (ansi.ctx r1) = Ok r2
    /\ ansi.seq r1 ++ ansi.seq r2 = ansi.seq r
    /\ ansi.width r1 + ansi.width r2 = ansi.width r
    /\ ansi.n r1 + ansi.n r2 = ansi.n r
    /\ ansi.newState r2 = ansi.newState r
    /\ ansi.ctx r2 = ansi.ctx r.
Proof.
  intros Hk Hdec Hseq Hst.
  destruct b1 as [|c0 b1'].
  { exists (ansi.mkDecoded [] 0 0 ansi.NormalState p), r. by destruct r. }
  destruct b2 as [|c2 b2'].
  { rewrite app_nil_r in *. exists r, (ansi.mkDecoded [] 0 0 ansi.NormalState (ansi.ctx r)).
    rewrite Hst. cbn. rewrite app_nil_r. repeat split; try done; lia. }
  set (b1 := c0 :: b1') in *. set (b2 := c2 :: b2') in *.
  set (b := b1 ++ b2) in *.
  pose proof (csi_or_plain_escape_not_dcs b Hk) as Hd.
  destruct (csi_or_plain_escape_start c0 (b1' ++ b2) p Hk) as (s1 & p1 & Hs1 & Hstep).
  assert (Hd1 : ansi.HasDcsPrefix b1 = false).
  { by apply (has_prefix2_app b1 b2). }
  unfold ansi.DecodeSequence in Hdec.
  assert (Hscan : ansi.scan b b 0 ansi.NormalState p
                  = ansi.scan b (b1' ++ b2) (0 + 1) s1 p1).
  { change (ansi.scan b (c0 :: (b1' ++ b2)) 0 ansi.NormalState p
            = ansi.scan b (b1' ++ b2) (0 + 1) s1 p1).
    cbn [ansi.scan]. by rewrite Hstep. }
  rewrite Hscan, scan_app in Hdec.
  destruct (ansi.scan b b1' (0 + 1) s1 p1) as [[s p'|r0]|] eqn:Hpre; cycle 1.
  { (* the token would end inside the first part *)
    cbn [mbind result_bind] in Hdec. injection Hdec as ->.
    assert (Hs1' : csi_or_esc_state s1 b1' = true).
    { by apply (csi_or_esc_state_app_l s1 b1' b2). }
    pose proof (scan_csi_or_esc b b1' (0 + 1) s1 p1 _ Hs1' Hd Hpre) as (Hsl & _ & _ & Hn).
    rewrite Hseq in Hsl. symmetry in Hsl. apply slice_to_whole in Hsl.
    subst b b1 b2. unfold len in *. rewrite length_app in Hsl. cbn [length] in *. lia. }
  { done. }
  pose proof (scan_csi_or_esc_app b b1' b2 (0 + 1) s1 p1 s p' Hs1 Hd Hpre) as Hs.
  assert (Hi : 0 + 1 + len b1' = len b1).
  { subst b1. unfold len. cbn [length]. lia. }
  rewrite Hi in Hdec.
  (* the first call *)
  assert (Hfirst : ansi.DecodeSequence b1 ansi.NormalState p
                   = Ok (ansi.mkDecoded b1 0 (len b1) s p')).
  { unfold ansi.DecodeSequence.
    assert (Hscan1 : ansi.scan b1 b1 0 ansi.NormalState p
                     = ansi.scan b1 b1' (0 + 1) s1 p1).
    { change (ansi.scan b1 (c0 :: b1') 0 ansi.NormalState p
              = ansi.scan b1 b1' (0 + 1) s1 p1).
      cbn [ansi.scan]. by rewrite Hstep. }
    rewrite Hscan1.
    assert (Hs1' : csi_or_esc_state s1 b1' = true).
    { by apply (csi_or_esc_state_app_l s1 b1' b2). }
    rewrite (scan_relocate b b1 b1' (0 + 1) (0 + 1) s1 p1 Hs1' Hd Hd1), Hpre.
    done. }
  (* the rest of the whole run *)
  destruct (ansi.scan b b2 (len b1) s p') as [[s' p''|r']|] eqn:Hrest;
    cbn [mbind result_bind] in Hdec; [| |done].
  { injection Hdec as <-.
    pose proof (scan_csi_or_esc b b2 (len b1) s p' _ Hs Hd Hrest) as Hend.
    cbn in Hst. subst s'. done. }
  injection Hdec as ->.
  pose proof (scan_csi_or_esc b b2 (len b1) s p' _ Hs Hd Hrest) as (Hsl & Hw & _ & Hn).
  assert (Hlen : len b = len b1 + len b2).
  { subst b. unfold len. rewrite length_app. lia. }
  assert (Hnr : ansi.n r = len b).
  { rewrite Hseq in Hsl. symmetry in Hsl. apply slice_to_whole in Hsl.
    unfold len in *. lia. }
  assert (Hd2 : ansi.HasDcsPrefix b2 = false).
  { assert (Hc2 : 0x20 <= bval c2 <= 0x7E).
    { change b2 with (c2 :: b2') in Hrest. cbn [ansi.scan] in Hrest.
      destruct (ansi.step b (len b1) c2 s p') as [o1|] eqn:Hstep2; [|done].
      pose proof (step_csi_or_esc b (len b1) c2 b2' s p' o1 Hs Hd Hstep2) as Hone.
      cbn [mbind result_bind] in Hrest. destruct o1 as [s2 p2|r2]; [tauto|].
      injection Hrest as ->. destruct Hone as (_ & _ & _ & [Hbad|[_ Hok]]); [|done].
      subst b2. unfold len in *. cbn [length] in *. lia. }
    subst b2. unfold ansi.HasDcsPrefix, ansi.has_prefix2, ansi.DCS, ansi.ESC.
    destruct b2'; bool_to_prop; lia. }
  pose proof (scan_relocate b b2 b2 (len b1) 0 s p' Hs Hd Hd2) as Hsecond.
  rewrite Hrest in Hsecond. cbn [relocate] in Hsecond.
  eexists _, _. split; [exact Hfirst|]. cbn [ansi.newState ansi.ctx].
  unfold ansi.DecodeSequence at 1. rewrite Hsecond. cbn [mbind result_bind].
  split; [reflexivity|]. cbn [ansi.seq ansi.width ansi.n ansi.newState ansi.ctx].
  rewrite Hnr, Hlen, Hw, Hseq.
  repeat split; try done; try lia.
  unfold slice_to. replace (Z.to_nat (len b1 + len b2 + (0 - len b1))) with (length b2)
    by (unfold len; lia).
  by rewrite firstn_all.
Qed.
End scanner_proofs.

Lemma csi_esc_resumable_witness :
  let p := Some (fresh_parser 16 0) in
  let r := ansi.mkDecoded (sgr_head ++ sgr_tail) 0 7 ansi.NormalState
             (Some (ansi.mkParser (1 :: 31 :: replicate 14 0) 2 0x6D [] 0)) in
  exists r1 r2,
    @ansi.DecodeSequence layout32 one_rune_segmenter sgr_head ansi.NormalState p
    = Ok r1
    /\ @ansi.DecodeSequence layout32 one_rune_segmenter sgr_tail
         (ansi.newState r1) (ansi.ctx r1) = Ok r2
    /\ ansi.seq r1 ++ ansi.seq r2 = ansi.seq r
    /\ ansi.width r1 + ansi.width r2 = ansi.width r
    /\ ansi.n r1 + ansi.n r2 = ansi.n r
    /\ ansi.newState r2 = ansi.newState r
    /\ ansi.ctx r2 = ansi.ctx r.
Proof.
  apply (@csi_esc_resumable layout32 one_rune_segmenter sgr_head sgr_tail).
  - reflexivity.
  - by vm_compute.
  - reflexivity.
  - reflexivity.
Defined.

(** C1.  String sequences are not resumed at every cut.
    [DecodeSequence] takes the state of the call before and hands back
    its own, but in [StringState] and [IntermedState] it asks
    [HasOscPrefix(b)] and [HasDcsPrefix(b)] of the buffer of the call
    at hand, which after a cut no longer begins with the introducer.
    The OSC string [ESC ] 0 ; t BEL] is one complete token when decoded
    whole; cut after [ESC ] 0], the second call no longer sees the OSC
    prefix at the start of its buffer, takes BEL for data and ends in
    [StringState].  The DCS string [ESC P 1 q x ESC \], cut after
    [ESC P 1], comes back from the second call as the one-byte token
    [q]. *)
Lemma string_sequences_not_resumable :
  (exists r r1 r2,
      @ansi.DecodeSequence layout32 one_rune_segmenter (osc_head ++ osc_tail)
        ansi.NormalState None = Ok r
      /\ ansi.seq r = osc_head ++ osc_tail
      /\ ansi.newState r = ansi.NormalState
      /\ @ansi.DecodeSequence layout32 one_rune_segmenter osc_head
           ansi.NormalState None = Ok r1
      /\ @ansi.DecodeSequence layout32 one_rune_segmenter osc_tail
           (ansi.newState r1) (ansi.ctx r1) = Ok r2
      /\ ansi.newState r2 = ansi.StringState
      /\ ansi.newState r2 <> ansi.newState r)
  /\ (exists r r1 r2,
         @ansi.DecodeSequence layout32 one_rune_segmenter (dcs_head ++ dcs_tail)
           ansi.NormalState None = Ok r
         /\ ansi.seq r = dcs_head ++ dcs_tail
         /\ ansi.newState r = ansi.NormalState
         /\ @ansi.DecodeSequence layout32 one_rune_segmenter dcs_head
              ansi.NormalState None = Ok r1
         /\ @ansi.DecodeSequence layout32 one_rune_segmenter dcs_tail
              (ansi.newState r1) (ansi.ctx r1) = Ok r2
         /\ ansi.n r1 + ansi.n r2 = 4
         /\ ansi.seq r1 ++ ansi.seq r2 <> ansi.seq r).
Proof.
  split.
  - eexists _, _, _. split; [by vm_compute|]. split; [reflexivity|].
    split; [reflexivity|]. split; [by vm_compute|]. split; [by vm_compute|].
    split; [reflexivity|]. done.
  - eexists _, _, _. split; [by vm_compute|]. split; [reflexivity|].
    split; [reflexivity|]. split; [by vm_compute|]. split; [by vm_compute|].
    split; [reflexivity|]. done.
Qed.

(** ** Giving up on an invalid byte *)

Section abort_proofs.
Context `{!parser.Consts} `{!Segmenter}.

Lemma parseOscLoop_total k j dat c :
  0 <= j -> j + Z.of_nat k <= len dat ->
  exists c', ansi.parseOscLoop k j dat c = Ok c'.
Proof.
  revert j c. induction k as [|k IH]; intros j c Hj Hk; [by eexists|].
  cbn [ansi.parseOscLoop].
  destruct (index_in_range dat j) as (d & -> & _); [lia|].
  cbn [mbind result_bind]. destruct (_ || _); [by eexists|].
  apply IH; lia.
Qed.

Lemma parseOscCmd_total p :
  data_ok p ->
  exists p', ansi.parseOscCmd p = Ok p' /\ data_ok p'.
Proof.
  destruct p as [P|]; [|by eexists]. cbn. intros Hok.
  destruct (negb _); [by eexists|].
  destruct (parseOscLoop_total (Z.to_nat (ansi.dataLen P)) 0 (ansi.data P) (ansi.cmd P))
    as [c' ->]; [lia..|].
  cbn. by eexists.
Qed.

Lemma parseOscCmd_if_osc_total b p :
  data_ok p ->
  exists p', ansi.parseOscCmd_if_osc b p = Ok p' /\ data_ok p'.
Proof.
  intros Hok. unfold ansi.parseOscCmd_if_osc.
  destruct (ansi.HasOscPrefix b); [by apply parseOscCmd_total|by eexists].
Qed.

Lemma bump_last_param_total P :
  exists P', ansi.bump_last_param P = Ok P'
    /\ ansi.data P' = ansi.data P /\ ansi.dataLen P' = ansi.dataLen P
    /\ ansi.params P' = ansi.params P.
Proof.
  unfold ansi.bump_last_param.
  destruct ((0 <? ansi.paramsLen P) && _) eqn:Ha;
    [by eexists; split; [reflexivity|]|].
  destruct ((ansi.paramsLen P =? 0) && _) eqn:Hb;
    [|by eexists; split; [reflexivity|]].
  bool_to_prop.
  destruct (index_in_range (ansi.params P) 0) as (x & -> & _); [lia|].
  cbn. destruct (negb _); by eexists; split; [reflexivity|].
Qed.

(** On a byte that fits no transition of the current state, one
    iteration returns the buffer up to that byte, excluding it. *)
Lemma step_abort b i c rest s p :
  0 <= i -> slice_from b i = c :: rest ->
  aborts_in s c rest -> data_ok p ->
  exists p',
    ansi.step b i c s p = Ok (ansi.ret (slice_to b i) 0 i p').
Proof.
  intros Hi Hb Hab Hok.
  destruct s; cbn [ansi.step aborts_in] in *; [done|..].
  - (* MarkerState *)
    unfold ansi.markerCase, ansi.paramsCase, ansi.intermedCase.
    repeat match goal with
    | |- context [if ?t then _ else _] =>
        let Ht := fresh "Ht" in
        destruct t eqn:Ht; [exfalso; bool_to_prop; lia|]
    end.
    destruct p as [P|]; cbn; [|by eexists].
    destruct (bump_last_param_total P) as (P' & -> & _). cbn. by eexists.
  - (* ParamsState *)
    unfold ansi.paramsCase, ansi.intermedCase.
    repeat match goal with
    | |- context [if ?t then _ else _] =>
        let Ht := fresh "Ht" in
        destruct t eqn:Ht; [exfalso; bool_to_prop; lia|]
    end.
    destruct p as [P|]; cbn; [|by eexists].
    destruct (bump_last_param_total P) as (P' & -> & _). cbn. by eexists.
  - (* IntermedState *)
    unfold ansi.intermedCase.
    repeat match goal with
    | |- context [if ?t then _ else _] =>
        let Ht := fresh "Ht" in
        destruct t eqn:Ht; [exfalso; bool_to_prop; lia|]
    end.
    destruct p as [P|]; cbn; [|by eexists].
    destruct (bump_last_param_total P) as (P' & -> & _). cbn. by eexists.
  - (* EscapeState *)
    unfold ansi.escapeCase.
    repeat match goal with
    | |- context [if ?t then _ else _] =>
        let Ht := fresh "Ht" in
        destruct t eqn:Ht; [exfalso; bool_to_prop; lia|]
    end.
    by eexists.
  - (* StringState *)
    unfold ansi.stringCase, ansi.BEL, ansi.CAN, ansi.SUB, ansi.ST, ansi.ESC in *.
    rewrite Hb.
    destruct ((bval c =? 7) && ansi.HasOscPrefix b) eqn:Hbel;
      [exfalso; bool_to_prop; lia|].
    destruct ((bval c =? 24) || (bval c =? 26)) eqn:Hcan.
    + destruct (parseOscCmd_if_osc_total b p Hok) as (p' & -> & _).
      cbn. by eexists.
    + destruct (bval c =? 156) eqn:Hst; [exfalso; bool_to_prop; lia|].
      destruct (bval c =? 27) eqn:Hesc; [|exfalso; bool_to_prop; lia].
      destruct Hab as [?|[?|[_ ->]]]; [bool_to_prop; lia..|].
      by eexists.
Qed.

Lemma add_digit_data P c P' : ansi.add_digit P c = Ok P' -> same_data P P'.
Proof.
  unfold ansi.add_digit. destruct (index _ _); [|done]. cbn.
  destruct (store _ _ _); [|done]. cbn. by intros [= <-].
Qed.

Lemma flag_has_more_data P P' : ansi.flag_has_more P = Ok P' -> same_data P P'.
Proof.
  unfold ansi.flag_has_more. destruct (index _ _); [|done]. cbn.
  destruct (store _ _ _); [|done]. cbn. by intros [= <-].
Qed.

Lemma next_param_data P P' : ansi.next_param P = Ok P' -> same_data P P'.
Proof.
  unfold ansi.next_param. destruct (_ <? _); [|by intros [= <-]].
  destruct (store _ _ _); [|done]. cbn. by intros [= <-].
Qed.

Lemma bump_last_param_data P P' :
  ansi.bump_last_param P = Ok P' -> same_data P P'.
Proof.
  destruct (bump_last_param_total P) as (P0 & -> & ? & ? & _).
  by intros [= <-].
Qed.

Lemma parseOscCmd_data p p' :
  ansi.parseOscCmd p = Ok p' -> data_ok p -> data_ok p'.
Proof.
  destruct p as [P|]; cbn; [|by intros [= <-]].
  destruct (negb _); [by intros [= <-]|].
  destruct (ansi.parseOscLoop _ _ _ _); [|done]. cbn. by intros [= <-].
Qed.

Lemma store_length {A} (l : list A) i x l' :
  store l i x = Ok l' -> len l' = len l.
Proof.
  unfold store. case_bool_decide; [|done]. intros [= <-].
  unfold len. by rewrite length_insert.
Qed.

Lemma append_data_ok b c p p' :
  ansi.append_data b c p = Ok p' -> data_ok p -> data_ok p'.
Proof.
  destruct p as [P|]; cbn [ansi.append_data]; [|by intros [= <-]].
  destruct (ansi.dataLen P <? len (ansi.data P)) eqn:Hlt; [|by intros [= <-]].
  destruct (store _ _ _) as [d|] eqn:Hd; [|done]. cbn [mbind result_bind].
  apply store_length in Hd. intros Hp [Hr Hmax]. apply Z.ltb_lt in Hlt.
  assert (Hnew : data_ok (Some (ansi.set_dataLen (ansi.set_data P d)
                                  (int_wrap (ansi.dataLen P + 1))))).
  { cbn. rewrite int_wrap_small by lia. lia. }
  destruct (_ && _).
  - by apply (parseOscCmd_data _ _ Hp).
  - by injection Hp as <-.
Qed.

Ltac hyp_cases Hstep :=
  repeat first
    [ progress cbn [mbind result_bind ansi.with_parser ansi.ret] in Hstep
    | match type of Hstep with
      | context [if ?t then _ else _] =>
          lazymatch type of t with bool => destruct t eqn:? end
      | context [ansi.bump_last_param ?P] =>
          destruct (ansi.bump_last_param P) eqn:?
      | context [ansi.add_digit ?P ?c] =>
          destruct (ansi.add_digit P c) eqn:?
      | context [ansi.flag_has_more ?P] =>
          destruct (ansi.flag_has_more P) eqn:?
      | context [ansi.next_param ?P] =>
          destruct (ansi.next_param P) eqn:?
      | context [ansi.parseOscCmd_if_osc ?b ?p] =>
          destruct (ansi.parseOscCmd_if_osc b p) eqn:?
      | context [ansi.parseOscCmd ?p] =>
          destruct (ansi.parseOscCmd p) eqn:?
      | context [ansi.append_data ?b ?c ?p] =>
          destruct (ansi.append_data b c p) eqn:?
      | context [uniseg_FirstGraphemeCluster ?b ?st] =>
          destruct (uniseg_FirstGraphemeCluster b st) as [[[? ?] ?] ?] eqn:?
      end ].

Ltac calls_keep_data :=
  repeat match goal with
  | E : ansi.bump_last_param _ = Ok _ |- _ => apply bump_last_param_data in E
  | E : ansi.add_digit _ _ = Ok _ |- _ => apply add_digit_data in E
  | E : ansi.flag_has_more _ = Ok _ |- _ => apply flag_has_more_data in E
  | E : ansi.next_param _ = Ok _ |- _ => apply next_param_data in E
  | E : ansi.append_data _ _ _ = Ok _ |- _ =>
      pose proof (append_data_ok _ _ _ _ E); clear E
  end.

Lemma clear_first_param_data P : same_data P (ansi.clear_first_param P).
Proof. unfold ansi.clear_first_param. by destruct (ansi.params P). Qed.

Ltac use_same_data :=
  repeat match goal with
  | Hsame : same_data _ _ |- _ =>
      let Hd := fresh "Hd" in let Hl := fresh "Hl" in
      destruct Hsame as [Hd Hl]; cbn in Hd, Hl; rewrite ?Hd, ?Hl
  end.

Lemma step_data_ok b i c s p s' p' :
  data_ok p ->
  ansi.step b i c s p = Ok (ansi.Continue s' p') ->
  data_ok p'.
Proof.
  intros Hok Hstep.
  destruct p as [P|], s; cbn [ansi.step] in Hstep;
    unfold ansi.normalCase, ansi.markerCase, ansi.paramsCase, ansi.intermedCase,
      ansi.escapeCase, ansi.stringCase in Hstep;
    hyp_cases Hstep; simplify_eq; try done; calls_keep_data.
  all: try match goal with
           | Hd : data_ok ?q -> data_ok ?q' |- data_ok ?q' => by apply Hd
           end.
  all: try match goal with
           | |- context [ansi.clear_first_param ?Q] =>
               pose proof (clear_first_param_data Q)
           end.
  all: cbn in Hok |- *; use_same_data; lia.
Qed.

Lemma scan_data_ok b rest i s p s' p' :
  data_ok p ->
  ansi.scan b rest i s p = Ok (ansi.Continue s' p') ->
  data_ok p'.
Proof.
  revert i s p. induction rest as [|c rest IH]; intros i s p Hok Hscan.
  - cbn in Hscan. by simplify_eq.
  - cbn [ansi.scan] in Hscan.
    destruct (ansi.step b i c s p) as [[s1 p1|r]|] eqn:Hstep; [|done..].
    cbn [mbind result_bind] in Hscan.
    eapply IH; [|exact Hscan]. by eapply step_data_ok.
Qed.

(** C2.  When the scan of a buffer reaches, in some state, a byte that
    is invalid for that state (the scan of the bytes before it has
    neither returned nor failed), the call returns the bytes before
    the invalid byte as its token, with width 0, a count of bytes
    consumed equal to the offset of the invalid byte, and
    [NormalState]: the invalid byte itself is not consumed. *)
Theorem abort_excludes_invalid_byte pre c rest s0 p s pk :
  data_ok p ->
  ansi.scan (pre ++ c :: rest) pre 0 s0 p = Ok (ansi.Continue s pk) ->
  aborts_in s c rest ->
  exists p',
    ansi.DecodeSequence (pre ++ c :: rest) s0 p
    = Ok (ansi.mkDecoded pre 0 (len pre) ansi.NormalState p').
Proof.
  intros Hok Hpre Hab.
  pose proof (scan_data_ok _ _ _ _ _ _ _ Hok Hpre) as Hokk.
  destruct (step_abort (pre ++ c :: rest) (len pre) c rest s pk) as [p' Hstep];
    try done.
  { unfold len; lia. }
  { unfold slice_from, len. by rewrite Nat2Z.id, drop_app_length. }
  exists p'. unfold ansi.DecodeSequence.
  rewrite scan_app, Hpre. cbn [ansi.scan]. rewrite Z.add_0_l, Hstep.
  cbn [mbind result_bind ansi.ret]. do 2 f_equal.
  unfold slice_to, len. by rewrite Nat2Z.id, take_app_length.
Qed.

(** ** Progress of the decoding loop *)

Lemma RuneStart_lead c : 0xC0 <= bval c -> ansi.utf8_RuneStart c = true.
Proof.
  intros Hc. destruct c; (reflexivity || (exfalso; vm_compute in Hc; by apply Hc)).
Qed.

Lemma step_continue_not_normal b i c s p s' p' :
  ansi.step b i c s p = Ok (ansi.Continue s' p') -> s' <> ansi.NormalState.
Proof.
  intros Hstep.
  destruct p as [P|], s; cbn [ansi.step] in Hstep;
    unfold ansi.normalCase, ansi.markerCase, ansi.paramsCase, ansi.intermedCase,
      ansi.escapeCase, ansi.stringCase in Hstep;
    hyp_cases Hstep; by simplify_eq.
Qed.

(** The count a returning iteration reports: at least the offset of
    the byte it read, at most the length of the buffer, and at least
    one from [NormalState]. *)
Lemma step_return_bounds b i c rest s p r :
  segmenter_ok ->
  0 <= i -> len b = i + 1 + len rest -> slice_from b i = c :: rest ->
  (s = ansi.NormalState -> i = 0) ->
  ansi.step b i c s p = Ok (ansi.Return r) ->
  i <= ansi.n r <= len b /\ (s = ansi.NormalState -> 1 <= ansi.n r).
Proof.
  intros Hseg Hi Hlen Hsl Hnorm Hstep.
  assert (Hrest : 0 <= len rest) by (unfold len; lia).
  assert (Hb : b <> []).
  { intros ->. unfold len in Hlen. cbn in Hlen. lia. }
  assert (Hst : ansi.HasStPrefix (c :: rest) = true -> bval c = ansi.ESC ->
                1 <= len rest).
  { unfold ansi.HasStPrefix, ansi.has_prefix2, ansi.ST, ansi.ESC.
    destruct rest; [|unfold len; cbn [length]; lia].
    intros Hp He. bool_to_prop. lia. }
  destruct p as [P|], s; cbn [ansi.step] in Hstep;
    unfold ansi.normalCase, ansi.markerCase, ansi.paramsCase, ansi.intermedCase,
      ansi.escapeCase, ansi.stringCase in Hstep;
    rewrite ?Hsl in Hstep;
    hyp_cases Hstep; simplify_eq; cbn [ansi.n].
  all: try (split; [lia|intros; try done; lia]).
  all: try (rewrite Hnorm by done).
  all: try match goal with
       | Hg : uniseg_FirstGraphemeCluster ?bb ?st = (?cl, _, _, _),
         Hne : ?bb <> [] |- _ =>
           pose proof (Hseg bb st Hne) as Hcl; rewrite Hg in Hcl; cbn in Hcl
       end.
  all: try (split; [lia|intros; lia]).
  all: try match goal with
       | Hr : ansi.utf8_RuneStart ?cc = false |- _ =>
           rewrite RuneStart_lead in Hr; [done|];
           unfold ansi.US, ansi.DEL in *; bool_to_prop; lia
       end.
Qed.

Lemma scan_return_bounds b pre rest s p r :
  segmenter_ok ->
  b = pre ++ rest ->
  (s = ansi.NormalState -> pre = []) ->
  ansi.scan b rest (len pre) s p = Ok (ansi.Return r) ->
  len pre <= ansi.n r <= len b /\ (s = ansi.NormalState -> 1 <= ansi.n r).
Proof.
  intros Hseg. revert pre s p.
  induction rest as [|c rest IH]; intros pre s p Hb Hnorm Hscan; [done|].
  cbn [ansi.scan] in Hscan.
  destruct (ansi.step b (len pre) c s p) as [[s1 p1|r1]|] eqn:Hstep; [| |done];
    cbn [mbind result_bind] in Hscan.
  - pose proof (step_continue_not_normal _ _ _ _ _ _ _ Hstep) as Hs1.
    destruct (IH (pre ++ [c]) s1 p1) as [Hn _].
    + by rewrite <- app_assoc.
    + done.
    + replace (len (pre ++ [c])) with (len pre + 1); [done|].
      unfold len. rewrite length_app. cbn. lia.
    + unfold len in *. rewrite length_app in Hn. cbn [length] in Hn.
      split; [lia|]. intros ->. specialize (Hnorm eq_refl). subst pre.
      cbn in Hn. lia.
  - injection Hscan as ->.
    apply (step_return_bounds b (len pre) c rest s p r); try done.
    + unfold len; lia.
    + subst b. unfold len. rewrite length_app. cbn [length]. lia.
    + subst b. unfold slice_from, len. by rewrite Nat2Z.id, drop_app_length.
    + intros Hs. by rewrite (Hnorm Hs).
Qed.

Lemma step_nil b i c s :
  (exists s', ansi.step b i c s None = Ok (ansi.Continue s' None))
  \/ (exists r, ansi.step b i c s None = Ok (ansi.Return r)).
Proof.
  destruct s; cbn [ansi.step];
    unfold ansi.normalCase, ansi.markerCase, ansi.paramsCase, ansi.intermedCase,
      ansi.escapeCase, ansi.stringCase, ansi.parseOscCmd_if_osc.
  all: repeat first
         [ progress cbn [mbind result_bind ansi.with_parser ansi.ret
                         ansi.parseOscCmd ansi.append_data]
         | match goal with
           | |- context [if ?t then _ else _] =>
               lazymatch type of t with bool => destruct t eqn:? end
           | |- context [uniseg_FirstGraphemeCluster ?bb ?st] =>
               destruct (uniseg_FirstGraphemeCluster bb st) as [[[? ?] ?] ?] eqn:?
           end ].
  all: (by left; eexists) || (by right; eexists).
Qed.

Lemma scan_nil b rest i s :
  exists o, ansi.scan b rest i s None = Ok o
    /\ match o with ansi.Continue _ p' => p' = None | ansi.Return _ => True end.
Proof.
  revert i s. induction rest as [|c rest IH]; intros i s; [by eexists|].
  cbn [ansi.scan].
  destruct (step_nil b i c s) as [[s' ->]|[r ->]]; cbn [mbind result_bind].
  - apply IH.
  - by eexists.
Qed.

End abort_proofs.

(** ** A context with room never makes the scanner fail *)

Section room_proofs.
Context `{!parser.Consts} `{!Segmenter}.

Lemma separators_nonneg b : 0 <= separators b.
Proof. induction b as [|c b IH]; cbn; [done|]. destruct (_ || _); lia. Qed.

Lemma store_in_range {A} (l : list A) i x :
  0 <= i < len l -> exists l', store l i x = Ok l' /\ len l' = len l.
Proof.
  intros Hi. unfold store. rewrite bool_decide_eq_true_2 by done.
  eexists. split; [done|]. unfold len. by rewrite length_insert.
Qed.

Lemma add_digit_total P c :
  0 <= ansi.paramsLen P < len (ansi.params P) ->
  exists P', ansi.add_digit P c = Ok P' /\ slots_kept P P'
             /\ ansi.paramsLen P' = ansi.paramsLen P.
Proof.
  intros Hr. unfold ansi.add_digit.
  destruct (index_in_range _ _ Hr) as (v & -> & _). cbn [mbind result_bind].
  destruct (store_in_range (ansi.params P) (ansi.paramsLen P)
              (int_wrap (int_wrap ((if v =? parser.MissingParam then 0 else v) * 10)
                         + (bval c - 48))) Hr) as (l' & -> & Hl).
  cbn. eexists. by repeat split.
Qed.

Lemma flag_has_more_total P :
  0 <= ansi.paramsLen P < len (ansi.params P) ->
  exists P', ansi.flag_has_more P = Ok P' /\ slots_kept P P'
             /\ ansi.paramsLen P' = ansi.paramsLen P.
Proof.
  intros Hr. unfold ansi.flag_has_more.
  destruct (index_in_range _ _ Hr) as (v & -> & _). cbn [mbind result_bind].
  destruct (store_in_range (ansi.params P) (ansi.paramsLen P)
              (Z.lor v parser.HasMoreFlag) Hr) as (l' & -> & Hl).
  cbn. eexists. by repeat split.
Qed.

Lemma next_param_total P :
  0 <= ansi.paramsLen P < 2 ^ 63 - 1 ->
  exists P', ansi.next_param P = Ok P' /\ slots_kept P P'
             /\ ansi.paramsLen P' = ansi.paramsLen P + 1.
Proof.
  intros Hr. unfold ansi.next_param. rewrite int_wrap_small by lia.
  cbn [ansi.params ansi.set_paramsLen].
  destruct (ansi.paramsLen P + 1 <? len (ansi.params P)) eqn:Hlt.
  - apply Z.ltb_lt in Hlt.
    destruct (store_in_range (ansi.params P) (ansi.paramsLen P + 1)
                parser.MissingParam) as (l' & -> & Hl); [lia|].
    cbn. eexists. by repeat split.
  - eexists. by repeat split.
Qed.

Lemma parseOscCmd_some P :
  data_ok (Some P) ->
  exists P', ansi.parseOscCmd (Some P) = Ok (Some P') /\ slots_kept P P'
             /\ ansi.paramsLen P' = ansi.paramsLen P.
Proof.
  intros Hok. cbn [ansi.parseOscCmd].
  destruct (negb _); [by eexists|].
  destruct (parseOscLoop_total (Z.to_nat (ansi.dataLen P)) 0 (ansi.data P) (ansi.cmd P))
    as [c' ->]; [lia|cbn in Hok; lia|].
  cbn. eexists. by repeat split.
Qed.

Lemma append_data_some b c P :
  data_ok (Some P) ->
  exists P', ansi.append_data b c (Some P) = Ok (Some P')
             /\ data_ok (Some P')
             /\ len (ansi.params P') = len (ansi.params P).
Proof.
  intros Hok. cbn [ansi.append_data]. destruct Hok as [Hr Hmax].
  destruct (ansi.dataLen P <? len (ansi.data P)) eqn:Hlt; [|by eexists].
  apply Z.ltb_lt in Hlt.
  destruct (store_in_range (ansi.data P) (ansi.dataLen P) c) as (d & -> & Hd);
    [lia|].
  cbn [mbind result_bind].
  set (P1 := ansi.set_dataLen (ansi.set_data P d) (int_wrap (ansi.dataLen P + 1))).
  assert (Hok1 : data_ok (Some P1)).
  { cbn. rewrite int_wrap_small by lia. lia. }
  destruct (_ && _); [|by eexists].
  destruct (parseOscCmd_some P1 Hok1) as (P' & -> & [[Hd' Hl'] Hp'] & _).
  eexists. split; [done|]. split; [|done]. cbn. rewrite Hd', Hl'. exact Hok1.
Qed.

Lemma clear_first_param_fields P :
  ansi.data (ansi.clear_first_param P) = ansi.data P
  /\ ansi.dataLen (ansi.clear_first_param P) = ansi.dataLen P
  /\ ansi.paramsLen (ansi.clear_first_param P) = ansi.paramsLen P
  /\ len (ansi.params (ansi.clear_first_param P)) = len (ansi.params P).
Proof.
  unfold ansi.clear_first_param.
  destruct (ansi.params P) as [|z l] eqn:E; [by rewrite E|].
  repeat split; try done; cbn; by rewrite ?E.
Qed.

Lemma separators_cons c rest :
  separators (c :: rest)
  = (if (bval c =? 0x3B) || (bval c =? 0x3A) then 1 else 0) + separators rest.
Proof. done. Qed.

Ltac room_intro :=
  eexists; split;
  [ reflexivity
  | first [ exact I
          | eexists; split; [reflexivity|];
            unfold room_inv, data_ok, slots_kept, same_data in *; cbn in * ] ].

Ltac split_conds :=
  repeat match goal with
  | |- context [if ?t then _ else _] =>
      lazymatch type of t with bool => destruct t eqn:? end
  | |- context [uniseg_FirstGraphemeCluster ?bb ?st] =>
      destruct (uniseg_FirstGraphemeCluster bb st) as [[[? ?] ?] ?] eqn:?
  end.

Ltac sep_lia c :=
  destruct ((bval c =? 59) || (bval c =? 58)) eqn:?; bool_to_prop; lia.

Lemma intermedCase_room b i c rest P :
  room_inv ansi.IntermedState (c :: rest) P ->
  exists o, ansi.intermedCase b i c (Some P) = Ok o /\ room_post rest o.
Proof.
  intros ([Hd Hdmax] & Hmax & [|[Hp Hr]]); [done|].
  pose proof (separators_nonneg rest) as Hnn.
  pose proof (separators_nonneg (c :: rest)) as Hnc.
  pose proof (separators_cons c rest) as Hsep.
  unfold ansi.intermedCase, room_post.
  destruct ((32 <=? bval c) && (bval c <=? 47)) eqn:Hinter.
  - cbn [ansi.with_parser mbind result_bind]. room_intro.
    repeat split; try lia; try (right; sep_lia c).
  - cbn [ansi.with_parser mbind result_bind].
    destruct (bump_last_param_total P) as (P1 & -> & Hb1 & Hb2 & Hb3).
    cbn [ansi.with_parser mbind result_bind]. split_conds; room_intro.
    rewrite Hb1, Hb3. repeat split; try lia; try (by left).
Qed.

Lemma paramsCase_room b i c rest P :
  room_inv ansi.ParamsState (c :: rest) P ->
  exists o, ansi.paramsCase b i c (Some P) = Ok o /\ room_post rest o.
Proof.
  intros Hinv. pose proof Hinv as ([Hd Hdmax] & Hmax & [|[Hp Hr]]); [done|].
  pose proof (separators_nonneg rest) as Hnn.
  pose proof (separators_nonneg (c :: rest)) as Hnc.
  pose proof (separators_cons c rest) as Hsep.
  unfold ansi.paramsCase.
  destruct ((48 <=? bval c) && (bval c <=? 57)) eqn:Hdigit.
  { cbn [ansi.with_parser mbind result_bind].
    destruct (add_digit_total P c) as (P' & -> & [[Hs1 Hs2] Hs3] & Hs4); [lia|].
    cbn [mbind result_bind]. unfold room_post. room_intro.
    rewrite Hs1, Hs2, Hs3, Hs4. repeat split; try lia; try (right; sep_lia c). }
  destruct (bval c =? 58) eqn:Hcolon.
  { cbn [ansi.with_parser mbind result_bind].
    destruct (flag_has_more_total P) as (P1 & -> & [[Hs1 Hs2] Hs3] & Hs4); [lia|].
    cbn [mbind result_bind ansi.with_parser]. rewrite orb_true_r.
    destruct (next_param_total P1) as (P2 & -> & [[Ht1 Ht2] Ht3] & Ht4); [lia|].
    cbn [mbind result_bind]. unfold room_post. room_intro.
    rewrite Ht1, Ht2, Ht3, Ht4, Hs1, Hs2, Hs3, Hs4.
    repeat split; try lia; try (right; sep_lia c). }
  cbn [mbind result_bind]. rewrite orb_false_r.
  destruct (bval c =? 59) eqn:Hsemi.
  { cbn [ansi.with_parser mbind result_bind].
    destruct (next_param_total P) as (P2 & -> & [[Ht1 Ht2] Ht3] & Ht4); [lia|].
    cbn [mbind result_bind]. unfold room_post. room_intro.
    rewrite Ht1, Ht2, Ht3, Ht4. repeat split; try lia; try (right; sep_lia c). }
  apply intermedCase_room. repeat split; try lia; try (by right).
Qed.

Lemma step_room b i c rest s P :
  room_inv s (c :: rest) P ->
  exists o, ansi.step b i c s (Some P) = Ok o /\ room_post rest o.
Proof.
  intros Hinv. pose proof Hinv as (Hok & Hmax & Hroom).
  pose proof (separators_nonneg rest) as Hnn.
  pose proof (separators_nonneg (c :: rest)) as Hnc.
  pose proof (separators_cons c rest) as Hsep.
  pose proof (clear_first_param_fields P) as (Hc1 & Hc2 & Hc3 & Hc4).
  destruct Hok as [Hd Hdmax].
  assert (Hok : data_ok (Some P)) by done.
  destruct s; cbn [ansi.step].
  - (* NormalState *)
    destruct Hroom as [|[Hp Hr]]; [done|].
    unfold ansi.normalCase, room_post. cbn [ansi.with_parser mbind result_bind].
    split_conds.
    all: room_intro; rewrite ?Hc1, ?Hc4; repeat split; try lia.
    all: try (by left).
    all: try (right; sep_lia c).
  - (* MarkerState *)
    destruct Hroom as [|[Hp Hr]]; [done|].
    unfold ansi.markerCase.
    destruct ((60 <=? bval c) && (bval c <=? 63)) eqn:Hmark.
    + cbn [ansi.with_parser mbind result_bind]. unfold room_post. room_intro.
      repeat split; try lia; try (right; sep_lia c).
    + apply paramsCase_room. repeat split; try lia; try (by right).
  - (* ParamsState *)
    by apply paramsCase_room.
  - (* IntermedState *)
    by apply intermedCase_room.
  - (* EscapeState *)
    destruct Hroom as [|[Hp Hr]]; [done|].
    unfold ansi.escapeCase, room_post. cbn [ansi.with_parser mbind result_bind].
    split_conds.
    all: room_intro; rewrite ?Hc1, ?Hc4; repeat split; try lia.
    all: try (by left).
    all: try (right; sep_lia c).
  - (* StringState *)
    unfold ansi.stringCase, ansi.parseOscCmd_if_osc, room_post.
    destruct (parseOscCmd_some P Hok) as (P1 & Hosc & _).
    destruct (append_data_some b c P Hok) as (P2 & Happ & Hok2 & Hlen2).
    rewrite Happ.
    split_conds; rewrite ?Hosc; cbn [mbind result_bind];
      eexists; (split; [reflexivity|]); try exact I.
    eexists. split; [reflexivity|]. unfold room_inv.
    split; [done|]. split; [lia|]. by left.
Qed.

Lemma scan_room b rest i s P :
  room_inv s rest P ->
  exists o, ansi.scan b rest i s (Some P) = Ok o.
Proof.
  revert i s P. induction rest as [|c rest IH]; intros i s P Hinv; [by eexists|].
  cbn [ansi.scan].
  destruct (step_room b i c rest s P Hinv) as (o & -> & Hpost).
  cbn [mbind result_bind]. destruct o as [s' p'|r]; [|by eexists].
  destruct Hpost as (P' & -> & Hinv'). by apply IH.
Qed.

(** A call returns when the context is nil or has room. *)
Lemma decode_returns_with_room b s p :
  has_room b p -> exists r, ansi.DecodeSequence b s p = Ok r.
Proof.
  intros Hroom. unfold ansi.DecodeSequence. destruct p as [P|].
  - destruct (scan_room b b 0 s P) as [o ->].
    { destruct Hroom as (Hok & Hmax & Hp & Hr).
      split; [exact Hok|]. split; [exact Hmax|]. by right. }
    cbn [mbind result_bind]. destruct o; by eexists.
  - destruct (scan_nil b b 0 s) as (o & -> & _). cbn [mbind result_bind].
    destruct o; by eexists.
Qed.

End room_proofs.

Lemma one_rune_segmenter_ok : @segmenter_ok one_rune_segmenter.
Proof.
  intros b st Hb. destruct b as [|c b]; [done|].
  cbn [uniseg_FirstGraphemeCluster one_rune_segmenter fst].
  unfold len. rewrite length_take. cbn [length].
  assert (1 <= rune_size c)%nat; [|lia].
  unfold rune_size. repeat destruct (_ <? _); lia.
Qed.

Lemma abort_excludes_invalid_byte_witness :
  let p := Some (fresh_parser 16 0) in
  data_ok p
  /\ aborts_in ansi.ParamsState Byte.x07 csi_broken_tail
  /\ exists p',
       @ansi.DecodeSequence layout32 one_rune_segmenter
         (csi_broken_head ++ Byte.x07 :: csi_broken_tail) ansi.NormalState p
       = Ok (ansi.mkDecoded csi_broken_head 0 (len csi_broken_head)
                            ansi.NormalState p').
Proof.
  assert (Hok : data_ok (Some (fresh_parser 16 0))) by (vm_compute; intuition discriminate).
  assert (Hab : aborts_in ansi.ParamsState Byte.x07 csi_broken_tail)
    by (left; by vm_compute).
  split; [exact Hok|]. split; [exact Hab|].
  eapply (@abort_excludes_invalid_byte layout32 one_rune_segmenter
            csi_broken_head Byte.x07 csi_broken_tail ansi.NormalState
            (Some (fresh_parser 16 0)) ansi.ParamsState).
  - exact Hok.
  - by vm_compute.
  - exact Hab.
Defined.

(** ** Clamping *)

(** X1.  [clamp] returns a value between its two bounds, whichever
    order they are given in; it returns [v] itself when [v] lies
    between them, and swapping the bounds changes nothing. *)
Theorem clamp_between v low high :
  Z.min low high <= vt.clamp v low high <= Z.max low high
  /\ (Z.min low high <= v <= Z.max low high -> vt.clamp v low high = v)
  /\ vt.clamp v low high = vt.clamp v high low.
Proof.
  unfold vt.clamp.
  destruct (Z.ltb_spec high low), (Z.ltb_spec low high);
    rewrite !vt_min_eq, !vt_max_eq; lia.
Qed.

(** ** Prefix and suffix tests *)

Lemma bval_inj u v : bval u = bval v -> u = v.
Proof.
  unfold bval. intros Hb.
  assert (Hn : Byte.to_N u = Byte.to_N v) by lia.
  pose proof (Byte.of_to_N u) as Hu. rewrite Hn, Byte.of_to_N in Hu. congruence.
Qed.

Lemma bval_eqb u v : (bval u =? bval v) = Byte.eqb u v.
Proof.
  destruct (Byte.eqb u v) eqn:Huv.
  - apply Byte.byte_dec_bl in Huv. subst. apply Z.eqb_refl.
  - apply Z.eqb_neq. intros Hb. apply bval_inj in Hb. subst.
    assert (Byte.eqb v v = true) by (by apply Byte.byte_dec_lb). congruence.
Qed.

Lemma Equal_eq a b : ansi.Equal a b = true <-> a = b.
Proof.
  revert b. induction a as [|x a IH]; intros [|y b]; cbn; try done.
  rewrite andb_true_iff, IH. split.
  - intros [Hxy ->]. apply Byte.byte_dec_bl in Hxy. by subst.
  - intros [= -> ->]. split; [|done]. by apply Byte.byte_dec_lb.
Qed.

(** X2.  [HasPrefix(b, prefix)] holds exactly when [b] is [prefix]
    followed by some bytes, and [HasSuffix(b, suffix)] exactly when [b]
    is some bytes followed by [suffix]; neither slices outside [b]. *)
Theorem HasPrefix_HasSuffix_spec b x :
  (ansi.HasPrefix b x = true <-> exists rest, b = x ++ rest)
  /\ (ansi.HasSuffix b x = true <-> exists front, b = front ++ x).
Proof.
  unfold ansi.HasPrefix, ansi.HasSuffix, slice_to, slice_from, len.
  rewrite !andb_true_iff, !Equal_eq, !Z.leb_le. split; split.
  - intros [Hlen Hx]. exists (drop (length x) b).
    rewrite <- Hx at 1. rewrite Nat2Z.id. by rewrite take_drop.
  - intros [rest ->]. rewrite length_app, Nat2Z.id, take_app_length.
    split; [lia|done].
  - intros [Hlen Hx]. exists (take (length b - length x) b).
    rewrite <- Hx at 2.
    replace (Z.to_nat (Z.of_nat (length b) - Z.of_nat (length x)))
      with (length b - length x)%nat by lia.
    by rewrite take_drop.
  - intros [front ->]. rewrite length_app. split; [lia|].
    replace (Z.to_nat (Z.of_nat (length front + length x) - Z.of_nat (length x)))
      with (length front) by lia.
    by rewrite drop_app_length.
Qed.

Lemma HasPrefix_1 b x :
  ansi.HasPrefix b [x]
  = match b with [] => false | u :: _ => Byte.eqb u x end.
Proof.
  unfold ansi.HasPrefix, slice_to, len. rewrite Nat2Z.id.
  destruct b as [|u b]; [done|]. cbn [length take ansi.Equal].
  rewrite (proj2 (Z.leb_le _ _)) by lia.
  destruct b; cbn; by rewrite andb_true_r.
Qed.

Lemma HasPrefix_2 b x y :
  ansi.HasPrefix b [x; y]
  = match b with
    | u :: v :: _ => Byte.eqb u x && Byte.eqb v y
    | _ => false
    end.
Proof.
  unfold ansi.HasPrefix, slice_to, len. rewrite Nat2Z.id.
  destruct b as [|u [|v b]]; [done..|]. cbn [length take ansi.Equal].
  rewrite (proj2 (Z.leb_le _ _)) by lia.
  destruct b; cbn; by rewrite andb_true_r.
Qed.

Lemma has_prefix2_HasPrefix b c8 c7 x8 x7 :
  bval x8 = c8 -> bval x7 = c7 ->
  ansi.has_prefix2 b c8 c7
  = ansi.HasPrefix b [x8] || ansi.HasPrefix b [Byte.x1b; x7].
Proof.
  intros <- <-. rewrite HasPrefix_1, HasPrefix_2.
  destruct b as [|u [|v b]]; cbn [ansi.has_prefix2];
    change ansi.ESC with (bval Byte.x1b); rewrite ?bval_eqb; try done.
  all: by destruct (Byte.eqb u x8).
Qed.

(** X3.  Each introducer test is [HasPrefix] for the two spellings of
    the introducer: the 8-bit control byte, or [ESC] and a 7-bit byte. *)
Theorem introducer_tests_are_prefix_tests b :
  ansi.HasCsiPrefix b
  = ansi.HasPrefix b [Byte.x9b] || ansi.HasPrefix b [Byte.x1b; Byte.x5b]
  /\ ansi.HasOscPrefix b
     = ansi.HasPrefix b [Byte.x9d] || ansi.HasPrefix b [Byte.x1b; Byte.x5d]
  /\ ansi.HasApcPrefix b
     = ansi.HasPrefix b [Byte.x9f] || ansi.HasPrefix b [Byte.x1b; Byte.x5f]
  /\ ansi.HasDcsPrefix b
     = ansi.HasPrefix b [Byte.x90] || ansi.HasPrefix b [Byte.x1b; Byte.x50]
  /\ ansi.HasSosPrefix b
     = ansi.HasPrefix b [Byte.x98] || ansi.HasPrefix b [Byte.x1b; Byte.x58]
  /\ ansi.HasPmPrefix b
     = ansi.HasPrefix b [Byte.x9e] || ansi.HasPrefix b [Byte.x1b; Byte.x5e]
  /\ ansi.HasStPrefix b
     = ansi.HasPrefix b [Byte.x9c] || ansi.HasPrefix b [Byte.x1b; Byte.x5c]
  /\ ansi.HasEscPrefix b = ansi.HasPrefix b [Byte.x1b].
Proof.
  repeat split; try by apply has_prefix2_HasPrefix.
  rewrite HasPrefix_1. unfold ansi.HasEscPrefix.
  change ansi.ESC with (bval Byte.x1b).
  destruct b as [|u b]; [done|]. apply bval_eqb.
Qed.

(** ** What every run of the scanner keeps *)

(** Case analysis on the tests and calls met in a hypothesis on one
    iteration of the loop. *)
Ltac outcome_cases Hstep :=
  repeat first
    [ progress cbn [mbind result_bind ansi.with_parser ansi.ret] in Hstep
    | match type of Hstep with
      | context [if ?t then _ else _] =>
          lazymatch type of t with bool => destruct t eqn:? end
      | context [ansi.bump_last_param ?P] =>
          destruct (ansi.bump_last_param P) eqn:?
      | context [ansi.add_digit ?P ?c] =>
          destruct (ansi.add_digit P c) eqn:?
      | context [ansi.flag_has_more ?P] =>
          destruct (ansi.flag_has_more P) eqn:?
      | context [ansi.next_param ?P] =>
          destruct (ansi.next_param P) eqn:?
      | context [ansi.parseOscCmd_if_osc ?b ?p] =>
          destruct (ansi.parseOscCmd_if_osc b p) eqn:?
      | context [ansi.parseOscCmd ?p] =>
          destruct (ansi.parseOscCmd p) eqn:?
      | context [ansi.append_data ?b ?c ?p] =>
          destruct (ansi.append_data b c p) eqn:?
      | context [uniseg_FirstGraphemeCluster ?b ?st] =>
          destruct (uniseg_FirstGraphemeCluster b st) as [[[? ?] ?] ?] eqn:?
      end ].

Ltac unfold_cases :=
  unfold ansi.normalCase, ansi.markerCase, ansi.paramsCase, ansi.intermedCase,
    ansi.escapeCase, ansi.stringCase in *.

(** The tests already decided in the context, replayed in the goal. *)
Ltac replay_tests :=
  repeat match goal with
  | E : ?t = _ |- context [if ?t then _ else _] => rewrite E
  | E : uniseg_FirstGraphemeCluster ?b ?st = _
    |- context [uniseg_FirstGraphemeCluster ?b ?st] => rewrite E
  end.

Section scanner_invariants.
Context `{!parser.Consts} `{!Segmenter}.

(** *** The token does not depend on the context *)

Lemma step_forget b i c s p o :
  ansi.step b i c s p = Ok o -> ansi.step b i c s None = Ok (forget_ctx o).
Proof.
  intros Hstep.
  destruct p as [P|], s; cbn [ansi.step] in *; unfold_cases;
    unfold ansi.parseOscCmd_if_osc in *;
    change (ansi.parseOscCmd None) with (@Ok (option ansi.Parser) None) in *;
    change (ansi.append_data b c None) with (@Ok (option ansi.Parser) None) in *;
    outcome_cases Hstep; try discriminate; injection Hstep as <-;
    cbn [mbind result_bind ansi.with_parser ansi.ret ansi.parseOscCmd
         ansi.append_data];
    replay_tests;
    cbn [mbind result_bind ansi.with_parser ansi.ret ansi.parseOscCmd
         ansi.append_data]; try reflexivity.
Qed.

Lemma scan_forget b rest i s p o :
  ansi.scan b rest i s p = Ok o -> ansi.scan b rest i s None = Ok (forget_ctx o).
Proof.
  revert i s p. induction rest as [|c rest IH]; intros i s p Hscan.
  - by injection Hscan as <-.
  - cbn [ansi.scan] in *.
    destruct (ansi.step b i c s p) as [o1|] eqn:Hstep; [|done].
    rewrite (step_forget _ _ _ _ _ _ Hstep). cbn [mbind result_bind] in *.
    destruct o1 as [s1 p1|r1]; cbn [forget_ctx].
    + by apply IH with p1.
    + by injection Hscan as <-.
Qed.

(** X4.  The token does not depend on the context: whenever a call
    with a context returns, the call without one ([p == nil]) returns
    the same sequence, width, count and state. *)
Theorem decode_token_independent_of_context b s p r :
  ansi.DecodeSequence b s p = Ok r ->
  exists r0, ansi.DecodeSequence b s None = Ok r0
    /\ token_of r0 = token_of r /\ ansi.ctx r0 = None.
Proof.
  unfold ansi.DecodeSequence. intros Hdec.
  destruct (ansi.scan b b 0 s p) as [o|] eqn:Hscan; [|done].
  rewrite (scan_forget _ _ _ _ _ _ Hscan). cbn [mbind result_bind] in *.
  destruct o as [s1 p1|r1]; cbn [forget_ctx]; injection Hdec as <-;
    by eexists.
Qed.

(** *** The token is the head of the buffer *)

Lemma slice_to_len {A} (l : list A) : slice_to l (len l) = l.
Proof. unfold slice_to, len. by rewrite Nat2Z.id, firstn_all. Qed.

Lemma step_return_shape b i c s p r :
  (s = ansi.NormalState -> i = 0) ->
  ansi.step b i c s p = Ok (ansi.Return r) ->
  ansi.seq r = slice_to b (ansi.n r) /\ ansi.newState r = ansi.NormalState
  /\ (0x20 <= bval c < 0x7F -> s = ansi.NormalState ->
      ansi.width r = 1 /\ ansi.n r = 1)
  /\ (ansi.width r <> 0 ->
      s = ansi.NormalState
      /\ ((0x20 <= bval c < 0x7F /\ ansi.width r = 1 /\ ansi.n r = 1)
          \/ 0xC0 <= bval c)).
Proof.
  intros Hnorm Hstep.
  destruct p as [P|], s; cbn [ansi.step] in *; unfold_cases;
    try rewrite (Hnorm eq_refl) in *;
    outcome_cases Hstep; try discriminate; injection Hstep as <-;
    cbn [ansi.seq ansi.n ansi.width ansi.newState];
    unfold ansi.US, ansi.DEL, ansi.ESC, ansi.CSI, ansi.DCS, ansi.OSC, ansi.APC,
      ansi.SOS, ansi.PM in *; bool_to_prop.
  all: repeat split; try done; try lia.
  all: try (intros _; split; [done|]).
  all: try (left; repeat split; try done; lia).
  all: try (right; lia).
Qed.

Lemma scan_return_shape b pre rest s p r :
  b = pre ++ rest ->
  (s = ansi.NormalState -> pre = []) ->
  ansi.scan b rest (len pre) s p = Ok (ansi.Return r) ->
  ansi.seq r = slice_to b (ansi.n r) /\ ansi.newState r = ansi.NormalState
  /\ (forall c rest', rest = c :: rest' -> 0x20 <= bval c < 0x7F ->
      s = ansi.NormalState -> ansi.width r = 1 /\ ansi.n r = 1)
  /\ (ansi.width r <> 0 ->
      s = ansi.NormalState
      /\ exists c rest', rest = c :: rest'
         /\ ((0x20 <= bval c < 0x7F /\ ansi.width r = 1 /\ ansi.n r = 1)
             \/ 0xC0 <= bval c)).
Proof.
  revert pre s p.
  induction rest as [|c rest IH]; intros pre s p Hb Hnorm Hscan; [done|].
  cbn [ansi.scan] in Hscan.
  destruct (ansi.step b (len pre) c s p) as [[s1 p1|r1]|] eqn:Hstep; [| |done];
    cbn [mbind result_bind] in Hscan.
  - pose proof (step_continue_not_normal _ _ _ _ _ _ _ Hstep) as Hs1.
    destruct (IH (pre ++ [c]) s1 p1) as (Hseq & Hst & _ & Hw).
    + by rewrite <- app_assoc.
    + done.
    + replace (len (pre ++ [c])) with (len pre + 1); [done|].
      unfold len. rewrite length_app. cbn. lia.
    + split; [done|]. split; [done|]. split.
      * intros c' rest' [= <- <-] Hc ->. specialize (Hnorm eq_refl). subst pre.
        exfalso. revert Hstep. cbn [ansi.step]. unfold ansi.normalCase.
        unfold ansi.US, ansi.DEL, ansi.ESC, ansi.CSI, ansi.DCS, ansi.OSC,
          ansi.APC, ansi.SOS, ansi.PM.
        intros Hstep. destruct p as [P|]; outcome_cases Hstep; try discriminate;
          bool_to_prop; lia.
      * intros Hne. destruct (Hw Hne) as [Hs _]. done.
  - injection Hscan as ->.
    destruct (step_return_shape b (len pre) c s p r) as (Hseq & Hst & Hp & Hw).
    + intros Hs. by rewrite (Hnorm Hs).
    + done.
    + split; [done|]. split; [done|]. split.
      * intros c' rest' [= <- <-]. done.
      * intros Hne. destruct (Hw Hne) as [Hs Hc]. split; [done|]. by exists c, rest.
Qed.

(** X5.  The sequence returned is always the first [n] bytes of the
    buffer.  A call that ends in another state than [NormalState] has
    consumed the whole buffer.  The width is 1 (and one byte is
    consumed) for a printable ASCII byte read in [NormalState]; it is 0
    for everything else but a grapheme, which begins with a byte
    [>= 0xC0] read in [NormalState]. *)
Theorem decode_token_shape b s p r :
  ansi.DecodeSequence b s p = Ok r ->
  ansi.seq r = slice_to b (ansi.n r)
  /\ (ansi.newState r <> ansi.NormalState ->
      ansi.n r = len b /\ ansi.width r = 0)
  /\ (forall c rest, b = c :: rest -> 0x20 <= bval c < 0x7F ->
      s = ansi.NormalState -> ansi.width r = 1 /\ ansi.n r = 1)
  /\ (ansi.width r <> 0 ->
      s = ansi.NormalState
      /\ exists c rest, b = c :: rest
         /\ ((0x20 <= bval c < 0x7F /\ ansi.width r = 1 /\ ansi.n r = 1)
             \/ 0xC0 <= bval c)).
Proof.
  unfold ansi.DecodeSequence. intros Hdec.
  destruct (ansi.scan b b 0 s p) as [[s1 p1|r1]|] eqn:Hscan; [| |done];
    cbn [mbind result_bind] in Hdec; injection Hdec as <-.
  - cbn [ansi.seq ansi.n ansi.width ansi.newState].
    split; [by rewrite slice_to_len|]. split; [done|]. split; [|done].
    intros c rest -> Hc ->. exfalso. revert Hscan. cbn [ansi.scan ansi.step].
    unfold ansi.normalCase, ansi.US, ansi.DEL, ansi.ESC, ansi.CSI, ansi.DCS,
      ansi.OSC, ansi.APC, ansi.SOS, ansi.PM.
    intros Hscan. destruct p as [P|]; outcome_cases Hscan; try discriminate;
      bool_to_prop; lia.
  - destruct (scan_return_shape b [] b s p r1 eq_refl (fun _ => eq_refl) Hscan)
      as (Hseq & Hst & Hp & Hw).
    split; [done|]. split; [by rewrite Hst|]. split; [|done].
    intros c rest Hb. by apply (Hp c rest).
Qed.

(** *** The capacity of the context *)

Lemma add_digit_kept P c P' : ansi.add_digit P c = Ok P' -> slots_kept P P'.
Proof.
  unfold ansi.add_digit. intros Ha.
  destruct (index _ _); [|done]. cbn [mbind result_bind] in Ha.
  destruct (store _ _ _) as [ps|] eqn:Hs; [|done].
  injection Ha as <-. apply store_length in Hs. by repeat split.
Qed.

Lemma flag_has_more_kept P P' : ansi.flag_has_more P = Ok P' -> slots_kept P P'.
Proof.
  unfold ansi.flag_has_more. intros Ha.
  destruct (index _ _); [|done]. cbn [mbind result_bind] in Ha.
  destruct (store _ _ _) as [ps|] eqn:Hs; [|done].
  injection Ha as <-. apply store_length in Hs. by repeat split.
Qed.

Lemma next_param_kept P P' : ansi.next_param P = Ok P' -> slots_kept P P'.
Proof.
  unfold ansi.next_param. intros Ha.
  destruct (_ <? _); [|by injection Ha as <-].
  destruct (store _ _ _) as [ps|] eqn:Hs; [|done].
  injection Ha as <-. apply store_length in Hs. by repeat split.
Qed.

Lemma bump_last_param_kept P P' :
  ansi.bump_last_param P = Ok P' -> slots_kept P P'.
Proof.
  intros Hb. destruct (bump_last_param_total P) as (P'' & Hb' & Hd & Hl & Hp).
  rewrite Hb in Hb'. injection Hb' as <-. unfold slots_kept, same_data.
  by rewrite Hd, Hl, Hp.
Qed.

Lemma parseOscCmd_kept p p' :
  ansi.parseOscCmd p = Ok p' ->
  match p, p' with
  | None, None => True
  | Some P, Some P' => slots_kept P P'
  | _, _ => False
  end.
Proof.
  destruct p as [P|]; cbn [ansi.parseOscCmd]; [|by intros [= <-]].
  destruct (negb _); [by intros [= <-]|].
  destruct (ansi.parseOscLoop _ _ _ _); [|done]. by intros [= <-].
Qed.

Lemma append_data_kept b c p p' :
  ansi.append_data b c p = Ok p' ->
  same_capacity p p' /\ (data_ok p -> data_ok p').
Proof.
  intros Ha. split; [|by apply (append_data_ok b c)].
  destruct p as [P|]; cbn [ansi.append_data] in Ha; [|by injection Ha as <-].
  destruct (_ <? _); [|by injection Ha as <-].
  destruct (store _ _ _) as [d|] eqn:Hs; [|done]. cbn [mbind result_bind] in Ha.
  apply store_length in Hs.
  destruct (_ && _).
  - apply parseOscCmd_kept in Ha. destruct p' as [P'|]; [|done].
    destruct Ha as ((Hd & _) & Hp). cbn in *. split; congruence.
  - injection Ha as <-. by split.
Qed.

Ltac use_kept :=
  repeat match goal with
  | E : ansi.bump_last_param _ = Ok _ |- _ => apply bump_last_param_kept in E
  | E : ansi.add_digit _ _ = Ok _ |- _ => apply add_digit_kept in E
  | E : ansi.flag_has_more _ = Ok _ |- _ => apply flag_has_more_kept in E
  | E : ansi.next_param _ = Ok _ |- _ => apply next_param_kept in E
  | E : ansi.parseOscCmd _ = Ok ?a |- _ =>
      apply parseOscCmd_kept in E; destruct a; [|done]
  | E : ansi.append_data _ _ _ = Ok ?a |- _ =>
      apply append_data_kept in E; destruct E as [? ?]; destruct a; [|done]
  | E : slots_kept _ _ |- _ => destruct E as ((? & ?) & ?)
  end.

Lemma step_capacity b i c s p o :
  ansi.step b i c s p = Ok o ->
  same_capacity p (ctx_of o) /\ (data_ok p -> data_ok (ctx_of o)).
Proof.
  intros Hstep.
  destruct p as [P|], s; cbn [ansi.step] in *; unfold_cases;
    unfold ansi.parseOscCmd_if_osc in *;
    change (ansi.parseOscCmd None) with (@Ok (option ansi.Parser) None) in *;
    change (ansi.append_data b c None) with (@Ok (option ansi.Parser) None) in *;
    outcome_cases Hstep; try discriminate; injection Hstep as <-;
    cbn [ctx_of ansi.ctx same_capacity]; try done.
  all: use_kept.
  all: try pose proof (clear_first_param_fields P) as (? & ? & ? & ?).
  all: unfold data_ok, same_capacity in *; cbn in *.
  all: repeat match goal with E : ?x = _ |- context [?x] => rewrite E end.
  all: try (split; [done|]; intros ?; lia).
Qed.

Lemma same_capacity_trans p1 p2 p3 :
  same_capacity p1 p2 -> same_capacity p2 p3 -> same_capacity p1 p3.
Proof.
  destruct p1, p2, p3; cbn; try done. intros [? ?] [? ?]. split; congruence.
Qed.

Lemma scan_capacity b rest i s p o :
  ansi.scan b rest i s p = Ok o ->
  same_capacity p (ctx_of o) /\ (data_ok p -> data_ok (ctx_of o)).
Proof.
  revert i s p. induction rest as [|c rest IH]; intros i s p Hscan.
  - injection Hscan as <-. cbn. split; [by destruct p|done].
  - cbn [ansi.scan] in Hscan.
    destruct (ansi.step b i c s p) as [o1|] eqn:Hstep; [|done].
    cbn [mbind result_bind] in Hscan.
    destruct (step_capacity _ _ _ _ _ _ Hstep) as [Hc Hd].
    destruct o1 as [s1 p1|r1]; cbn [ctx_of] in *.
    + destruct (IH _ _ _ Hscan) as [Hc' Hd'].
      split; [by apply same_capacity_trans with p1|auto].
    + by injection Hscan as <-.
Qed.

(** X6.  A call never changes the capacity of the context: it hands
    back a context exactly when it was given one, with as many
    parameter slots and as many data bytes; and the count of collected
    data bytes stays within the data buffer. *)
Theorem decode_keeps_capacity b s p r :
  ansi.DecodeSequence b s p = Ok r ->
  same_capacity p (ansi.ctx r) /\ (data_ok p -> data_ok (ansi.ctx r)).
Proof.
  unfold ansi.DecodeSequence. intros Hdec.
  destruct (ansi.scan b b 0 s p) as [o|] eqn:Hscan; [|done].
  cbn [mbind result_bind] in Hdec. apply scan_capacity in Hscan.
  by destruct o; injection Hdec as <-.
Qed.

End scanner_invariants.

(** ** The decoding loop ends *)

Section loop_proofs.
Context `{!parser.Consts} `{!Segmenter}.

Lemma decode_count b s p r :
  segmenter_ok ->
  ansi.DecodeSequence b s p = Ok r ->
  0 <= ansi.n r <= len b
  /\ (s = ansi.NormalState -> b <> [] -> 1 <= ansi.n r)
  /\ (ansi.newState r <> ansi.NormalState -> ansi.n r = len b)
  /\ (b <> [] -> ansi.n r = 0 ->
      s <> ansi.NormalState /\ ansi.newState r = ansi.NormalState).
Proof.
  intros Hseg Hdec. unfold ansi.DecodeSequence in Hdec.
  destruct (ansi.scan b b 0 s p) as [[s' p'|r']|] eqn:Hscan; [| |done];
    cbn [mbind result_bind] in Hdec; injection Hdec as <-.
  - cbn [ansi.n ansi.newState].
    assert (Hpos : b <> [] -> 1 <= len b).
    { destruct b; [done|]. unfold len. cbn [length]. lia. }
    split; [unfold len; lia|]. split; [intros _ Hb; by apply Hpos|].
    split; [done|]. intros Hb Hn. specialize (Hpos Hb). lia.
  - destruct (scan_return_bounds b [] b s p r' Hseg) as [Hn Hone]; try done.
    destruct (scan_return_shape b [] b s p r') as (_ & Hst & _); try done.
    change (len (@nil byte)) with 0 in Hn.
    split; [lia|]. split; [intros Hs _; by apply Hone|].
    split; [by intros Hne|]. intros _ Hn0. split; [|done].
    intros Hs. apply Hone in Hs. lia.
Qed.

Lemma slice_from_shorter (b : list byte) k :
  1 <= k -> b <> [] -> (length (slice_from b k) < length b)%nat.
Proof.
  intros Hk Hb. unfold slice_from. rewrite length_drop.
  destruct b; [done|]. cbn [length]. lia.
Qed.

Lemma slice_from_all (b : list byte) : slice_from b (len b) = [].
Proof. unfold slice_from, len. rewrite Nat2Z.id. apply drop_all. Qed.

Lemma decode_loop_nil fuel s p : decode_loop fuel [] s p = Ok (Some []).
Proof. by destruct fuel. Qed.

Lemma decode_loop_fuel fuel b s p :
  segmenter_ok ->
  (length b + (if decide (s = ansi.NormalState) then 0 else 1) <= fuel)%nat ->
  decode_loop fuel b s p <> Ok None.
Proof.
  intros Hseg. revert b s p.
  induction fuel as [|fuel IH]; intros b s p Hfuel.
  - destruct b; [done|]. cbn [length] in Hfuel. lia.
  - destruct b as [|c b]; [done|]. cbn [decode_loop].
    destruct (ansi.DecodeSequence (c :: b) s p) as [r|] eqn:Hdec; [|done].
    cbn [mbind result_bind].
    destruct (decode_count _ _ _ _ Hseg Hdec) as (Hn & Hone & Hend & Hzero).
    assert (Hrest : decode_loop fuel (slice_from (c :: b) (ansi.n r))
                      (ansi.newState r) (ansi.ctx r) <> Ok None).
    { destruct (decide (ansi.newState r = ansi.NormalState)) as [Hst|Hst].
      - apply IH. rewrite Hst. rewrite decide_True by done.
        destruct (decide (ansi.n r = 0)) as [Hn0|Hn0].
        + destruct (Hzero ltac:(done) Hn0) as [Hs _].
          rewrite decide_False in Hfuel by done.
          rewrite Hn0. unfold slice_from. change (Z.to_nat 0) with 0%nat.
          cbn [drop length] in *. lia.
        + pose proof (slice_from_shorter (c :: b) (ansi.n r) ltac:(lia) ltac:(done)).
          destruct (decide (s = ansi.NormalState)); lia.
      - rewrite (Hend Hst), slice_from_all, decode_loop_nil. done. }
    destruct (decode_loop fuel _ _ _) as [[toks|]|]; done.
Qed.

Lemma decode_nil_returns b s :
  exists r, ansi.DecodeSequence b s None = Ok r /\ ansi.ctx r = None.
Proof.
  unfold ansi.DecodeSequence.
  destruct (scan_nil b b 0 s) as (o & Hscan & _).
  pose proof (scan_forget _ _ _ _ _ _ Hscan) as Hf. rewrite Hscan in Hf.
  injection Hf as Ho. rewrite Hscan. cbn [mbind result_bind].
  destruct o as [s' p'|r]; cbn [forget_ctx] in Ho.
  - injection Ho as ->. by eexists.
  - injection Ho as Ho. eexists. split; [done|]. by rewrite Ho.
Qed.

Lemma decode_loop_nil_context fuel b s :
  exists o, decode_loop fuel b s None = Ok o.
Proof.
  revert b s. induction fuel as [|fuel IH]; intros b s.
  - destruct b; by eexists.
  - destruct b as [|c b]; [by eexists|]. cbn [decode_loop].
    destruct (decode_nil_returns (c :: b) s) as (r & -> & Hctx).
    cbn [mbind result_bind]. rewrite Hctx.
    destruct (IH (slice_from (c :: b) (ansi.n r)) (ansi.newState r)) as [o ->].
    by eexists.
Qed.

(** C10, as amended.  A call that returns gives a count between 0 and
    the length of the buffer, at least 1 when it was made in
    [NormalState] on a non-empty buffer.  A call made in another state
    can return the count 0 on a non-empty buffer; it then returns
    [NormalState], so that the call after it takes a byte or more; and
    a call that returns another state than [NormalState] has taken the
    whole buffer.  Every byte from 0xC0 on passes the rune-start test,
    so that the "invalid UTF-8" branch of [NormalState] is never
    taken.  Hence the loop of the documentation example, which drops
    the returned count from its buffer and hands on the returned state
    and context, ends after [len(b) + 1] calls at most, unless one of
    them panics; none does with a nil context, and a single call
    returns whenever the context is nil or has a slot left after every
    separator of the buffer. *)
Theorem decode_makes_progress b s p :
  segmenter_ok ->
  (has_room b p -> exists r, ansi.DecodeSequence b s p = Ok r)
  /\ (forall r, ansi.DecodeSequence b s p = Ok r ->
                0 <= ansi.n r <= len b
                /\ (s = ansi.NormalState -> b <> [] -> 1 <= ansi.n r)
                /\ (ansi.newState r <> ansi.NormalState -> ansi.n r = len b)
                /\ (b <> [] -> ansi.n r = 0 ->
                    s <> ansi.NormalState
                    /\ ansi.newState r = ansi.NormalState))
  /\ (forall c, 0xC0 <= bval c -> ansi.utf8_RuneStart c = true)
  /\ decode_loop (S (length b)) b s p <> Ok None
  /\ exists tokens, decode_loop (S (length b)) b s None = Ok (Some tokens).
Proof.
  intros Hseg. split; [|split; [|split; [|split]]].
  - intros Hroom. by apply decode_returns_with_room.
  - intros r Hdec. by apply (decode_count b s p).
  - apply RuneStart_lead.
  - apply decode_loop_fuel; [done|]. destruct (decide _); lia.
  - destruct (decode_loop_nil_context (S (length b)) b s) as [[tokens|] Hloop].
    + by exists tokens.
    + exfalso. revert Hloop. apply decode_loop_fuel; [done|].
      destruct (decide _); lia.
Qed.

End loop_proofs.

(** C10, the claim as stated fails.  A call in [EscapeState] on the
    buffer [BEL A] returns the count 0: that call makes no progress
    (the call after it, in [NormalState], does).  And the loop of the
    documentation example on [ESC [ 1 ; 2 m] with a context of one
    parameter slot does not end: its first call, made in [NormalState]
    on a non-empty buffer, panics and takes no byte. *)
Lemma decode_call_without_progress :
  @ansi.DecodeSequence layout32 one_rune_segmenter [Byte.x07; Byte.x41]
    ansi.EscapeState None
  = Ok (ansi.mkDecoded [] 0 0 ansi.NormalState None)
  /\ @ansi.DecodeSequence layout32 one_rune_segmenter sgr_two_params
       ansi.NormalState (Some (fresh_parser 1 0)) = Panic
  /\ forall fuel,
       @decode_loop layout32 one_rune_segmenter (S fuel) sgr_two_params
         ansi.NormalState (Some (fresh_parser 1 0)) = Panic.
Proof.
  assert (Hpanic : @ansi.DecodeSequence layout32 one_rune_segmenter
                     sgr_two_params ansi.NormalState (Some (fresh_parser 1 0))
                   = Panic) by (by vm_compute).
  split; [by vm_compute|]. split; [exact Hpanic|].
  intros fuel. unfold sgr_two_params in *. cbn [decode_loop].
  by rewrite Hpanic.
Qed.

Lemma decode_makes_progress_witness :
  let b := sgr_two_params in
  let s := ansi.NormalState in
  let p := Some (fresh_parser 32 1024) in
  (has_room b p ->
   exists r, @ansi.DecodeSequence layout32 one_rune_segmenter b s p = Ok r)
  /\ (forall r,
         @ansi.DecodeSequence layout32 one_rune_segmenter b s p = Ok r ->
         0 <= ansi.n r <= len b
         /\ (s = ansi.NormalState -> b <> [] -> 1 <= ansi.n r)
         /\ (ansi.newState r <> ansi.NormalState -> ansi.n r = len b)
         /\ (b <> [] -> ansi.n r = 0 ->
             s <> ansi.NormalState /\ ansi.newState r = ansi.NormalState))
  /\ (forall c, 0xC0 <= bval c -> ansi.utf8_RuneStart c = true)
  /\ @decode_loop layout32 one_rune_segmenter (S (length b)) b s p <> Ok None
  /\ exists tokens,
       @decode_loop layout32 one_rune_segmenter (S (length b)) b s None
       = Ok (Some tokens).
Proof.
  apply (@decode_makes_progress layout32 one_rune_segmenter sgr_two_params
           ansi.NormalState (Some (fresh_parser 32 1024))).
  exact one_rune_segmenter_ok.
Defined.

(** ** Decimal rendering *)

Lemma bval_digit d : 0 <= d <= 9 -> bval (strconv_digit d) = 0x30 + d.
Proof.
  intros Hd. unfold strconv_digit, bval.
  destruct (Byte.of_N (Z.to_N (48 + d))) as [c|] eqn:Hc.
  - apply Byte.to_of_N in Hc. simpl. rewrite Hc. lia.
  - apply Byte.of_N_None_iff in Hc. lia.
Qed.

Lemma dec_value_app ds1 ds2 v0 :
  dec_value (ds1 ++ ds2) v0 = dec_value ds2 (dec_value ds1 v0).
Proof. apply fold_left_app. Qed.

Lemma dec_value_mono ds v0 :
  Forall is_digit ds -> 0 <= v0 -> v0 <= dec_value ds v0.
Proof.
  intros Hds. revert v0. induction Hds as [|d ds Hd _ IH]; intros v0 Hv; [done|].
  cbn [dec_value fold_left]. unfold is_digit in Hd.
  etrans; [|apply IH]; lia.
Qed.

Lemma formatBits_digits fuel u acc :
  0 <= u -> Forall is_digit acc ->
  Forall is_digit (strconv_formatBits fuel u acc).
Proof.
  revert u acc. induction fuel as [|fuel IH]; intros u acc Hu Hacc; [done|].
  cbn [strconv_formatBits].
  assert (Hd : is_digit (strconv_digit (u mod 10))).
  { unfold is_digit. rewrite bval_digit; pose proof (Z.mod_pos_bound u 10); lia. }
  destruct (u <? 10); [by constructor|].
  apply IH; [|by constructor]. apply Z.div_pos; lia.
Qed.

Lemma formatBits_value fuel u acc :
  0 <= u < 10 ^ Z.of_nat fuel ->
  dec_value (strconv_formatBits fuel u acc) 0 = dec_value acc u.
Proof.
  revert u acc. induction fuel as [|fuel IH]; intros u acc Hu.
  { change (10 ^ Z.of_nat 0) with 1 in Hu. by replace u with 0 by lia. }
  cbn [strconv_formatBits].
  assert (Hm : 0 <= u mod 10 <= 9) by (pose proof (Z.mod_pos_bound u 10); lia).
  destruct (Z.ltb_spec u 10) as [Hlt|Hge].
  - cbn [dec_value fold_left]. rewrite bval_digit by done.
    rewrite Z.mod_small by lia. f_equal. lia.
  - rewrite IH.
    + cbn [dec_value fold_left]. rewrite bval_digit by done. f_equal.
      pose proof (Z.div_mod u 10). lia.
    + rewrite Nat2Z.inj_succ, Z.pow_succ_r in Hu by lia.
      split; [apply Z.div_pos; lia|]. apply Z.div_lt_upper_bound; lia.
Qed.

Lemma formatBits_cons fuel u acc :
  exists d ds, strconv_formatBits (S fuel) u acc = d :: ds.
Proof.
  revert u acc. induction fuel as [|fuel IH]; intros u acc.
  - cbn. destruct (u <? 10); by eexists _, _.
  - cbn [strconv_formatBits]. destruct (u <? 10); [by eexists _, _|].
    apply IH.
Qed.

(** The rendering of a non-negative [int]: decimal digits, at least
    one, that denote the number. *)
Lemma Itoa_digits m :
  0 <= m < 2 ^ 63 ->
  Forall is_digit (strconv_Itoa m) /\ dec_value (strconv_Itoa m) 0 = m
  /\ exists d ds, strconv_Itoa m = d :: ds.
Proof.
  intros Hm. unfold strconv_Itoa.
  destruct (Z.ltb_spec m 0); [lia|]. split; [|split].
  - apply formatBits_digits; [lia|constructor].
  - rewrite formatBits_value; [done|]. change (Z.of_nat 20) with 20. lia.
  - apply formatBits_cons.
Qed.

(** ** Scanning a CSI sequence, piece by piece *)

Lemma index_middle {A} (pre : list A) x post :
  index (pre ++ x :: post) (len pre) = Ok x.
Proof.
  apply index_lookup; [unfold len; lia|].
  unfold len. rewrite Nat2Z.id. by apply list_lookup_middle.
Qed.

Lemma store_middle {A} (pre : list A) x post y :
  store (pre ++ x :: post) (len pre) y = Ok (pre ++ y :: post).
Proof.
  unfold store, len. rewrite bool_decide_eq_true_2.
  - rewrite Nat2Z.id. f_equal.
    replace (length pre) with (length pre + 0)%nat at 1 by lia.
    by rewrite insert_app_r.
  - rewrite length_app. cbn [length]. lia.
Qed.

Lemma len_app {A} (l1 l2 : list A) : len (l1 ++ l2) = len l1 + len l2.
Proof. unfold len. rewrite length_app. lia. Qed.

Lemma len_cons {A} (x : A) l : len (x :: l) = 1 + len l.
Proof. unfold len. cbn [length]. lia. Qed.

Lemma len_nonneg {A} (l : list A) : 0 <= len l.
Proof. unfold len. lia. Qed.

Section csi_proofs.
Context `{!parser.Consts} `{!Segmenter}.

Lemma scan_cons b c rest i s p :
  ansi.scan b (c :: rest) i s p
  = o ← ansi.step b i c s p;
    match o with
    | ansi.Continue s' p' => ansi.scan b rest (i + 1) s' p'
    | ansi.Return r => Ok (ansi.Return r)
    end.
Proof. done. Qed.

(** A digit read in [MarkerState] or [ParamsState] is added to the
    current parameter slot. *)
Lemma step_digit b i d s pre cur post c dt dl :
  s = ansi.MarkerState \/ s = ansi.ParamsState ->
  is_digit d ->
  let v0 := if cur =? parser.MissingParam then 0 else cur in
  0 <= v0 -> v0 * 10 + (bval d - 0x30) < 2 ^ 63 ->
  ansi.step b i d s (Some (ansi.mkParser (pre ++ cur :: post) (len pre) c dt dl))
  = Ok (ansi.Continue ansi.ParamsState
          (Some (ansi.mkParser (pre ++ (v0 * 10 + (bval d - 0x30)) :: post)
                               (len pre) c dt dl))).
Proof.
  intros Hs Hd v0 Hv0 Hlt. unfold is_digit in Hd.
  assert (Hstep : ansi.step b i d s
                    (Some (ansi.mkParser (pre ++ cur :: post) (len pre) c dt dl))
                  = ansi.paramsCase b i d
                    (Some (ansi.mkParser (pre ++ cur :: post) (len pre) c dt dl))).
  { destruct Hs as [-> | ->]; [|done]. cbn [ansi.step]. unfold ansi.markerCase.
    destruct (_ && _) eqn:Hm; [|done]. bool_to_prop. lia. }
  rewrite Hstep. unfold ansi.paramsCase.
  destruct (_ && _) eqn:Hm; [|bool_to_prop; lia].
  cbn [ansi.with_parser]. unfold ansi.add_digit.
  cbn [ansi.params ansi.paramsLen]. rewrite index_middle.
  cbn [mbind result_bind]. fold v0.
  rewrite (int_wrap_small (v0 * 10)) by lia.
  rewrite int_wrap_small by lia. by rewrite store_middle.
Qed.

(** A run of digits read in [ParamsState] (or begun in [MarkerState])
    leaves the number they denote in the current slot. *)
Lemma scan_digits b d ds rest i s pre cur post c dt dl :
  s = ansi.MarkerState \/ s = ansi.ParamsState ->
  Forall is_digit (d :: ds) ->
  let v0 := if cur =? parser.MissingParam then 0 else cur in
  0 <= v0 -> dec_value (d :: ds) v0 < parser.MissingParam ->
  parser.MissingParam < 2 ^ 63 ->
  ansi.scan b ((d :: ds) ++ rest) i s
    (Some (ansi.mkParser (pre ++ cur :: post) (len pre) c dt dl))
  = ansi.scan b rest (i + len (d :: ds)) ansi.ParamsState
      (Some (ansi.mkParser (pre ++ dec_value (d :: ds) v0 :: post)
                           (len pre) c dt dl)).
Proof.
  revert d i s cur. induction ds as [|d2 ds IH]; intros d i s cur Hs Hds v0 Hv0 Hlt Hm.
  - cbn [app]. rewrite scan_cons. inversion Hds as [|? ? Hd _]; subst.
    cbn [dec_value fold_left] in *. fold v0 in Hlt.
    rewrite step_digit by (try done; fold v0; lia).
    cbn [mbind result_bind]. by rewrite len_cons.
  - inversion Hds as [|? ? Hd Hds']; subst.
    assert (Hv1 : v0 <= v0 * 10 + (bval d - 48)) by (unfold is_digit in Hd; lia).
    assert (Hfin : v0 * 10 + (bval d - 48)
                   <= dec_value (d2 :: ds) (v0 * 10 + (bval d - 48))).
    { apply dec_value_mono; [done|lia]. }
    change (dec_value (d :: d2 :: ds) v0)
      with (dec_value (d2 :: ds) (v0 * 10 + (bval d - 48))) in *.
    change ((d :: d2 :: ds) ++ rest) with (d :: (d2 :: ds) ++ rest).
    rewrite scan_cons.
    rewrite step_digit by (try done; fold v0; lia).
    cbn [mbind result_bind]. fold v0.
    assert (Hne : (v0 * 10 + (bval d - 48) =? parser.MissingParam) = false).
    { apply Z.eqb_neq. lia. }
    rewrite IH; rewrite ?Hne; [|by right|done|lia|done|done].
    rewrite (len_cons d). f_equal. lia.
Qed.

(** The decimal rendering of a number that fits, read into a fresh
    slot. *)
Lemma scan_Itoa b m rest i s pre post c dt dl :
  s = ansi.MarkerState \/ s = ansi.ParamsState ->
  param_fits m -> parser.MissingParam < 2 ^ 63 ->
  ansi.scan b (strconv_Itoa m ++ rest) i s
    (Some (ansi.mkParser (pre ++ parser.MissingParam :: post) (len pre) c dt dl))
  = ansi.scan b rest (i + len (strconv_Itoa m)) ansi.ParamsState
      (Some (ansi.mkParser (pre ++ m :: post) (len pre) c dt dl)).
Proof.
  intros Hs [Hm0 Hm] Hint.
  destruct (Itoa_digits m) as (Hds & Hval & d & ds & Heq); [lia|].
  rewrite Heq in *.
  rewrite scan_digits; try done; rewrite Z.eqb_refl; try done.
  - by rewrite Hval.
  - by rewrite Hval.
Qed.

(** A separator closes the current slot and opens the next one. *)
Lemma step_separator b i s pre x y post c dt dl :
  s = ansi.MarkerState \/ s = ansi.ParamsState ->
  len (pre ++ x :: y :: post) < 2 ^ 63 ->
  ansi.step b i Byte.x3b s
    (Some (ansi.mkParser (pre ++ x :: y :: post) (len pre) c dt dl))
  = Ok (ansi.Continue ansi.ParamsState
          (Some (ansi.mkParser ((pre ++ [x]) ++ parser.MissingParam :: post)
                               (len (pre ++ [x])) c dt dl))).
Proof.
  intros Hs Hlen.
  assert (Hstep : ansi.step b i Byte.x3b s
                    (Some (ansi.mkParser (pre ++ x :: y :: post) (len pre) c dt dl))
                  = ansi.paramsCase b i Byte.x3b
                    (Some (ansi.mkParser (pre ++ x :: y :: post) (len pre) c dt dl))).
  { by destruct Hs as [-> | ->]. }
  rewrite Hstep. unfold ansi.paramsCase.
  change (bval Byte.x3b) with 0x3B.
  cbn [Z.leb Z.eqb Z.compare Pos.compare Pos.compare_cont Pos.eqb andb orb
       mbind result_bind ansi.with_parser].
  unfold ansi.next_param. cbn [ansi.paramsLen ansi.params ansi.set_paramsLen].
  rewrite len_app, !len_cons in Hlen. pose proof (len_nonneg pre).
  pose proof (len_nonneg post).
  rewrite int_wrap_small by lia.
  destruct (Z.ltb_spec (len pre + 1) (len (pre ++ x :: y :: post))) as [_|Hge].
  2: { rewrite len_app, !len_cons in Hge. lia. }
  replace (len pre + 1) with (len (pre ++ [x])) by (rewrite len_app, len_cons; unfold len; cbn; lia).
  replace (pre ++ x :: y :: post) with ((pre ++ [x]) ++ y :: post)
    by (by rewrite <- app_assoc).
  by rewrite store_middle.
Qed.

(** A list of numbers that fit, joined by [;], read from a fresh slot
    on: each number lands in a slot of its own. *)
Lemma scan_numbers b ms rest i s pre post c dt dl :
  s = ansi.MarkerState \/ s = ansi.ParamsState ->
  ms <> [] -> Forall param_fits ms ->
  (length ms <= S (length post))%nat ->
  len (pre ++ parser.MissingParam :: post) < 2 ^ 63 ->
  parser.MissingParam < 2 ^ 63 ->
  ansi.scan b (strings_Join (map strconv_Itoa ms) (str ";") ++ rest) i s
    (Some (ansi.mkParser (pre ++ parser.MissingParam :: post) (len pre) c dt dl))
  = ansi.scan b rest (i + len (strings_Join (map strconv_Itoa ms) (str ";")))
      ansi.ParamsState
      (Some (ansi.mkParser (pre ++ ms ++ drop (length ms - 1) post)
                           (len pre + len ms - 1) c dt dl)).
Proof.
  intros Hs Hne Hfit. revert i s pre post Hs.
  induction ms as [|m ms IH]; intros i s pre post Hs Hcap Hlen Hint; [done|].
  inversion Hfit as [|? ? Hm Hfit']; subst.
  destruct ms as [|m2 ms].
  - cbn [map strings_Join]. rewrite scan_Itoa by done.
    cbn [length Nat.sub drop app]. do 3 f_equal. unfold len. cbn [length]. lia.
  - change (strings_Join (map strconv_Itoa (m :: m2 :: ms)) (str ";"))
      with (strconv_Itoa m
            ++ Byte.x3b :: strings_Join (map strconv_Itoa (m2 :: ms)) (str ";")).
    destruct post as [|y post]; [cbn [length] in Hcap; lia|].
    rewrite <- app_assoc. rewrite scan_Itoa by done.
    cbn [app]. rewrite scan_cons.
    rewrite step_separator; [|by right|].
    2: { revert Hlen. rewrite !len_app, !len_cons. lia. }
    cbn [mbind result_bind].
    rewrite IH; [|done|done|by right| | |done].
    + rewrite !len_app, !len_cons.
      replace (length (m :: m2 :: ms) - 1)%nat with (S (length (m2 :: ms) - 1))
        by (cbn [length]; lia).
      cbn [drop]. rewrite <- !app_assoc. cbn [app].
      f_equal; [unfold len; cbn [length]; lia|].
      do 2 f_equal. unfold len. cbn [length]. lia.
    + cbn [length] in *. lia.
    + revert Hlen. rewrite !len_app, !len_cons. unfold len. cbn [length]. lia.
Qed.

(** A marker byte replaces the marker of the command word. *)
Lemma step_marker b i m P :
  0x3C <= bval m <= 0x3F ->
  ansi.step b i m ansi.MarkerState (Some P)
  = Ok (ansi.Continue ansi.MarkerState
          (Some (ansi.put_field P parser.MarkerShift m))).
Proof.
  intros Hm. cbn [ansi.step]. unfold ansi.markerCase.
  destruct (_ && _) eqn:Hc; [done|]. bool_to_prop. lia.
Qed.

(** An intermediate byte replaces the intermediate of the command
    word. *)
Lemma step_intermediate b i x s P :
  s = ansi.MarkerState \/ s = ansi.ParamsState \/ s = ansi.IntermedState ->
  0x20 <= bval x <= 0x2F ->
  ansi.step b i x s (Some P)
  = Ok (ansi.Continue ansi.IntermedState
          (Some (ansi.put_field P parser.IntermedShift x))).
Proof.
  intros Hs Hx.
  assert (Hi : ansi.intermedCase b i x (Some P)
               = Ok (ansi.Continue ansi.IntermedState
                       (Some (ansi.put_field P parser.IntermedShift x)))).
  { unfold ansi.intermedCase. destruct (_ && _) eqn:Hc; [done|].
    bool_to_prop. lia. }
  assert (Hp : ansi.paramsCase b i x (Some P) = ansi.intermedCase b i x (Some P)).
  { unfold ansi.paramsCase.
    destruct (_ && _) eqn:Hc; [bool_to_prop; lia|].
    destruct (bval x =? 58) eqn:Hc1; [bool_to_prop; lia|].
    destruct (_ || _) eqn:Hc2; [bool_to_prop; lia|]. done. }
  destruct Hs as [-> | [-> | ->]]; cbn [ansi.step]; [|by rewrite Hp|done].
  unfold ansi.markerCase. destruct (_ && _) eqn:Hc; [bool_to_prop; lia|].
  by rewrite Hp.
Qed.

(** The final byte of a sequence that is not a DCS: the last
    parameter is counted, the byte is stored in the command word and
    the sequence is returned. *)
Lemma step_final b i f s P :
  s = ansi.MarkerState \/ s = ansi.ParamsState \/ s = ansi.IntermedState ->
  0x40 <= bval f <= 0x7E ->
  ansi.step b i f s (Some P)
  = P1 ← ansi.bump_last_param P;
    if ansi.HasDcsPrefix b
    then Ok (ansi.Continue ansi.StringState
               (Some (ansi.set_dataLen (ansi.put_final P1 f) 0)))
    else Ok (ansi.ret (slice_to b (i + 1)) 0 (i + 1)
               (Some (ansi.put_final P1 f))).
Proof.
  intros Hs Hf.
  assert (Hi : ansi.intermedCase b i f (Some P)
               = P1 ← ansi.bump_last_param P;
                 if ansi.HasDcsPrefix b
                 then Ok (ansi.Continue ansi.StringState
                            (Some (ansi.set_dataLen (ansi.put_final P1 f) 0)))
                 else Ok (ansi.ret (slice_to b (i + 1)) 0 (i + 1)
                            (Some (ansi.put_final P1 f)))).
  { unfold ansi.intermedCase.
    assert ((32 <=? bval f) && (bval f <=? 47) = false) as ->
      by (bool_to_prop; lia).
    assert ((64 <=? bval f) && (bval f <=? 126) = true) as ->
      by (bool_to_prop; lia).
    cbn [ansi.with_parser]. destruct (ansi.bump_last_param P) as [P1|]; [|done].
    cbn [ansi.with_parser mbind result_bind]. by destruct (ansi.HasDcsPrefix b). }
  assert (Hp : ansi.paramsCase b i f (Some P) = ansi.intermedCase b i f (Some P)).
  { unfold ansi.paramsCase.
    destruct (_ && _) eqn:Hc; [bool_to_prop; lia|].
    destruct (bval f =? 58) eqn:Hc1; [bool_to_prop; lia|].
    destruct (_ || _) eqn:Hc2; [bool_to_prop; lia|]. done. }
  destruct Hs as [-> | [-> | ->]]; cbn [ansi.step]; [|by rewrite Hp|done].
  unfold ansi.markerCase. destruct (_ && _) eqn:Hc; [bool_to_prop; lia|].
  by rewrite Hp.
Qed.

(** Counting the last parameter: the count goes up by one, unless the
    parameters fill every slot of a context with two slots or more. *)
Lemma bump_last_param_numbers ms post c dt dl :
  ms <> [] -> Forall param_fits ms -> len (ms ++ post) < 2 ^ 63 ->
  ansi.bump_last_param (ansi.mkParser (ms ++ post) (len ms - 1) c dt dl)
  = Ok (ansi.mkParser (ms ++ post)
          (if (len ms =? 1) || negb (len post =? 0) then len ms else len ms - 1)
          c dt dl).
Proof.
  intros Hne Hfit Hlen. unfold ansi.bump_last_param.
  cbn [ansi.paramsLen ansi.params ansi.set_paramsLen].
  destruct ms as [|m ms]; [done|]. inversion Hfit as [|? ? [Hm0 Hm] _]; subst.
  rewrite len_app, !len_cons in *. pose proof (len_nonneg ms).
  pose proof (len_nonneg post).
  destruct (Z.eqb_spec (1 + len ms) 1) as [Hone|Hone].
  - replace (1 + len ms - 1) with 0 by lia. cbn [Z.ltb Z.compare andb Z.eqb orb].
    destruct (Z.ltb_spec 0 (1 + len ms + len post)); [|lia].
    rewrite (index_lookup ((m :: ms) ++ post) 0 m) by done.
    cbn [mbind result_bind].
    destruct (Z.eqb_spec m parser.MissingParam); [lia|]. cbn [negb].
    rewrite int_wrap_small by lia. unfold ansi.set_paramsLen.
    cbn [ansi.params ansi.cmd ansi.data ansi.dataLen]. do 2 f_equal. lia.
  - destruct (Z.ltb_spec 0 (1 + len ms - 1)); [|lia]. cbn [andb orb].
    destruct (Z.eqb_spec (len post) 0) as [Hp|Hp]; cbn [negb].
    + destruct (Z.ltb_spec (1 + len ms - 1) (1 + len ms + len post - 1)); [lia|].
      destruct (Z.eqb_spec (1 + len ms - 1) 0); [lia|]. done.
    + destruct (Z.ltb_spec (1 + len ms - 1) (1 + len ms + len post - 1)); [|lia].
      rewrite int_wrap_small by lia. unfold ansi.set_paramsLen.
      cbn [ansi.params ansi.cmd ansi.data ansi.dataLen]. do 2 f_equal. lia.
Qed.

End csi_proofs.

Section csi_decode.
Context `{!parser.Consts} `{!Segmenter}.

Lemma scan_csi_start b rest x post k c dt dl :
  ansi.scan b (Byte.x1b :: Byte.x5b :: rest) 0 ansi.NormalState
    (Some (ansi.mkParser (x :: post) k c dt dl))
  = ansi.scan b rest 2 ansi.MarkerState
      (Some (ansi.mkParser (parser.MissingParam :: post) 0 0 dt 0)).
Proof. done. Qed.

Lemma HasDcsPrefix_csi rest : ansi.HasDcsPrefix (Byte.x1b :: Byte.x5b :: rest) = false.
Proof. done. Qed.

(** A CSI sequence with at least one parameter, decoded in one call:
    the whole sequence is returned, the parameters lie in the first
    slots, and the command word holds marker, intermediate and final
    byte. *)
Lemma decode_csi marker inter ms final x post k c dt dl :
  (forall m, marker = Some m -> 0x3C <= bval m <= 0x3F) ->
  (forall y, inter = Some y -> 0x20 <= bval y <= 0x2F) ->
  0x40 <= bval final <= 0x7E ->
  ms <> [] -> Forall param_fits ms ->
  (length ms <= S (length post))%nat ->
  len (x :: post) < 2 ^ 63 ->
  parser.MissingParam < 2 ^ 63 ->
  ansi.DecodeSequence (csi_bytes marker ms inter final) ansi.NormalState
    (Some (ansi.mkParser (x :: post) k c dt dl))
  = Ok (ansi.mkDecoded (csi_bytes marker ms inter final) 0
          (len (csi_bytes marker ms inter final)) ansi.NormalState
          (Some (ansi.mkParser (ms ++ drop (length ms - 1) post)
                   (counted (len ms) (len (x :: post)))
                   (csi_cmd marker inter final) dt 0))).
Proof.
  intros Hmk Hin Hf Hne Hfit Hcap Hlen Hint.
  unfold ansi.DecodeSequence.
  set (b := csi_bytes marker ms inter final).
  set (J := strings_Join (map strconv_Itoa ms) (str ";")).
  assert (Hb : b = Byte.x1b :: Byte.x5b :: option_list marker
                   ++ J ++ option_list inter ++ [final]) by done.
  assert (Hd : ansi.HasDcsPrefix b = false) by done.
  rewrite Hb at 2. rewrite scan_csi_start.
  (* the marker *)
  assert (Hmark :
    ansi.scan b (option_list marker ++ J ++ option_list inter ++ [final]) 2
      ansi.MarkerState
      (Some (ansi.mkParser (parser.MissingParam :: post) 0 0 dt 0))
    = ansi.scan b (J ++ option_list inter ++ [final])
        (2 + len (option_list marker)) ansi.MarkerState
        (Some (ansi.mkParser ([] ++ parser.MissingParam :: post) (len (@nil Z))
                 (ansi.cmd (from_option
                    (ansi.put_field (ansi.mkParser [] 0 0 [] 0) parser.MarkerShift)
                    (ansi.mkParser [] 0 0 [] 0) marker)) dt 0))).
  { destruct marker as [m|]; cbn [option_list option_rect app from_option].
    - rewrite scan_cons, step_marker by (by apply Hmk). done.
    - done. }
  rewrite Hmark. clear Hmark. unfold J at 1.
  rewrite scan_numbers; [|by left|done|done|done|done|done].
  (* the intermediate and the final byte *)
  set (c1 := ansi.cmd (from_option _ _ marker)).
  fold J. set (i1 := 2 + len (option_list marker) + len J).
  assert (Hi1 : i1 + len (option_list inter) + 1 = len b).
  { rewrite Hb. rewrite !len_cons, !len_app, len_cons. unfold i1, len. cbn. lia. }
  cbn [app]. change (len (@nil Z)) with 0.
  assert (Hpost : len (x :: post) = 1 + len post) by apply len_cons.
  assert (Hms : (1 <= length ms)%nat) by (destruct ms; [done|cbn; lia]).
  assert (Hbump : forall c2,
    ansi.bump_last_param
      (ansi.mkParser (ms ++ drop (length ms - 1) post) (0 + len ms - 1) c2 dt 0)
    = Ok (ansi.mkParser (ms ++ drop (length ms - 1) post)
            (counted (len ms) (len (x :: post))) c2 dt 0)).
  { intros c2. replace (0 + len ms - 1) with (len ms - 1) by lia.
    rewrite bump_last_param_numbers; [|done|done|].
    - do 2 f_equal. unfold counted. rewrite Hpost.
      assert (Hdrop : len (drop (length ms - 1) post)
                      = len post - (len ms - 1)).
      { unfold len. rewrite length_drop. lia. }
      rewrite Hdrop.
      destruct (Z.eqb_spec (len ms) 1); [done|]. cbn [orb].
      destruct (Z.eqb_spec (len post - (len ms - 1)) 0),
               (Z.ltb_spec (len ms) (1 + len post)); cbn [negb];
        unfold len in *; lia || done.
    - rewrite len_app. unfold len in *. rewrite length_drop.
      cbn [length] in Hlen. lia. }
  destruct inter as [y|]; cbn [option_list option_rect app].
  - rewrite scan_cons, step_intermediate; [|by right; left|by apply Hin].
    cbn [mbind result_bind]. rewrite scan_cons, step_final; [|by right; right|done].
    unfold ansi.put_field at 1. unfold ansi.set_cmd at 1.
    cbn [ansi.cmd ansi.params ansi.paramsLen ansi.data ansi.dataLen].
    rewrite Hbump. cbn [mbind result_bind]. rewrite Hd.
    unfold ansi.ret. cbn [mbind result_bind].
    replace (i1 + 1 + 1) with (len b) by (cbn [option_list option_rect] in Hi1; rewrite len_cons in Hi1; unfold len in *; cbn [length] in *; lia).
    rewrite slice_to_len. do 3 f_equal.
    all: unfold csi_cmd, ansi.put_final, ansi.put_field; subst c1.
    all: by destruct marker.
  - rewrite scan_cons, step_final; [|by right; left|done].
    rewrite Hbump. cbn [mbind result_bind]. rewrite Hd.
    unfold ansi.ret. cbn [mbind result_bind].
    replace (i1 + 1) with (len b) by (cbn [option_list option_rect] in Hi1; unfold len in *; cbn [length] in *; lia).
    rewrite slice_to_len. do 3 f_equal.
    all: unfold csi_cmd, ansi.put_final, ansi.put_field; subst c1.
    all: by destruct marker.
Qed.

End csi_decode.

(** ** The command word of the scanner and the codec *)

Section cmd_word.
Context `{!parser.Consts}.

Ltac byte_bits :=
  repeat match goal with
  | Hz : 0 <= ?z <= 255 |- context [Z.testbit ?z ?k] =>
      rewrite (byte_testbit z k Hz) by lia
  end.

Lemma int_wrap_byte_shift v k :
  0 <= v <= 255 -> 0 <= k <= 48 -> int_wrap (Z.shiftl v k) = Z.shiftl v k.
Proof.
  intros Hv Hk. apply int_wrap_small. rewrite Z.shiftl_mul_pow2 by lia.
  assert (0 < 2 ^ k) by (apply Z.pow_pos_nonneg; lia).
  assert (2 ^ k <= 2 ^ 48) by (apply Z.pow_le_mono_r; lia).
  nia.
Qed.

(** The command word the scanner builds is the one [Cmd] packs. *)
Lemma csi_cmd_Cmd marker inter final :
  command_layout ->
  csi_cmd marker inter final
  = ansi.Cmd (from_option bval 0 marker) (from_option bval 0 inter) (bval final).
Proof.
  intros Hl. pose proof (bval_range final) as Hf.
  assert (Hm : 0 <= from_option bval 0 marker <= 255).
  { destruct marker; cbn; [apply bval_range|lia]. }
  assert (Hi : 0 <= from_option bval 0 inter <= 255).
  { destruct inter; cbn; [apply bval_range|lia]. }
  rewrite Cmd_layout by done. destruct Hl as (Hmask & Hms & His).
  unfold csi_cmd, ansi.put_final, ansi.put_field, ansi.set_cmd.
  rewrite Hms, His.
  destruct marker as [m|], inter as [y|];
    cbn [from_option ansi.cmd ansi.params ansi.paramsLen ansi.data ansi.dataLen] in *;
    rewrite ?int_wrap_byte_shift by lia.
  all: Z.bitblast; change 255 with (Z.ones 8); rewrite ?Z.testbit_ones by lia.
  all: repeat match goal with
       | |- context [?a <? ?b] => destruct (Z.ltb_spec a b)
       | |- context [?a <=? ?b] => destruct (Z.leb_spec a b)
       end; try lia.
  all: byte_bits; cbn [andb orb negb];
    rewrite ?orb_false_r, ?orb_false_l, ?andb_true_r, ?andb_false_r,
      ?andb_false_l, ?andb_true_l; try done.
  all: repeat match goal with
       | |- context [Z.testbit ?z ?k] => destruct (Z.testbit z k)
       end; done.
Qed.

End cmd_word.

(** ** Mode sequences *)

Lemma setMode_fold modes dec0 l0 :
  fold_left (fun '(dec, list) m =>
               (if ansi.isDECMode m then true else dec,
                list ++ [strconv_Itoa (ansi.Mode_Mode m)]))
            modes (dec0, l0)
  = (dec0 || existsb ansi.isDECMode modes,
     l0 ++ map (fun m => strconv_Itoa (ansi.Mode_Mode m)) modes).
Proof.
  revert dec0 l0. induction modes as [|m modes IH]; intros dec0 l0.
  - cbn. by rewrite orb_false_r, app_nil_r.
  - cbn [fold_left existsb map]. rewrite IH, <- app_assoc. cbn [app].
    by destruct (ansi.isDECMode m), dec0.
Qed.

(** For one mode or more, [setMode] returns a CSI sequence. *)
Lemma setMode_csi reset m modes :
  ansi.setMode reset (m :: modes)
  = csi_bytes (mode_marker (m :: modes)) (map ansi.Mode_Mode (m :: modes)) None
              (mode_final reset).
Proof.
  destruct modes as [|m2 modes].
  - unfold ansi.setMode, csi_bytes, mode_marker, mode_final.
    cbn [existsb map strings_Join]. rewrite orb_false_r.
    by destruct (ansi.isDECMode m), reset.
  - unfold ansi.setMode. rewrite setMode_fold.
    unfold csi_bytes, mode_marker, mode_final. cbn [orb app].
    rewrite map_map.
    by destruct (existsb ansi.isDECMode (m :: m2 :: modes)), reset.
Qed.

(** X7.  [SetMode] and [ResetMode] (and their aliases [SM] and [RM])
    return the empty string for no mode.  For one mode or more they
    return [ESC [], then [?] when at least one of the modes is a DEC
    mode, then the mode numbers in decimal joined by [;], then [h] to
    set or [l] to reset: the branch of [setMode] for a single mode and
    its general branch agree. *)
Theorem SetMode_ResetMode_bytes modes :
  ansi.SM modes = ansi.SetMode modes /\ ansi.RM modes = ansi.ResetMode modes
  /\ ansi.SetMode modes
     = match modes with
       | [] => []
       | _ => csi_bytes (mode_marker modes) (map ansi.Mode_Mode modes) None
                        Byte.x68
       end
  /\ ansi.ResetMode modes
     = match modes with
       | [] => []
       | _ => csi_bytes (mode_marker modes) (map ansi.Mode_Mode modes) None
                        Byte.x6c
       end.
Proof.
  split; [done|]. split; [done|].
  unfold ansi.SetMode, ansi.ResetMode.
  destruct modes as [|m modes]; [done|]. by rewrite !setMode_csi.
Qed.

Lemma RequestMode_bytes m :
  ansi.RequestMode m
  = csi_bytes (mode_marker [m]) [ansi.Mode_Mode m] (Some Byte.x24) Byte.x70.
Proof.
  unfold ansi.RequestMode, csi_bytes, mode_marker. cbn [existsb map strings_Join].
  rewrite orb_false_r. by destruct (ansi.isDECMode m).
Qed.

Lemma ReportMode_bytes mode value :
  ansi.ReportMode mode value
  = csi_bytes None [Z.max 0 mode; Z.max 0 value] (Some Byte.x24) Byte.x79.
Proof.
  unfold ansi.ReportMode, csi_bytes. cbn [map strings_Join option_list option_rect app].
  replace (if mode <? 0 then 0 else mode) with (Z.max 0 mode)
    by (destruct (Z.ltb_spec mode 0); lia).
  replace (if value <? 0 then 0 else value) with (Z.max 0 value)
    by (destruct (Z.ltb_spec value 0); lia).
  cbn. by rewrite <- ?app_assoc.
Qed.

Section mode_round_trip.
Context `{!parser.Consts} `{!Segmenter}.

Lemma decode_csi_Cmd marker inter ms final P :
  command_layout -> parser.MissingParam < 2 ^ 63 ->
  (forall m, marker = Some m -> 0x3C <= bval m <= 0x3F) ->
  (forall y, inter = Some y -> 0x20 <= bval y <= 0x2F) ->
  0x40 <= bval final <= 0x7E ->
  ms <> [] -> Forall param_fits ms ->
  len ms <= len (ansi.params P) < 2 ^ 63 ->
  ansi.DecodeSequence (csi_bytes marker ms inter final) ansi.NormalState (Some P)
  = Ok (ansi.mkDecoded (csi_bytes marker ms inter final) 0
          (len (csi_bytes marker ms inter final)) ansi.NormalState
          (Some (ansi.mkParser
                   (ms ++ drop (length ms) (ansi.params P))
                   (counted (len ms) (len (ansi.params P)))
                   (ansi.Cmd (from_option bval 0 marker) (from_option bval 0 inter)
                             (bval final))
                   (ansi.data P) 0))).
Proof.
  intros Hl Hint Hmk Hin Hf Hne Hfit Hlen.
  destruct P as [ps k c dt dl]. cbn [ansi.params ansi.data] in *.
  destruct ps as [|x post].
  { destruct ms; [done|]. rewrite len_cons in Hlen. pose proof (len_nonneg ms).
    unfold len in Hlen at 2. cbn in Hlen. lia. }
  rewrite decode_csi; try done.
  - rewrite csi_cmd_Cmd by done. do 4 f_equal.
    destruct ms as [|m ms]; [done|].
    by replace (length (m :: ms) - 1)%nat with (length ms) by (cbn [length]; lia).
  - unfold len in Hlen. cbn [length] in *. lia.
  - lia.
Qed.

(** X8.  Under the packing layout of the codec, for one mode or more
    whose numbers lie from 0 up to the missing-parameter sentinel
    (excluded) and a context with as many parameter slots as there are
    modes, or more: what [SetMode] and [ResetMode] write,
    [DecodeSequence] reads back: the whole string is one sequence of
    width 0; the mode
    numbers lie in the first parameter slots, in order; the command
    word is [Cmd(marker, 0, final)] with final byte [h] or [l] and
    marker [?] exactly when one of the modes is a DEC mode.  All the
    modes are counted, unless they fill every slot of a context with
    two slots or more: then the last one is stored but not counted. *)
Theorem setMode_decoded reset modes P :
  command_layout -> parser.MissingParam < 2 ^ 63 ->
  modes <> [] -> Forall (fun m => param_fits (ansi.Mode_Mode m)) modes ->
  len modes <= len (ansi.params P) < 2 ^ 63 ->
  ansi.DecodeSequence (ansi.setMode reset modes) ansi.NormalState (Some P)
  = Ok (ansi.mkDecoded (ansi.setMode reset modes) 0
          (len (ansi.setMode reset modes)) ansi.NormalState
          (Some (ansi.mkParser
                   (map ansi.Mode_Mode modes
                    ++ drop (length modes) (ansi.params P))
                   (counted (len modes) (len (ansi.params P)))
                   (ansi.Cmd (if existsb ansi.isDECMode modes then 0x3F else 0) 0
                             (if reset then 0x6C else 0x68))
                   (ansi.data P) 0))).
Proof.
  intros Hl Hint Hne Hfit Hlen.
  destruct modes as [|m modes]; [done|]. rewrite setMode_csi.
  set (ms := m :: modes) in *.
  rewrite decode_csi_Cmd; try done.
  - rewrite length_map. unfold len. rewrite length_map. fold (len ms).
    do 4 f_equal. unfold mode_marker, mode_final.
    by destruct (existsb ansi.isDECMode ms), reset.
  - unfold mode_marker. destruct (existsb _ _); [|done].
    intros ? [= <-]. by vm_compute.
  - unfold mode_final. destruct reset; by vm_compute.
  - by apply Forall_map.
  - unfold len. by rewrite length_map.
Qed.

(** X9.  Under the packing layout of the codec, for a mode whose
    number lies from 0 up to the missing-parameter sentinel (excluded)
    and a context with one parameter slot or more: what [RequestMode]
    writes, [DecodeSequence] reads back: one sequence, the mode number in the first slot, counted once, and the
    command word [Cmd(marker, '$', 'p')] with marker [?] for a DEC
    mode. *)
Theorem RequestMode_decoded m P :
  command_layout -> parser.MissingParam < 2 ^ 63 ->
  param_fits (ansi.Mode_Mode m) ->
  1 <= len (ansi.params P) < 2 ^ 63 ->
  ansi.DecodeSequence (ansi.RequestMode m) ansi.NormalState (Some P)
  = Ok (ansi.mkDecoded (ansi.RequestMode m) 0 (len (ansi.RequestMode m))
          ansi.NormalState
          (Some (ansi.mkParser
                   (ansi.Mode_Mode m :: drop 1 (ansi.params P)) 1
                   (ansi.Cmd (if ansi.isDECMode m then 0x3F else 0) 0x24 0x70)
                   (ansi.data P) 0))).
Proof.
  intros Hl Hint Hfit Hlen. rewrite RequestMode_bytes.
  rewrite decode_csi_Cmd; try done.
  - do 4 f_equal. unfold mode_marker. cbn [existsb]. rewrite orb_false_r.
    by destruct (ansi.isDECMode m).
  - unfold mode_marker. destruct (existsb _ _); [|done].
    intros ? [= <-]. by vm_compute.
  - intros ? [= <-]. by vm_compute.
  - by constructor.
Qed.

(** X10.  Under the packing layout of the codec, for a mode and a
    value below the missing-parameter sentinel (itself positive) and a
    context with three parameter slots or more: what [ReportMode]
    writes, [DecodeSequence] reads back: one sequence with the mode and the value in the first two slots, a
    negative mode or value having been replaced by 0, and the command
    word [Cmd(0, '$', 'y')]. *)
Theorem ReportMode_decoded mode value P :
  command_layout -> parser.MissingParam < 2 ^ 63 ->
  mode < parser.MissingParam -> value < parser.MissingParam ->
  0 < parser.MissingParam ->
  3 <= len (ansi.params P) < 2 ^ 63 ->
  ansi.DecodeSequence (ansi.ReportMode mode value) ansi.NormalState (Some P)
  = Ok (ansi.mkDecoded (ansi.ReportMode mode value) 0
          (len (ansi.ReportMode mode value)) ansi.NormalState
          (Some (ansi.mkParser
                   (Z.max 0 mode :: Z.max 0 value :: drop 2 (ansi.params P)) 2
                   (ansi.Cmd 0 0x24 0x79) (ansi.data P) 0))).
Proof.
  intros Hl Hint Hm Hv Hpos Hlen. rewrite ReportMode_bytes.
  rewrite decode_csi_Cmd; try done.
  - do 4 f_equal. unfold counted. change (len [_; _]) with 2.
    destruct (Z.ltb_spec 2 (len (ansi.params P))); [done|lia].
  - intros ? [= <-]. by vm_compute.
  - repeat constructor; lia.
  - change (len [_; _]) with 2. lia.
Qed.

End mode_round_trip.

(** ** From a mode sequence to the mode tables *)

Section mode_end_to_end.
Context `{!parser.Consts} `{!Segmenter}.
Variable missing_value : Z.

Lemma counted_pos k slots : 1 <= k -> 1 <= counted k slots.
Proof.
  intros Hk. unfold counted.
  destruct (Z.eqb_spec k 1); cbn [orb]; [lia|]. destruct (_ <? _); lia.
Qed.

Lemma Cmd_mode_words :
  command_layout ->
  ansi.Cmd 0 0 0x68 = 0x68 /\ ansi.Cmd 0 0 0x6C = 0x6C
  /\ ansi.Cmd 0x3F 0 0x68 = 0x3F68 /\ ansi.Cmd 0x3F 0 0x6C = 0x3F6C
  /\ Z.lor 0x68 (int_wrap (Z.shiftl 0x3F parser.MarkerShift)) = 0x3F68
  /\ Z.lor 0x6C (int_wrap (Z.shiftl 0x3F parser.MarkerShift)) = 0x3F6C.
Proof.
  intros (Hmask & Hms & His). unfold ansi.Cmd. by rewrite Hmask, Hms, His.
Qed.

(** [handleCsi] on a mode request: the first parameter is recorded in
    the table the marker selects. *)
Lemma handleCsi_mode t (dec reset : bool) m :
  command_layout ->
  ansi.cmd (vt.parser t)
  = ansi.Cmd (if dec then 0x3F else 0) 0 (if reset then 0x6C else 0x68) ->
  1 <= ansi.paramsLen (vt.parser t) ->
  ansi.params (vt.parser t) !! 0%nat = Some m ->
  ansi.Parameter_Param m missing_value = m ->
  let setting := if reset then vt.ModeReset else vt.ModeSet in
  exists t',
    vt.handleCsi missing_value t = Ok t'
    /\ vt.parser t' = vt.parser t
    /\ if dec
       then vt.pmodes t' = <[m := setting]> (vt.pmodes t)
            /\ vt.modes t' = vt.modes t
            /\ (m = 25 ->
                vt.scr t' = vt.scr t
                /\ vt.active t' = vt.set_Visible (negb reset) (vt.active t))
            /\ (m <> 25 -> m <> 1047 -> m <> 1049 ->
                vt.scrs0 t' = vt.scrs0 t /\ vt.scrs1 t' = vt.scrs1 t
                /\ vt.scr t' = vt.scr t)
       else vt.modes t' = <[m := setting]> (vt.modes t)
            /\ vt.pmodes t' = vt.pmodes t
            /\ vt.scrs0 t' = vt.scrs0 t /\ vt.scrs1 t' = vt.scrs1 t
            /\ vt.scr t' = vt.scr t.
Proof.
  intros Hl Hcmd Hlen Hpar Hval setting.
  destruct (Cmd_mode_words Hl) as (Hh & Hlo & Hph & Hpl & Hwh & Hwl).
  assert (Hword : ansi.cmd (vt.parser t)
                  = if dec then (if reset then 0x3F6C else 0x3F68)
                    else (if reset then 0x6C else 0x68)).
  { rewrite Hcmd. by destruct dec, reset. }
  assert (Hgo : vt.handleCsi missing_value t = vt.handleMode missing_value t).
  { unfold vt.handleCsi. rewrite Hword, Hwh, Hwl. by destruct dec, reset. }
  rewrite Hgo. unfold vt.handleMode.
  destruct (Z.eqb_spec (ansi.paramsLen (vt.parser t)) 0) as [Hz|_]; [lia|].
  rewrite (index_lookup _ 0 _ (Z.le_refl 0) Hpar). cbn [mbind result_bind].
  unfold vt.ParamValue. rewrite Hval.
  assert (Hunpack : ansi.Command_Command (ansi.cmd (vt.parser t))
                    = (if reset then 0x6C else 0x68)
                    /\ ansi.Command_Marker (ansi.cmd (vt.parser t))
                       = if dec then 0x3F else 0).
  { rewrite Hcmd.
    destruct (unpack_Cmd (if dec then 0x3F else 0) 0 (if reset then 0x6C else 0x68))
      as (Hm' & _ & Hc'); try done; by destruct dec, reset. }
  destruct Hunpack as [-> ->].
  unfold vt.CursorEnableMode, vt.AltScreenBufferMode.
  destruct t as [s0 s1 k P ms pms]. cbn [vt.parser vt.modes vt.pmodes] in *.
  destruct dec; cbn [Z.eqb Pos.eqb].
  - destruct (Z.eqb_spec m 25) as [->|H25]; [|destruct (Z.eqb_spec m 1047) as [->|H1047];
      [|destruct (Z.eqb_spec m 1049) as [->|H1049]]].
    all: destruct reset, k; cbn; eexists; (split; [reflexivity|]); cbn;
      repeat split; try done; try lia.
  - destruct reset; cbn; eexists; (split; [reflexivity|]); by cbn.
Qed.

(** X11.  Under the packing layout of the codec, for modes whose
    numbers lie from 0 up to the missing-parameter sentinel (excluded),
    the first of them within the parameter mask, and a terminal whose
    context has as many parameter slots as there are modes, or more: a
    sequence written by [SetMode] or [ResetMode], decoded with the
    context of the terminal and handled by [handleCsi], records the
    first mode of the sequence, and only the first: in the DEC table
    when one of the modes is a DEC mode, in the ANSI table otherwise.
    The other modes of the sequence are not recorded.  A sequence of
    ANSI modes leaves the screens as they are; DEC mode 25 makes the
    cursor of the active screen visible when set and hides it when
    reset. *)
Theorem mode_sequence_records_first_mode (reset : bool) m modes t :
  command_layout -> parser.MissingParam < 2 ^ 63 ->
  Forall (fun k => param_fits (ansi.Mode_Mode k)) (m :: modes) ->
  Z.land (ansi.Mode_Mode m) parser.ParamMask = ansi.Mode_Mode m ->
  len (m :: modes) <= len (ansi.params (vt.parser t)) < 2 ^ 63 ->
  let setting := if reset then vt.ModeReset else vt.ModeSet in
  exists r P' t',
    ansi.DecodeSequence (ansi.setMode reset (m :: modes)) ansi.NormalState
      (Some (vt.parser t)) = Ok r
    /\ ansi.ctx r = Some P'
    /\ vt.handleCsi missing_value (vt.set_parser t P') = Ok t'
    /\ if existsb ansi.isDECMode (m :: modes)
       then vt.pmodes t' = <[ansi.Mode_Mode m := setting]> (vt.pmodes t)
            /\ vt.modes t' = vt.modes t
            /\ (ansi.Mode_Mode m = 25 ->
                vt.scr t' = vt.scr t
                /\ vt.active t' = vt.set_Visible (negb reset) (vt.active t))
       else vt.modes t' = <[ansi.Mode_Mode m := setting]> (vt.modes t)
            /\ vt.pmodes t' = vt.pmodes t
            /\ vt.scrs0 t' = vt.scrs0 t /\ vt.scrs1 t' = vt.scrs1 t
            /\ vt.scr t' = vt.scr t.
Proof.
  intros Hl Hint Hfit Hmask Hlen setting.
  rewrite setMode_csi.
  rewrite decode_csi_Cmd; try done.
  2: { unfold mode_marker. destruct (existsb _ _); [|done].
       intros ? [= <-]. by vm_compute. }
  2: { unfold mode_final. destruct reset; by vm_compute. }
  2: { by apply Forall_map. }
  2: { unfold len. by rewrite length_map. }
  eexists _, _. 
  set (P' := ansi.mkParser _ _ _ _ _).
  destruct (handleCsi_mode (vt.set_parser t P') (existsb ansi.isDECMode (m :: modes))
              reset (ansi.Mode_Mode m)) as (t' & Hh & _ & Heff).
  - done.
  - destruct t. cbn [vt.set_parser vt.parser]. subst P'. cbn [ansi.cmd].
    unfold mode_marker, mode_final.
    by destruct (existsb ansi.isDECMode (m :: modes)), reset.
  - destruct t. cbn [vt.set_parser vt.parser]. subst P'. cbn [ansi.paramsLen].
    apply counted_pos. unfold len. cbn [map length]. lia.
  - by destruct t.
  - inversion Hfit as [|? ? [Hm0 Hm1] _]; subst.
    unfold ansi.Parameter_Param. rewrite Hmask.
    destruct (Z.eqb_spec (ansi.Mode_Mode m) parser.MissingParam); [lia|done].
  - exists t'. split; [reflexivity|]. split; [reflexivity|]. split; [exact Hh|].
    destruct t as [s0 s1 k P ms pms]. cbn [vt.set_parser vt.modes vt.pmodes
      vt.scrs0 vt.scrs1 vt.scr vt.active] in *.
    destruct (existsb ansi.isDECMode (m :: modes)).
    + destruct Heff as (Hp & Hm & H25 & _). done.
    + done.
Qed.

End mode_end_to_end.

(** ** String sequences *)

Lemma collect_app P l1 l2 : collect P (l1 ++ l2) = collect (collect P l1) l2.
Proof. apply fold_left_app. Qed.

Lemma push_data_fields P c :
  ansi.params (push_data P c) = ansi.params P
  /\ ansi.paramsLen (push_data P c) = ansi.paramsLen P
  /\ ansi.cmd (push_data P c) = ansi.cmd P
  /\ len (ansi.data (push_data P c)) = len (ansi.data P).
Proof.
  unfold push_data. destruct (_ <? _); [|done]. cbn. repeat split.
  unfold len. by rewrite length_insert.
Qed.

Lemma collect_fields P payload :
  ansi.params (collect P payload) = ansi.params P
  /\ ansi.paramsLen (collect P payload) = ansi.paramsLen P
  /\ ansi.cmd (collect P payload) = ansi.cmd P
  /\ len (ansi.data (collect P payload)) = len (ansi.data P).
Proof.
  revert P. induction payload as [|c payload IH]; intros P; [done|].
  change (collect P (c :: payload)) with (collect (push_data P c) payload).
  destruct (IH (push_data P c)) as (-> & -> & -> & ->).
  apply push_data_fields.
Qed.

Lemma collect_set_cmd P payload c :
  collect (ansi.set_cmd P c) payload = ansi.set_cmd (collect P payload) c.
Proof.
  revert P. induction payload as [|x payload IH]; intros P; [done|].
  change (collect (ansi.set_cmd P c) (x :: payload))
    with (collect (push_data (ansi.set_cmd P c) x) payload).
  change (collect P (x :: payload)) with (collect (push_data P x) payload).
  rewrite <- IH. f_equal.
  unfold push_data. cbn. by destruct (_ <? _).
Qed.

(** The data collected after a run of bytes: what was collected
    before, then the bytes, cut at the capacity of the buffer. *)
Lemma collected_push P c :
  0 <= ansi.dataLen P <= len (ansi.data P) ->
  0 <= ansi.dataLen (push_data P c) <= len (ansi.data (push_data P c))
  /\ collected (push_data P c)
     = take (length (ansi.data P)) (collected P ++ [c]).
Proof.
  intros Hd. unfold push_data, collected, slice_to, len in *.
  destruct (Z.ltb_spec (ansi.dataLen P) (Z.of_nat (length (ansi.data P)))) as [Hlt|Hge].
  - cbn [ansi.dataLen ansi.data ansi.set_dataLen ansi.set_data].
    rewrite length_insert. split; [lia|].
    replace (Z.to_nat (ansi.dataLen P + 1)) with (S (Z.to_nat (ansi.dataLen P))) by lia.
    set (k := Z.to_nat (ansi.dataLen P)).
    assert (Hk : (k < length (ansi.data P))%nat) by lia.
    rewrite (take_S_r _ _ c) by (by apply list_lookup_insert_eq).
    rewrite take_insert_ge by lia.
    symmetry. apply take_ge. rewrite length_app, length_take. cbn [length]. lia.
  - split; [lia|].
    assert (Hk : Z.to_nat (ansi.dataLen P) = length (ansi.data P)) by lia.
    rewrite Hk, firstn_all. by rewrite take_app_length.
Qed.

Lemma take_take_app {A} n (l p : list A) :
  take n (take n l ++ p) = take n (l ++ p).
Proof.
  destruct (decide (length l <= n)%nat) as [Hle|Hgt].
  - by rewrite (take_ge l) by done.
  - rewrite !take_app_le by (rewrite ?length_take; lia). by rewrite take_take, Nat.min_id.
Qed.

Lemma collected_collect P payload :
  0 <= ansi.dataLen P <= len (ansi.data P) ->
  0 <= ansi.dataLen (collect P payload) <= len (ansi.data (collect P payload))
  /\ collected (collect P payload)
     = take (length (ansi.data P)) (collected P ++ payload).
Proof.
  revert P. induction payload as [|c payload IH]; intros P Hd.
  - cbn [collect fold_left]. split; [done|]. rewrite app_nil_r.
    unfold collected, slice_to, len in *. rewrite take_take. f_equal. lia.
  - change (collect P (c :: payload)) with (collect (push_data P c) payload).
    destruct (collected_push P c Hd) as [Hd' Hc].
    destruct (IH _ Hd') as [Hd'' Hc'']. split; [done|].
    rewrite Hc'', Hc.
    destruct (push_data_fields P c) as (_ & _ & _ & Hlen).
    unfold len in Hlen. apply Nat2Z.inj in Hlen. rewrite Hlen.
    replace (collected P ++ c :: payload) with ((collected P ++ [c]) ++ payload)
      by (by rewrite <- app_assoc).
    apply take_take_app.
Qed.

Section string_proofs.
Context `{!parser.Consts} `{!Segmenter}.

(** A byte of string data is collected, room permitting. *)
Lemma step_string_byte b i c P :
  string_byte (ansi.HasOscPrefix b) c ->
  (ansi.HasOscPrefix b = true -> bval c = 0x3B ->
   ansi.cmd P <> parser.MissingCommand) ->
  0 <= ansi.dataLen P -> len (ansi.data P) < 2 ^ 63 ->
  ansi.step b i c ansi.StringState (Some P)
  = Ok (ansi.Continue ansi.StringState (Some (push_data P c))).
Proof.
  intros (Hcan & Hsub & Hst & Hesc & Hbel) Hsemi Hd Hlen.
  cbn [ansi.step]. unfold ansi.stringCase.
  assert ((bval c =? ansi.BEL) && ansi.HasOscPrefix b = false) as ->.
  { destruct (ansi.HasOscPrefix b); [|by rewrite andb_false_r].
    rewrite andb_true_r. apply Z.eqb_neq. by apply Hbel. }
  assert ((bval c =? ansi.CAN) || (bval c =? ansi.SUB) = false) as ->
    by (bool_to_prop; done).
  assert ((bval c =? ansi.ST) = false) as -> by (by apply Z.eqb_neq).
  assert ((bval c =? ansi.ESC) = false) as -> by (by apply Z.eqb_neq).
  unfold ansi.append_data, push_data.
  destruct (Z.ltb_spec (ansi.dataLen P) (len (ansi.data P))) as [Hlt|Hge]; [|done].
  unfold store. rewrite bool_decide_eq_true_2 by lia. cbn [mbind result_bind].
  rewrite int_wrap_small by lia.
  destruct ((bval c =? 59) && ansi.HasOscPrefix b) eqn:Hc; [|done].
  apply andb_true_iff in Hc as [Hc1 Hc2]. apply Z.eqb_eq in Hc1.
  specialize (Hsemi Hc2 Hc1). unfold ansi.parseOscCmd.
  cbn [ansi.cmd ansi.set_dataLen ansi.set_data].
  by rewrite (proj2 (Z.eqb_neq _ _) Hsemi).
Qed.

(** A run of string data is collected byte by byte. *)
Lemma scan_string b payload rest i P :
  Forall (string_byte (ansi.HasOscPrefix b)) payload ->
  (ansi.HasOscPrefix b = true ->
   Forall (fun c => bval c <> 0x3B) payload
   \/ ansi.cmd P <> parser.MissingCommand) ->
  0 <= ansi.dataLen P -> len (ansi.data P) < 2 ^ 63 ->
  ansi.scan b (payload ++ rest) i ansi.StringState (Some P)
  = ansi.scan b rest (i + len payload) ansi.StringState
      (Some (collect P payload)).
Proof.
  intros Hpl. revert i P. induction Hpl as [|c payload Hc _ IH]; intros i P Hsemi Hd Hlen.
  - cbn [app collect fold_left]. f_equal. unfold len. cbn. lia.
  - cbn [app]. rewrite scan_cons, step_string_byte; try done.
    + cbn [mbind result_bind].
      change (collect P (c :: payload)) with (collect (push_data P c) payload).
      destruct (push_data_fields P c) as (_ & _ & Hcmd & Hl).
      rewrite IH.
      * f_equal. rewrite len_cons. lia.
      * intros Ho. destruct (Hsemi Ho) as [Hall|Hne].
        -- left. by inversion Hall.
        -- right. by rewrite Hcmd.
      * unfold push_data. destruct (_ <? _); cbn; lia.
      * by rewrite Hl.
    + intros Ho Hv. destruct (Hsemi Ho) as [Hall|Hne]; [|done].
      inversion Hall; subst. done.
Qed.

End string_proofs.

(** ** Sixel sequences *)

Lemma digit_string_byte osc c : is_digit c -> string_byte osc c.
Proof.
  unfold is_digit, string_byte, ansi.CAN, ansi.SUB, ansi.ST, ansi.ESC, ansi.BEL.
  intros Hc. repeat split; lia.
Qed.

Lemma Itoa_string_bytes osc i : Forall (string_byte osc) (strconv_Itoa i).
Proof.
  unfold strconv_Itoa. destruct (Z.ltb_spec i 0).
  - constructor; [by repeat split; vm_compute|].
    eapply Forall_impl; [apply formatBits_digits; [lia|constructor]|].
    intros c. apply digit_string_byte.
  - eapply Forall_impl; [apply formatBits_digits; [lia|constructor]|].
    intros c. apply digit_string_byte.
Qed.

Lemma SixelSequence_buffer_parts s :
  ansi.SixelSequence_buffer s
  = Byte.x1b :: Byte.x50
    :: strings_Join (map strconv_Itoa [0; 1; 0]) (str ";")
    ++ Byte.x71 :: sixel_data s ++ [Byte.x1b; Byte.x5c].
Proof.
  unfold ansi.SixelSequence_buffer, sixel_data.
  change (strings_Join (map strconv_Itoa [0; 1; 0]) (str ";"))
    with [Byte.x30; Byte.x3b; Byte.x31; Byte.x3b; Byte.x30].
  change (str "P0;1;0q")
    with [Byte.x50; Byte.x30; Byte.x3b; Byte.x31; Byte.x3b; Byte.x30; Byte.x71].
  cbn [app]. by repeat (rewrite <- app_assoc; cbn [app]).
Qed.

Section sixel_proofs.
Context `{!parser.Consts} `{!Segmenter}.

Lemma step_string_st b i pre p :
  b = pre ++ [Byte.x1b; Byte.x5c] -> i = len pre ->
  ansi.HasOscPrefix b = false ->
  ansi.step b i Byte.x1b ansi.StringState p
  = Ok (ansi.ret (slice_to b (i + 2)) 0 (i + 2) p).
Proof.
  intros Hb Hi Ho. cbn [ansi.step]. unfold ansi.stringCase, ansi.parseOscCmd_if_osc.
  rewrite Ho.
  assert (Hsl : slice_from b i = [Byte.x1b; Byte.x5c]).
  { subst. unfold slice_from, len. by rewrite Nat2Z.id, drop_app_length. }
  by rewrite Hsl.
Qed.

(** X12.  What [SixelSequence.Bytes] (or [String]) writes,
    [DecodeSequence] reads back as one DCS sequence, provided palette
    and pixels hold none of the bytes that end or cancel a string
    ([ESC], [CAN], [SUB], the 8-bit [ST]), the context has more than
    three parameter slots and the missing-parameter sentinel is larger
    than 1: the whole string is
    returned, with width 0; the parameters are [0; 1; 0], the command
    word is the final byte [q], and the data collected is the raster
    attributes, the palette and the pixels, cut at the capacity of the
    data buffer. *)
Theorem SixelSequence_decoded s P :
  1 < parser.MissingParam < 2 ^ 63 ->
  Forall (string_byte false) (ansi.PaletteString s) ->
  Forall (string_byte false) (ansi.PixelString s) ->
  3 < len (ansi.params P) < 2 ^ 63 -> len (ansi.data P) < 2 ^ 63 ->
  ansi.SixelSequence_String s = ansi.SixelSequence_Bytes s
  /\ exists P',
       ansi.DecodeSequence (ansi.SixelSequence_Bytes s) ansi.NormalState (Some P)
       = Ok (ansi.mkDecoded (ansi.SixelSequence_Bytes s) 0
               (len (ansi.SixelSequence_Bytes s)) ansi.NormalState (Some P'))
       /\ ansi.params P' = [0; 1; 0] ++ drop 3 (ansi.params P)
       /\ ansi.paramsLen P' = 3
       /\ ansi.cmd P' = 0x71
       /\ collected P' = take (length (ansi.data P)) (sixel_data s).
Proof.
  intros [Hm1 Hint] Hpal Hpix Hlen Hdl. split; [done|].
  unfold ansi.SixelSequence_Bytes, ansi.DecodeSequence.
  set (b := ansi.SixelSequence_buffer s).
  pose proof (SixelSequence_buffer_parts s) as Hb. fold b in Hb.
  assert (Hdcs : ansi.HasDcsPrefix b = true) by (by rewrite Hb).
  assert (Hosc : ansi.HasOscPrefix b = false) by (by rewrite Hb).
  destruct P as [ps k c dt dl]. cbn [ansi.params ansi.data] in *.
  destruct ps as [|x post]; [unfold len in Hlen; cbn in Hlen; lia|].
  rewrite len_cons in Hlen.
  assert (Hpost : (3 <= length post)%nat) by (unfold len in Hlen; lia).
  set (P0 := ansi.mkParser ([0; 1; 0] ++ drop 2 post) 3 0x71 dt 0).
  assert (Hscan :
    ansi.scan b b 0 ansi.NormalState (Some (ansi.mkParser (x :: post) k c dt dl))
    = Ok (ansi.Return (ansi.mkDecoded b 0 (len b) ansi.NormalState
                         (Some (collect P0 (sixel_data s)))))).
  { rewrite Hb at 2.
    assert (Hstart : forall rest,
      ansi.scan b (Byte.x1b :: Byte.x50 :: rest) 0 ansi.NormalState
        (Some (ansi.mkParser (x :: post) k c dt dl))
      = ansi.scan b rest 2 ansi.MarkerState
          (Some (ansi.mkParser ([] ++ parser.MissingParam :: post) (len (@nil Z))
                               0 dt 0))) by done.
    rewrite Hstart.
    rewrite scan_numbers; [|by left|done| |cbn [length]; lia| |done].
    2: { repeat constructor; lia. }
    2: { cbn [app]. rewrite len_cons. lia. }
    set (i1 := 2 + len (strings_Join (map strconv_Itoa [0; 1; 0]) (str ";"))).
    rewrite scan_cons, step_final; [|by right; left|by vm_compute].
    cbn [app]. change (len (@nil Z) + len [0; 1; 0] - 1) with (len [0; 1; 0] - 1).
    change (0 :: 1 :: 0 :: drop (length [0; 1; 0] - 1) post)
      with ([0; 1; 0] ++ drop 2 post).
    rewrite bump_last_param_numbers; [|done|repeat constructor; lia|].
    2: { rewrite len_app. unfold len in *. rewrite length_drop. cbn [length]. lia. }
    cbn [mbind result_bind]. rewrite Hdcs. cbn [mbind result_bind].
    assert (Hcount : (if (len [0; 1; 0] =? 1) || negb (len (drop 2 post) =? 0)
                      then len [0; 1; 0] else len [0; 1; 0] - 1) = 3).
    { change (len [0; 1; 0]) with 3. cbn [Z.eqb Pos.eqb orb].
      destruct (Z.eqb_spec (len (drop 2 post)) 0) as [Hz|_]; [|done].
      unfold len in Hz. rewrite length_drop in Hz. lia. }
    rewrite Hcount.
    unfold ansi.put_final, ansi.set_dataLen, ansi.set_cmd.
    cbn [ansi.params ansi.paramsLen ansi.cmd ansi.data ansi.dataLen].
    change (Z.lor (Z.ldiff 0 255) (bval Byte.x71)) with 0x71. fold P0.
    (* the data string *)
    rewrite scan_string; [|rewrite Hosc|by rewrite Hosc|done|done].
    2: { unfold sixel_data. repeat (apply Forall_app; split);
           try apply Itoa_string_bytes; try done;
           repeat constructor; by vm_compute. }
    rewrite scan_cons.
    rewrite (step_string_st b _
               (Byte.x1b :: Byte.x50
                :: strings_Join (map strconv_Itoa [0; 1; 0]) (str ";")
                ++ Byte.x71 :: sixel_data s));
      [|by rewrite Hb; cbn [app]; repeat (rewrite <- app_assoc; cbn [app])| |done].
    2: { rewrite !len_cons, len_app, len_cons. unfold i1. lia. }
    unfold ansi.ret. cbn [mbind result_bind].
    assert (Hend : i1 + 1 + len (sixel_data s) + 2 = len b).
    { rewrite Hb. rewrite !len_cons, len_app, len_cons, len_app.
      unfold i1, len. cbn [length]. lia. }
    by rewrite Hend, slice_to_len. }
  rewrite Hscan. cbn [mbind result_bind].
  exists (collect P0 (sixel_data s)). split; [done|].
  destruct (collect_fields P0 (sixel_data s)) as (-> & -> & -> & _).
  split; [|split; [done|split; [done|]]].
  - subst P0. cbn [ansi.params]. by destruct post as [|y [|z post]].
  - destruct (collected_collect P0 (sixel_data s)) as [_ ->].
    + subst P0. cbn. unfold len. lia.
    + by subst P0.
Qed.

End sixel_proofs.

(** ** OSC sequences *)

Section osc_proofs.
Context `{!parser.Consts} `{!Segmenter}.

(** The loop of [parseOscCmd] over a run of digits followed by another
    byte: the number the digits denote. *)
Lemma parseOscLoop_digits fuel pre d ds stop post c :
  Forall is_digit (d :: ds) -> ~ is_digit stop ->
  (length (d :: ds) <= fuel)%nat ->
  let c0 := if c =? parser.MissingCommand then 0 else c in
  0 <= c0 -> dec_value (d :: ds) c0 < parser.MissingCommand ->
  parser.MissingCommand < 2 ^ 63 ->
  ansi.parseOscLoop fuel (len pre) (pre ++ (d :: ds) ++ stop :: post) c
  = Ok (dec_value (d :: ds) c0).
Proof.
  revert fuel pre d c. induction ds as [|d2 ds IH];
    intros fuel pre d c Hds Hstop Hfuel c0 Hc0 Hlt Hint.
  - destruct fuel as [|fuel]; [cbn in Hfuel; lia|].
    inversion Hds as [|? ? Hd _]; subst. unfold is_digit in Hd.
    cbn [ansi.parseOscLoop app]. rewrite index_middle. cbn [mbind result_bind].
    assert ((bval d <? 48) || (57 <? bval d) = false) as ->
      by (bool_to_prop; lia).
    fold c0. cbn [dec_value fold_left] in *.
    rewrite (int_wrap_small (c0 * 10)) by lia. rewrite int_wrap_small by lia.
    destruct fuel as [|fuel]; [done|]. cbn [ansi.parseOscLoop].
    replace (len pre + 1) with (len (pre ++ [d]))
      by (rewrite len_app, len_cons; unfold len; cbn; lia).
    replace (pre ++ d :: stop :: post) with ((pre ++ [d]) ++ stop :: post)
      by (by rewrite <- app_assoc).
    rewrite index_middle. cbn [mbind result_bind].
    assert ((bval stop <? 48) || (57 <? bval stop) = true) as ->; [|done].
    unfold is_digit in Hstop. bool_to_prop. lia.
  - destruct fuel as [|fuel]; [cbn in Hfuel; lia|].
    inversion Hds as [|? ? Hd Hds']; subst. unfold is_digit in Hd.
    assert (Hfin : c0 * 10 + (bval d - 48)
                   <= dec_value (d2 :: ds) (c0 * 10 + (bval d - 48))).
    { apply dec_value_mono; [done|lia]. }
    change (dec_value (d :: d2 :: ds) c0)
      with (dec_value (d2 :: ds) (c0 * 10 + (bval d - 48))) in *.
    cbn [ansi.parseOscLoop app]. rewrite index_middle. cbn [mbind result_bind].
    assert ((bval d <? 48) || (57 <? bval d) = false) as ->
      by (bool_to_prop; lia).
    fold c0.
    rewrite (int_wrap_small (c0 * 10)) by lia. rewrite int_wrap_small by lia.
    replace (len pre + 1) with (len (pre ++ [d]))
      by (rewrite len_app, len_cons; unfold len; cbn; lia).
    replace (pre ++ d :: d2 :: ds ++ stop :: post)
      with ((pre ++ [d]) ++ (d2 :: ds) ++ stop :: post)
      by (by rewrite <- app_assoc).
    assert (Hne : (c0 * 10 + (bval d - 48) =? parser.MissingCommand) = false).
    { apply Z.eqb_neq. lia. }
    rewrite IH; rewrite ?Hne; try done; first [lia | cbn [length] in *; lia].
Qed.

Lemma scan_osc_start b rest P :
  ansi.scan b (Byte.x1b :: Byte.x5d :: rest) 0 ansi.NormalState (Some P)
  = ansi.scan b rest 2 ansi.StringState
      (Some (ansi.mkParser (ansi.params (ansi.clear_first_param P)) 0
                           parser.MissingCommand (ansi.data P) 0)).
Proof.
  rewrite !scan_cons. cbn [ansi.step]. unfold ansi.normalCase, ansi.ESC.
  change (bval Byte.x1b) with 27.
  cbn [Z.eqb Pos.eqb orb mbind result_bind ansi.with_parser].
  rewrite scan_cons. cbn [ansi.step]. unfold ansi.escapeCase.
  change (bval Byte.x5d) with 93.
  cbn [Z.eqb Pos.eqb orb mbind result_bind ansi.with_parser].
  destruct (clear_first_param_fields P) as (Hd & _).
  unfold ansi.set_dataLen, ansi.set_cmd, ansi.set_paramsLen.
  cbn [ansi.params ansi.paramsLen ansi.cmd ansi.data ansi.dataLen].
  by rewrite Hd.
Qed.

(** X13.  An OSC sequence [ESC ]] number [;] payload [BEL], with a
    number from 0 up to the missing-command sentinel (excluded), is
    decoded as one sequence of width 0, provided the payload holds none of
    the bytes that end or cancel a string and the number and its [;]
    fit in the data buffer: the command word is the number, read by
    [parseOscCmd] from the data up to the first [;]; the data
    collected is the number, the [;] and the payload, cut at the
    capacity of the data buffer; no parameter is counted. *)
Theorem osc_decoded k payload P :
  0 <= k < parser.MissingCommand -> parser.MissingCommand < 2 ^ 63 ->
  Forall (string_byte true) payload ->
  len (strconv_Itoa k) < len (ansi.data P) < 2 ^ 63 ->
  exists P',
    ansi.DecodeSequence (osc_bytes k payload) ansi.NormalState (Some P)
    = Ok (ansi.mkDecoded (osc_bytes k payload) 0 (len (osc_bytes k payload))
            ansi.NormalState (Some P'))
    /\ ansi.cmd P' = k /\ ansi.paramsLen P' = 0
    /\ collected P'
       = take (length (ansi.data P)) (strconv_Itoa k ++ Byte.x3b :: payload).
Proof.
  intros Hk Hint Hpl Hlen.
  destruct (Itoa_digits k) as (Hds & Hval & d & ds & Heq); [lia|].
  set (b := osc_bytes k payload).
  assert (Hosc : ansi.HasOscPrefix b = true) by done.
  set (P0 := ansi.mkParser (ansi.params (ansi.clear_first_param P)) 0
                           parser.MissingCommand (ansi.data P) 0).
  set (P1 := collect P0 (strconv_Itoa k)).
  set (P2 := ansi.set_cmd (push_data P1 Byte.x3b) k).
  set (P3 := collect P2 payload).
  (* the data after the number *)
  destruct (collect_fields P0 (strconv_Itoa k)) as (Hp1 & Hpl1 & Hc1 & Hl1).
  destruct (collected_collect P0 (strconv_Itoa k)) as [Hd1 Hcol1];
    [subst P0; cbn; unfold len; lia|].
  fold P1 in Hp1, Hpl1, Hc1, Hl1, Hd1, Hcol1.
  assert (Hcol1' : collected P1 = strconv_Itoa k).
  { rewrite Hcol1. subst P0. cbn [ansi.data]. unfold collected, slice_to.
    cbn [ansi.dataLen ansi.data Z.to_nat take app].
    apply take_ge. unfold len in Hlen. lia. }
  assert (Hdl1 : ansi.dataLen P1 = len (strconv_Itoa k)).
  { assert (Hl : length (collected P1) = length (strconv_Itoa k)) by congruence.
    unfold collected, slice_to in Hl. rewrite length_take in Hl.
    unfold len in *. lia. }
  assert (Hdata1 : len (ansi.data P1) = len (ansi.data P)) by (by rewrite Hl1).
  (* the step on the separator *)
  assert (Hsemi : forall i,
    ansi.step b i Byte.x3b ansi.StringState (Some P1)
    = Ok (ansi.Continue ansi.StringState (Some P2))).
  { intros i. cbn [ansi.step].
    unfold ansi.stringCase, ansi.BEL, ansi.CAN, ansi.SUB, ansi.ST, ansi.ESC.
    change (bval Byte.x3b) with 59. cbn [Z.eqb Pos.eqb andb orb].
    unfold ansi.append_data.
    destruct (Z.ltb_spec (ansi.dataLen P1) (len (ansi.data P1))) as [Hlt|Hge]; [|lia].
    unfold store. rewrite bool_decide_eq_true_2 by lia. cbn [mbind result_bind].
    rewrite int_wrap_small by lia. rewrite Hosc.
    change (bval Byte.x3b) with 59. cbn [Z.eqb Pos.eqb andb].
    unfold ansi.parseOscCmd, ansi.set_dataLen, ansi.set_data.
    cbn [ansi.cmd ansi.dataLen ansi.data ansi.params ansi.paramsLen].
    rewrite Hc1. subst P0. cbn [ansi.cmd]. rewrite Z.eqb_refl. cbn [negb].
    assert (Hdat : <[Z.to_nat (ansi.dataLen P1) := Byte.x3b]> (ansi.data P1)
                   = [] ++ (d :: ds) ++ Byte.x3b
                     :: drop (S (Z.to_nat (ansi.dataLen P1))) (ansi.data P1)).
    { rewrite <- Heq, <- Hcol1'. unfold collected, slice_to. cbn [app].
      set (n := Z.to_nat (ansi.dataLen P1)).
      assert (Hn : (n < length (ansi.data P1))%nat) by (unfold len in *; lia).
      rewrite <- (take_drop n (ansi.data P1)) at 1.
      rewrite insert_app_r_alt by (rewrite length_take; lia).
      rewrite length_take, Nat.min_l, Nat.sub_diag by lia.
      destruct (drop n (ansi.data P1)) as [|y rest] eqn:Hdrop.
      { apply (f_equal length) in Hdrop. rewrite length_drop in Hdrop.
        cbn in Hdrop. lia. }
      cbn [insert list_insert]. do 2 f_equal.
      replace (S n) with (n + 1)%nat by lia. by rewrite <- drop_drop, Hdrop. }
    rewrite Hdat.
    pose proof (parseOscLoop_digits (Z.to_nat (ansi.dataLen P1 + 1)) [] d ds Byte.x3b
                  (drop (S (Z.to_nat (ansi.dataLen P1))) (ansi.data P1))
                  parser.MissingCommand) as Hloop.
    change (len (@nil byte)) with 0 in Hloop. rewrite Z.eqb_refl in Hloop.
    rewrite Hloop.
    - cbn [mbind result_bind]. rewrite <- Heq, Hval.
      subst P2. unfold push_data.
      destruct (Z.ltb_spec (ansi.dataLen P1) (len (ansi.data P1))); [|lia].
      unfold ansi.set_cmd, ansi.set_dataLen, ansi.set_data.
      cbn [ansi.params ansi.paramsLen ansi.cmd ansi.data ansi.dataLen].
      by rewrite Hdat, Heq.
    - by rewrite <- Heq.
    - unfold is_digit. change (bval Byte.x3b) with 59. lia.
    - rewrite Hdl1, Heq. unfold len. lia.
    - done.
    - rewrite <- Heq, Hval. lia.
    - done. }
  assert (Hscan :
    ansi.scan b b 0 ansi.NormalState (Some P)
    = Ok (ansi.Return (ansi.mkDecoded b 0 (len b) ansi.NormalState (Some P3)))).
  { unfold b at 2, osc_bytes. rewrite scan_osc_start. fold P0.
    rewrite scan_string; [fold P1| |left|subst P0; by cbn|subst P0; cbn; lia].
    2: { eapply Forall_impl; [exact Hds|]. intros c. apply digit_string_byte. }
    2: { eapply Forall_impl; [exact Hds|]. unfold is_digit. intros c Hc. lia. }
    rewrite scan_cons, Hsemi. cbn [mbind result_bind].
    assert (Hc2 : ansi.cmd P2 = k) by done.
    assert (Hd2 : 0 <= ansi.dataLen P2 /\ len (ansi.data P2) < 2 ^ 63).
    { subst P2. unfold push_data. destruct (_ <? _); cbn; [|lia].
      unfold len. rewrite length_insert. fold (len (ansi.data P1)). lia. }
    rewrite scan_string; [fold P3|by rewrite Hosc|right; lia|lia|lia].
    rewrite scan_cons. cbn [ansi.step]. unfold ansi.stringCase, ansi.BEL.
    rewrite Hosc. change (bval Byte.x07) with 7. cbn [Z.eqb Pos.eqb andb].
    unfold ansi.parseOscCmd.
    destruct (collect_fields P2 payload) as (_ & _ & Hc3 & _). fold P3 in Hc3.
    rewrite Hc3, Hc2. rewrite (proj2 (Z.eqb_neq _ _)) by lia. cbn [negb].
    unfold ansi.ret. cbn [mbind result_bind].
    replace (2 + len (strconv_Itoa k) + 1 + len payload + 1) with (len b).
    - by rewrite slice_to_len.
    - unfold b, osc_bytes. rewrite !len_cons, len_app, len_cons, len_app.
      unfold len. cbn [length]. lia. }
  exists P3. unfold ansi.DecodeSequence. rewrite Hscan. cbn [mbind result_bind].
  split; [done|].
  destruct (collect_fields P2 payload) as (_ & Hpl3 & Hc3 & _).
  fold P3 in Hpl3, Hc3. split; [by rewrite Hc3|]. split.
  - rewrite Hpl3. subst P2. unfold push_data. destruct (_ <? _); cbn; by rewrite Hpl1.
  - destruct (collected_collect P2 payload) as [_ Hcol3].
    + subst P2. unfold push_data.
      destruct (Z.ltb_spec (ansi.dataLen P1) (len (ansi.data P1))); [|lia].
      cbn. unfold len in *. rewrite length_insert. lia.
    + fold P3 in Hcol3. rewrite Hcol3.
      assert (Hcol2 : collected P2 = strconv_Itoa k ++ [Byte.x3b]).
      { subst P2. unfold ansi.set_cmd, collected. cbn [ansi.data ansi.dataLen].
        destruct (collected_push P1 Byte.x3b) as [_ Hcp]; [lia|].
        unfold collected in Hcp. rewrite Hcp. fold (collected P1). rewrite Hcol1'.
        apply take_ge. rewrite length_app. cbn [length]. unfold len in *. lia. }
      rewrite Hcol2, <- app_assoc. cbn [app].
      assert (Hl2 : length (ansi.data P2) = length (ansi.data P)).
      { subst P2. unfold push_data. destruct (_ <? _); cbn;
          rewrite ?length_insert; unfold len in *; lia. }
      by rewrite Hl2.
Qed.

End osc_proofs.

(** ** Erasing in the line and in the display *)

Section erase_proofs.
Context `{!parser.Consts}.
Variable missing_value : Z.

Lemma first_value_count t count :
  first_value missing_value (vt.parser t) = Some count ->
  (if 0 <? ansi.paramsLen (vt.parser t)
   then p0 ← index (ansi.params (vt.parser t)) 0;
        Ok (vt.ParamValue missing_value p0)
   else Ok 0) = Ok count.
Proof.
  unfold first_value. destruct (0 <? _); [|congruence].
  destruct (ansi.params (vt.parser t) !! 0%nat) as [p0|] eqn:Hp; [|done].
  intros [= <-]. by rewrite (index_lookup _ 0 p0).
Qed.

Lemma cell_at_Fill_rect c r bf k j (Q : Prop) `{!Decision Q} :
  grid_ok bf ->
  0 <= k < cellbuf.buf_width bf -> 0 <= j < cellbuf.buf_height bf ->
  (cellbuf.in_rect r k j = true <-> Q) ->
  cellbuf.cell_at (cellbuf.Fill c r bf) k j
  = if bool_decide Q then Some c else cellbuf.cell_at bf k j.
Proof.
  intros Hg Hk Hj HQ. rewrite cell_at_Fill by done.
  destruct (cellbuf.in_rect r k j); case_bool_decide; try done.
  - exfalso. tauto.
  - exfalso. destruct HQ as [_ HQ]. by specialize (HQ ltac:(done)).
Qed.

(** X14.  [CSI n K] (erase in line), on a screen whose cursor is at
    column [x] of row [y]: with [n = 0] the cells of the row from the
    cursor to the end of the line, with [n = 1] those from the start of
    the line to the cursor, with [n = 2] the whole row are overwritten
    with a blank cell that carries the current pen; with any other [n]
    nothing is written.  The cells of the other rows, the cursor and
    the active screen stay as they are. *)
Theorem erase_in_line t count :
  command_layout ->
  ansi.cmd (vt.parser t) = 0x4B ->
  first_value missing_value (vt.parser t) = Some count ->
  grid_ok (vt.buf (vt.active t)) ->
  vt.Width (vt.active t) < 2 ^ 63 ->
  0 <= vt.PosX (vt.cur (vt.active t)) < vt.Width (vt.active t) ->
  exists t',
    vt.handleCsi missing_value t = Ok t'
    /\ (forall k j,
           0 <= k < vt.Width (vt.active t) -> 0 <= j < vt.Height (vt.active t) ->
           cellbuf.cell_at (vt.buf (vt.active t')) k j
           = if bool_decide
                  (j = vt.PosY (vt.cur (vt.active t))
                   /\ ((count = 0 /\ vt.PosX (vt.cur (vt.active t)) <= k)
                       \/ (count = 1 /\ k <= vt.PosX (vt.cur (vt.active t)))
                       \/ count = 2))
             then Some (cellbuf.mkCell " " 1 (vt.Pen (vt.cur (vt.active t))))
             else cellbuf.cell_at (vt.buf (vt.active t)) k j)
    /\ vt.cur (vt.active t') = vt.cur (vt.active t)
    /\ vt.scr t' = vt.scr t.
Proof.
  intros (Hmask & Hms & His) Hcmd Hn Hgrid Hw Hx.
  assert (Hgo : vt.handleCsi missing_value t = vt.handleLine missing_value t).
  { unfold vt.handleCsi. by rewrite Hcmd. }
  rewrite Hgo. unfold vt.handleLine.
  rewrite (first_value_count t count Hn). cbn [mbind result_bind].
  unfold ansi.Command_Command, parser.Command. rewrite Hcmd, Hmask.
  change (Z.land 75 255) with 75. cbn [Z.eqb Pos.eqb].
  rewrite !int_wrap_small by lia.
  set (s := vt.active t) in *.
  assert (Hact : forall s', vt.active (vt.set_active t s') = s'
                            /\ vt.scr (vt.set_active t s') = vt.scr t).
  { intros s'. destruct t as [s0 s1 [] P ms pms]; by cbn. }
  destruct (Z.eqb_spec count 0) as [->|H0];
    [|destruct (Z.eqb_spec count 1) as [->|H1];
      [|destruct (Z.eqb_spec count 2) as [->|H2]]];
    eexists; (split; [reflexivity|]).
  all: rewrite ?(proj1 (Hact _)), ?(proj2 (Hact _)).
  all: split; [|by destruct t as [s0 s1 [] P ms pms]].
  all: intros k j Hk Hj.
  1-3: cbn [vt.ScreenFill vt.buf]; apply cell_at_Fill_rect; try done;
       rewrite in_rect_true_iff; cbn [cellbuf.X cellbuf.Y cellbuf.RectWidth
         cellbuf.RectHeight]; unfold vt.Width, vt.Height in *; lia.
  case_bool_decide as Hc; [lia|done].
Qed.

(** X15.  [CSI n J] (erase in display), on a screen whose cursor is in
    row [y]: with [n = 0] every cell of the rows from [y] down, with
    [n = 1] every cell of the rows down to [y], with [n = 2] or [n = 3]
    every cell of the screen becomes the blank cell; the row of the
    cursor is erased as a whole, whatever the column of the cursor.
    With any other [n] nothing is erased.  The other cells, the cursor
    and the active screen stay as they are. *)
Theorem erase_in_display t count :
  command_layout ->
  ansi.cmd (vt.parser t) = 0x4A ->
  first_value missing_value (vt.parser t) = Some count ->
  grid_ok (vt.buf (vt.active t)) ->
  vt.Height (vt.active t) < 2 ^ 63 ->
  0 <= vt.PosY (vt.cur (vt.active t)) < vt.Height (vt.active t) ->
  exists t',
    vt.handleCsi missing_value t = Ok t'
    /\ (forall k j,
           0 <= k < vt.Width (vt.active t) -> 0 <= j < vt.Height (vt.active t) ->
           cellbuf.cell_at (vt.buf (vt.active t')) k j
           = if bool_decide
                  ((count = 0 /\ vt.PosY (vt.cur (vt.active t)) <= j)
                   \/ (count = 1 /\ j <= vt.PosY (vt.cur (vt.active t)))
                   \/ count = 2 \/ count = 3)
             then Some cellbuf.blankCell
             else cellbuf.cell_at (vt.buf (vt.active t)) k j)
    /\ vt.cur (vt.active t') = vt.cur (vt.active t)
    /\ vt.scr t' = vt.scr t.
Proof.
  intros (Hmask & Hms & His) Hcmd Hn Hgrid Hh Hy.
  assert (Hgo : vt.handleCsi missing_value t = vt.handleScreen missing_value t).
  { unfold vt.handleCsi. by rewrite Hcmd. }
  rewrite Hgo. unfold vt.handleScreen.
  rewrite (first_value_count t count Hn). cbn [mbind result_bind].
  unfold ansi.Command_Command, parser.Command. rewrite Hcmd, Hmask.
  change (Z.land 74 255) with 74. cbn [Z.eqb Pos.eqb].
  rewrite !int_wrap_small by lia.
  set (s := vt.active t) in *.
  assert (Hact : forall s', vt.active (vt.set_active t s') = s'
                            /\ vt.scr (vt.set_active t s') = vt.scr t).
  { intros s'. destruct t as [s0 s1 [] P ms pms]; by cbn. }
  destruct (Z.eqb_spec count 0) as [->|H0];
    [|destruct (Z.eqb_spec count 1) as [->|H1];
      [|destruct (Z.eqb_spec count 2) as [->|H2];
        [|destruct (Z.eqb_spec count 3) as [->|H3]]]];
    cbn [orb]; eexists; (split; [reflexivity|]).
  all: rewrite ?(proj1 (Hact _)), ?(proj2 (Hact _)).
  all: split; [|by destruct t as [s0 s1 [] P ms pms]].
  all: intros k j Hk Hj.
  1-4: cbn [vt.ScreenClear vt.buf cellbuf.Clear]; apply cell_at_Fill_rect;
       try done;
       rewrite in_rect_true_iff; cbn [cellbuf.X cellbuf.Y cellbuf.RectWidth
         cellbuf.RectHeight]; unfold vt.Width, vt.Height in *; lia.
  case_bool_decide as Hc; [lia|done].
Qed.

End erase_proofs.

(** ** Select graphic rendition, parameter by parameter *)

Lemma index_cons_succ {A} (x : A) l j :
  0 <= j -> index (x :: l) (j + 1) = index l j.
Proof.
  intros Hj. unfold index. rewrite !bool_decide_eq_true_2 by lia.
  by replace (Z.to_nat (j + 1)) with (S (Z.to_nat j)) by lia.
Qed.

Lemma readColor_cons x params i :
  0 <= i ->
  vt.readColor (i + 1) (x :: params)
  = match vt.readColor i params with
    | Ok (c, i') => Ok (c, i' + 1)
    | Panic => Panic
    end.
Proof.
  intros Hi. unfold vt.readColor. rewrite len_cons.
  replace (i + 1 >? 1 + len params - 1) with (i >? len params - 1)
    by (destruct (Z.gtb_spec i (len params - 1)),
                 (Z.gtb_spec (i + 1) (1 + len params - 1)); lia).
  replace (i + 1 >? 1 + len params - 4) with (i >? len params - 4)
    by (destruct (Z.gtb_spec i (len params - 4)),
                 (Z.gtb_spec (i + 1) (1 + len params - 4)); lia).
  replace (i + 1 >? 1 + len params - 2) with (i >? len params - 2)
    by (destruct (Z.gtb_spec i (len params - 2)),
                 (Z.gtb_spec (i + 1) (1 + len params - 2)); lia).
  replace (i + 1 + 1) with ((i + 1) + 1) by lia.
  replace (i + 1 + 2) with ((i + 2) + 1) by lia.
  replace (i + 1 + 3) with ((i + 3) + 1) by lia.
  replace (i + 1 + 4) with ((i + 4) + 1) by lia.
  rewrite !index_cons_succ by lia.
  destruct (i >? len params - 1); [done|].
  destruct (index params (i + 1)) as [sub|]; [|done]. cbn [mbind result_bind].
  destruct (sub =? 2).
  - destruct (i >? len params - 4); [done|].
    destruct (index params (i + 2)); [|done]. cbn [mbind result_bind].
    destruct (index params (i + 3)); [|done]. cbn [mbind result_bind].
    destruct (index params (i + 4)); [|done]. cbn [mbind result_bind].
    done.
  - destruct (sub =? 5); [|done].
    destruct (i >? len params - 2); [done|].
    destruct (index params (i + 2)); [|done]. cbn [mbind result_bind].
    done.
Qed.

Section sgr_compose.
Context `{!parser.Consts}.
Variable missing_value : Z.

Lemma sgrStep_cons x params i pen :
  0 <= i ->
  vt.sgrStep missing_value (x :: params) (i + 1) pen
  = match vt.sgrStep missing_value params i pen with
    | Ok (pen', i') => Ok (pen', i' + 1)
    | Panic => Panic
    end.
Proof.
  intros Hi. unfold vt.sgrStep.
  replace (i + 1 + 1) with ((i + 1) + 1) by lia.
  rewrite !index_cons_succ by lia. rewrite readColor_cons by done.
  destruct (index params i) as [r|]; [|done]. cbn [mbind result_bind].
  repeat match goal with
  | |- context [vt.readColor ?k ?l] =>
      destruct (vt.readColor k l) as [[? ?]|]; cbn [mbind result_bind]
  | |- context [index ?l ?k] => destruct (index l k); cbn [mbind result_bind]
  | |- context [if ?c then _ else _] =>
      lazymatch type of c with bool => destruct c end
  end; done.
Qed.

Lemma sgrLoop_cons fuel x params i pen :
  0 <= i ->
  vt.sgrLoop missing_value fuel (x :: params) (i + 1) pen
  = vt.sgrLoop missing_value fuel params i pen.
Proof.
  revert i pen. induction fuel as [|fuel IH]; intros i pen Hi; [done|].
  cbn [vt.sgrLoop]. rewrite len_cons.
  replace (i + 1 <? 1 + len params) with (i <? len params)
    by (destruct (Z.ltb_spec i (len params)),
                 (Z.ltb_spec (i + 1) (1 + len params)); lia).
  destruct (i <? len params); [|done].
  rewrite sgrStep_cons by done.
  destruct (vt.sgrStep missing_value params i pen) as [[pen' i']|] eqn:Hs; [|done].
  cbn [mbind result_bind]. apply sgrStep_advances in Hs. apply IH. lia.
Qed.

(** Dropping the parameters already handled shifts the loop. *)
Lemma sgrLoop_skip fuel pre params pen :
  vt.sgrLoop missing_value fuel (pre ++ params) (len pre) pen
  = vt.sgrLoop missing_value fuel params 0 pen.
Proof.
  induction pre as [|x pre IH]; [done|].
  cbn [app]. rewrite len_cons. replace (1 + len pre) with (len pre + 1) by lia.
  rewrite sgrLoop_cons by apply len_nonneg. done.
Qed.

(** The loop after its first iteration, when that iteration leaves the
    index [k] parameters further on. *)
Lemma sgr_run_step pre rest pen pen' :
  pre <> [] ->
  vt.sgrStep missing_value (pre ++ rest) 0 pen = Ok (pen', len pre - 1) ->
  sgr_run missing_value (pre ++ rest) pen = sgr_run missing_value rest pen'.
Proof.
  intros Hne Hstep. unfold sgr_run.
  destruct pre as [|x pre]; [done|]. cbn [app length vt.sgrLoop].
  change (x :: pre ++ rest) with ((x :: pre) ++ rest). rewrite Hstep.
  cbn [mbind result_bind].
  assert ((0 <? len ((x :: pre) ++ rest)) = true) as ->.
  { apply Z.ltb_lt. rewrite len_app, len_cons.
    pose proof (len_nonneg pre). pose proof (len_nonneg rest). lia. }
  replace (len (x :: pre) - 1 + 1) with (len (x :: pre)) by lia.
  rewrite sgrLoop_skip. rewrite length_app.
  replace (length pre + length rest)%nat with (length rest + length pre)%nat by lia.
  apply sgrLoop_fuel. unfold len. lia.
Qed.

(** A parameter handled on its own changes the pen whatever follows
    it, and leaves the index where it is. *)
Lemma sgrStep_plain p pen :
  sgr_plain missing_value p ->
  exists pen', forall rest,
    vt.sgrStep missing_value (p :: rest) 0 pen = Ok (pen', 0).
Proof.
  intros (H38 & H48 & H58 & H4).
  exists (match vt.sgrStep missing_value [p] 0 pen with
          | Ok (q, _) => q
          | Panic => pen
          end).
  intros rest. unfold vt.sgrStep.
  rewrite !(index_lookup _ 0 p) by done. cbn [mbind result_bind].
  unfold vt.ParamValue in *.
  destruct (Z.eqb_spec (ansi.Parameter_Param p missing_value) 4) as [He|_].
  { rewrite He, (H4 He). by cbn. }
  destruct (Z.eqb_spec (ansi.Parameter_Param p missing_value) 38); [done|].
  destruct (Z.eqb_spec (ansi.Parameter_Param p missing_value) 48); [done|].
  destruct (Z.eqb_spec (ansi.Parameter_Param p missing_value) 58); [done|].
  repeat match goal with
  | |- context [if ?c then _ else _] =>
      lazymatch type of c with bool => destruct c end
  end; done.
Qed.

(** X16.  The parameters of an SGR sequence are handled from left to
    right, one at a time: a run of parameters that are neither
    extended-colour codes (38, 48, 58) nor an underline with a
    sub-parameter never fails, and handling it followed by further
    parameters is handling it, then handling the further parameters
    with the pen it left.  So [CSI a ; b m] sets what [CSI a m] and
    then [CSI b m] set. *)
Theorem sgr_params_compose l1 pen :
  Forall (sgr_plain missing_value) l1 ->
  exists pen1,
    sgr_run missing_value l1 pen = Ok pen1
    /\ forall l2,
         sgr_run missing_value (l1 ++ l2) pen = sgr_run missing_value l2 pen1.
Proof.
  intros Hl. revert pen. induction Hl as [|p l1 Hp _ IH]; intros pen.
  - exists pen. by split.
  - destruct (sgrStep_plain p pen Hp) as (pen' & Hstep).
    destruct (IH pen') as (pen1 & Hrun & Hcomp).
    assert (Hone : forall rest,
      sgr_run missing_value (p :: rest) pen = sgr_run missing_value rest pen').
    { intros rest. apply (sgr_run_step [p] rest); [done|]. apply Hstep. }
    exists pen1. split; [by rewrite Hone|].
    intros l2. cbn [app]. by rewrite Hone.
Qed.

(** X17.  A complete extended-colour group separated by [;] sets the
    colour and is skipped as a whole: after code 38, 48 or 58, the
    parameters [5 ; n] select the indexed colour [n mod 256] and
    [2 ; r ; g ; b] the opaque RGB colour, of the foreground, the
    background or the underline; the loop goes on after the group.
    The sub-code has to be stored as the plain number 5 or 2: any other
    stored value (such as 5 with the has-more flag, which [:] leaves)
    sets no colour, and the loop goes on at the sub-code itself. *)
Theorem sgr_colour_groups code sub rest pen :
  colour_code (vt.ParamValue missing_value code) ->
  (forall n,
      sub = 5 ->
      sgr_run missing_value (code :: sub :: n :: rest) pen
      = sgr_run missing_value rest
          (set_colour (vt.ParamValue missing_value code)
             (Some (cellbuf.ExtendedColor (uint8 n))) pen))
  /\ (forall r g b,
         sub = 2 ->
         sgr_run missing_value (code :: sub :: r :: g :: b :: rest) pen
         = sgr_run missing_value rest
             (set_colour (vt.ParamValue missing_value code)
                (Some (cellbuf.RGBA (uint8 r) (uint8 g) (uint8 b) 0xff)) pen))
  /\ (sub <> 5 -> sub <> 2 ->
      sgr_run missing_value (code :: sub :: rest) pen
      = sgr_run missing_value (sub :: rest) pen).
Proof.
  intros Hcode.
  assert (Hstep : forall L c i',
    vt.readColor 0 (code :: L) = Ok (c, i') ->
    vt.sgrStep missing_value (code :: L) 0 pen
    = Ok (match c with
          | Some _ => set_colour (vt.ParamValue missing_value code) c pen
          | None => pen
          end, i')).
  { intros L c i' Hr. unfold vt.sgrStep.
    rewrite (index_lookup _ 0 code) by done. cbn [mbind result_bind].
    rewrite Hr. unfold set_colour.
    destruct Hcode as [-> | [-> | ->]];
      cbn [Z.eqb Pos.eqb Z.leb Z.compare Pos.compare Pos.compare_cont andb
           mbind result_bind];
      by destruct c. }
  pose proof (len_nonneg rest) as Hrest.
  split; [|split].
  - intros n ->.
    apply (sgr_run_step [code; 5; n] rest); [done|].
    cbn [app]. change (len [code; 5; n] - 1) with 2.
    apply (Hstep _ (Some (cellbuf.ExtendedColor (uint8 n))) 2).
    unfold vt.readColor. rewrite !len_cons.
    destruct (Z.gtb_spec 0 (1 + (1 + (1 + len rest)) - 1)); [lia|].
    rewrite (index_lookup _ (0 + 1) 5) by done. cbn [mbind result_bind Z.eqb Pos.eqb].
    destruct (Z.gtb_spec 0 (1 + (1 + (1 + len rest)) - 2)); [lia|].
    by rewrite (index_lookup _ (0 + 2) n) by done.
  - intros r g b ->.
    apply (sgr_run_step [code; 2; r; g; b] rest); [done|].
    cbn [app]. change (len [code; 2; r; g; b] - 1) with 4.
    apply (Hstep _ (Some (cellbuf.RGBA (uint8 r) (uint8 g) (uint8 b) 255)) 4).
    unfold vt.readColor. rewrite !len_cons.
    destruct (Z.gtb_spec 0 (1 + (1 + (1 + (1 + (1 + len rest)))) - 1)); [lia|].
    rewrite (index_lookup _ (0 + 1) 2) by done. cbn [mbind result_bind Z.eqb Pos.eqb].
    destruct (Z.gtb_spec 0 (1 + (1 + (1 + (1 + (1 + len rest)))) - 4)); [lia|].
    rewrite (index_lookup _ (0 + 2) r), (index_lookup _ (0 + 3) g),
      (index_lookup _ (0 + 4) b) by done.
    done.
  - intros H5 H2.
    apply (sgr_run_step [code] (sub :: rest)); [done|].
    cbn [app]. change (len [code] - 1) with 0.
    apply (Hstep _ None 0).
    unfold vt.readColor. rewrite !len_cons.
    destruct (Z.gtb_spec 0 (1 + (1 + len rest) - 1)); [lia|].
    rewrite (index_lookup _ (0 + 1) sub) by done. cbn [mbind result_bind].
    destruct (Z.eqb_spec sub 2); [done|]. by destruct (Z.eqb_spec sub 5).
Qed.

(** X18.  An underline with a sub-parameter ([4:n]) sets the underline
    style that [n] selects, and leaves the index on the [4]: the loop
    then handles [n] again, as an SGR code of its own.  So [4:3] sets a
    curly underline and italic, and [4:0] resets the whole pen.  When
    the [4] is the last parameter counted, the sub-parameter is read
    past the end and the handler fails. *)
Theorem sgr_underline_sub_parameter u pen :
  vt.ParamValue missing_value u = 4 -> ansi.Parameter_HasMore u = true ->
  (forall n rest,
      sgr_run missing_value (u :: n :: rest) pen
      = sgr_run missing_value (n :: rest)
          (underline_sub (vt.ParamValue missing_value n) pen))
  /\ sgr_run missing_value [u] pen = Panic.
Proof.
  intros Hu Hmore. split.
  - intros n rest. apply (sgr_run_step [u] (n :: rest)); [done|].
    cbn [app]. change (len [u] - 1) with 0. unfold vt.sgrStep.
    rewrite (index_lookup _ 0 u) by done. cbn [mbind result_bind].
    rewrite Hu, Hmore. cbn [Z.eqb Pos.eqb].
    rewrite (index_lookup _ (0 + 1) n) by done. cbn [mbind result_bind].
    unfold underline_sub.
    repeat match goal with
    | |- context [if ?c then _ else _] =>
        lazymatch type of c with bool => destruct c end
    end; done.
  - unfold sgr_run. cbn [length vt.sgrLoop].
    change (0 <? len [u]) with true. cbn match. unfold vt.sgrStep.
    rewrite (index_lookup _ 0 u) by done. cbn [mbind result_bind].
    rewrite Hu, Hmore. cbn [Z.eqb Pos.eqb].
    by rewrite (index_out_of_range [u] (0 + 1)) by (unfold len; cbn; lia).
Qed.

End sgr_compose.

(** ** What [handleCsi] leaves alone *)

Section dispatch_proofs.
Context `{!parser.Consts}.
Variable missing_value : Z.

(** X19.  [handleCsi] acts on the command word as a whole: a cursor,
    erase or SGR command that carries a marker or an intermediate byte
    matches none of its cases and leaves the terminal as it is; the
    only marked words it acts on are [? h] and [? l].  The line
    commands [L], [M], [S] and [T] (insert and delete lines, scroll up
    and down) are dispatched to [handleLine], which does nothing for
    them. *)
Theorem handleCsi_leaves_terminal t m i c :
  command_layout ->
  0 <= m <= 255 -> 0 <= i <= 255 -> 0 <= c <= 255 ->
  ansi.cmd (vt.parser t) = ansi.Cmd m i c ->
  (m <> 0 \/ i <> 0 ->
   ~ (m = 0x3F /\ i = 0 /\ (c = 0x68 \/ c = 0x6C)) ->
   vt.handleCsi missing_value t = Ok t)
  /\ (m = 0 -> i = 0 -> c = 0x4C \/ c = 0x4D \/ c = 0x53 \/ c = 0x54 ->
      (0 < ansi.paramsLen (vt.parser t) -> ansi.params (vt.parser t) <> []) ->
      vt.handleCsi missing_value t = Ok t).
Proof.
  intros Hl Hm Hi Hc Hcmd.
  destruct (unpack_Cmd m i c Hl Hm Hi Hc) as (Hum & Hui & Huc).
  pose proof Hl as (Hmask & Hms & His).
  split.
  - intros Hmarked Hmode.
    assert (Hne : forall K,
      (ansi.Command_Marker K = 0 /\ ansi.Command_Intermediate K = 0)
      \/ (ansi.Command_Marker K = 0x3F /\ ansi.Command_Intermediate K = 0
          /\ (ansi.Command_Command K = 0x68 \/ ansi.Command_Command K = 0x6C)) ->
      (ansi.Cmd m i c =? K) = false).
    { intros K HK. apply Z.eqb_neq. intros Heq. rewrite <- Heq in HK.
      rewrite Hum, Hui, Huc in HK. destruct HK as [[-> ->]|HK]; [|done].
      by destruct Hmarked. }
    unfold vt.handleCsi. rewrite Hcmd.
    repeat match goal with
    | |- context [ansi.Cmd m i c =? ?K] =>
        rewrite (Hne K)
          by (unfold ansi.Command_Marker, ansi.Command_Intermediate,
                ansi.Command_Command, parser.Marker, parser.Intermediate,
                parser.Command; rewrite Hmask, Hms, His;
              first [by left | right; split; [done|]; split; [done|];
                     first [by left | by right]])
    end.
    done.
  - intros -> -> Hc' Hpar.
    assert (Hw : ansi.cmd (vt.parser t) = c).
    { rewrite Hcmd. unfold ansi.Cmd. rewrite Hmask, Hms, His.
      by destruct Hc' as [-> | [-> | [-> | ->]]]. }
    assert (Hgo : vt.handleCsi missing_value t = vt.handleLine missing_value t).
    { unfold vt.handleCsi. rewrite Hw.
      by destruct Hc' as [-> | [-> | [-> | ->]]]. }
    rewrite Hgo. unfold vt.handleLine.
    assert (Hcount : exists count,
      (if 0 <? ansi.paramsLen (vt.parser t)
       then p0 ← index (ansi.params (vt.parser t)) 0;
            Ok (vt.ParamValue missing_value p0)
       else Ok 0) = Ok count).
    { destruct (Z.ltb_spec 0 (ansi.paramsLen (vt.parser t))) as [Hlt|_];
        [|by eexists].
      destruct (ansi.params (vt.parser t)) as [|p0 ps] eqn:Hps;
        [by destruct (Hpar Hlt)|].
      rewrite (index_lookup _ 0 p0) by done. by eexists. }
    destruct Hcount as [count ->]. cbn [mbind result_bind].
    unfold ansi.Command_Command, parser.Command. rewrite Hw, Hmask.
    by destruct Hc' as [-> | [-> | [-> | ->]]].
Qed.

End dispatch_proofs.

(** ** The statements above at concrete inputs *)

Lemma decode_token_independent_of_context_witness :
  exists r,
    @ansi.DecodeSequence layout32 one_rune_segmenter sgr_two_params
      ansi.NormalState (Some (fresh_parser 16 0)) = Ok r
    /\ exists r0,
         @ansi.DecodeSequence layout32 one_rune_segmenter sgr_two_params
           ansi.NormalState None = Ok r0
         /\ token_of r0 = token_of r /\ ansi.ctx r0 = None.
Proof.
  eexists. split; [by vm_compute|].
  apply (@decode_token_independent_of_context layout32 one_rune_segmenter
           sgr_two_params ansi.NormalState (Some (fresh_parser 16 0))).
  by vm_compute.
Defined.

Lemma decode_token_shape_witness :
  exists r,
    @ansi.DecodeSequence layout32 one_rune_segmenter sgr_two_params
      ansi.NormalState (Some (fresh_parser 16 0)) = Ok r
    /\ ansi.seq r = slice_to sgr_two_params (ansi.n r)
    /\ (ansi.newState r <> ansi.NormalState ->
        ansi.n r = len sgr_two_params /\ ansi.width r = 0)
    /\ (forall c rest, sgr_two_params = c :: rest -> 0x20 <= bval c < 0x7F ->
        ansi.NormalState = ansi.NormalState ->
        ansi.width r = 1 /\ ansi.n r = 1)
    /\ (ansi.width r <> 0 ->
        ansi.NormalState = ansi.NormalState
        /\ exists c rest, sgr_two_params = c :: rest
           /\ ((0x20 <= bval c < 0x7F /\ ansi.width r = 1 /\ ansi.n r = 1)
               \/ 0xC0 <= bval c)).
Proof.
  eexists. split; [by vm_compute|].
  apply (@decode_token_shape layout32 one_rune_segmenter
           sgr_two_params ansi.NormalState (Some (fresh_parser 16 0))).
  by vm_compute.
Defined.

Lemma decode_keeps_capacity_witness :
  exists r,
    @ansi.DecodeSequence layout32 one_rune_segmenter sgr_two_params
      ansi.NormalState (Some (fresh_parser 16 0)) = Ok r
    /\ same_capacity (Some (fresh_parser 16 0)) (ansi.ctx r)
    /\ (data_ok (Some (fresh_parser 16 0)) -> data_ok (ansi.ctx r)).
Proof.
  eexists. split; [by vm_compute|].
  apply (@decode_keeps_capacity layout32 one_rune_segmenter
           sgr_two_params ansi.NormalState (Some (fresh_parser 16 0))).
  by vm_compute.
Defined.

Lemma setMode_decoded_witness :
  let modes := [ansi.TextCursorEnableMode; ansi.AltScreenBufferMode] in
  let P := fresh_parser 16 0 in
  @ansi.DecodeSequence layout32 one_rune_segmenter (ansi.setMode false modes)
    ansi.NormalState (Some P)
  = Ok (ansi.mkDecoded (ansi.setMode false modes) 0
          (len (ansi.setMode false modes)) ansi.NormalState
          (Some (ansi.mkParser
                   (map ansi.Mode_Mode modes
                    ++ drop (length modes) (ansi.params P))
                   (counted (len modes) (len (ansi.params P)))
                   (@ansi.Cmd layout32
                      (if existsb ansi.isDECMode modes then 0x3F else 0) 0 0x68)
                   (ansi.data P) 0))).
Proof.
  apply (@setMode_decoded layout32 one_rune_segmenter false
           [ansi.TextCursorEnableMode; ansi.AltScreenBufferMode]
           (fresh_parser 16 0)).
  - exact layout32_command_layout.
  - reflexivity.
  - discriminate.
  - repeat constructor; discriminate.
  - split; [discriminate | reflexivity].
Defined.

Lemma RequestMode_decoded_witness :
  let P := fresh_parser 16 0 in
  @ansi.DecodeSequence layout32 one_rune_segmenter
    (ansi.RequestMode ansi.BracketedPasteMode) ansi.NormalState (Some P)
  = Ok (ansi.mkDecoded (ansi.RequestMode ansi.BracketedPasteMode) 0
          (len (ansi.RequestMode ansi.BracketedPasteMode)) ansi.NormalState
          (Some (ansi.mkParser
                   (ansi.Mode_Mode ansi.BracketedPasteMode
                    :: drop 1 (ansi.params P)) 1
                   (@ansi.Cmd layout32
                      (if ansi.isDECMode ansi.BracketedPasteMode
                       then 0x3F else 0) 0x24 0x70)
                   (ansi.data P) 0))).
Proof.
  apply (@RequestMode_decoded layout32 one_rune_segmenter
           ansi.BracketedPasteMode (fresh_parser 16 0)).
  - exact layout32_command_layout.
  - reflexivity.
  - split; [discriminate | reflexivity].
  - split; [discriminate | reflexivity].
Defined.

Lemma ReportMode_decoded_witness :
  let P := fresh_parser 16 0 in
  @ansi.DecodeSequence layout32 one_rune_segmenter (ansi.ReportMode 2004 (-1))
    ansi.NormalState (Some P)
  = Ok (ansi.mkDecoded (ansi.ReportMode 2004 (-1)) 0
          (len (ansi.ReportMode 2004 (-1))) ansi.NormalState
          (Some (ansi.mkParser
                   (Z.max 0 2004 :: Z.max 0 (-1) :: drop 2 (ansi.params P)) 2
                   (@ansi.Cmd layout32 0 0x24 0x79) (ansi.data P) 0))).
Proof.
  apply (@ReportMode_decoded layout32 one_rune_segmenter 2004 (-1)
           (fresh_parser 16 0)).
  - exact layout32_command_layout.
  - reflexivity.
  - reflexivity.
  - reflexivity.
  - reflexivity.
  - split; [discriminate | reflexivity].
Defined.

Lemma mode_sequence_records_first_mode_witness :
  let t := terminal_with (blank_screen 4 2 1 0 bold_on_red)
             (blank_screen 4 2 0 0 cellbuf.zeroStyle) (fresh_parser 16 0) in
  let m := ansi.TextCursorEnableMode in
  let modes := [ansi.BracketedPasteMode] in
  exists r P' t',
    @ansi.DecodeSequence layout32 one_rune_segmenter
      (ansi.setMode true (m :: modes)) ansi.NormalState
      (Some (vt.parser t)) = Ok r
    /\ ansi.ctx r = Some P'
    /\ @vt.handleCsi layout32 no_value (vt.set_parser t P') = Ok t'
    /\ if existsb ansi.isDECMode (m :: modes)
       then vt.pmodes t' = <[ansi.Mode_Mode m := vt.ModeReset]> (vt.pmodes t)
            /\ vt.modes t' = vt.modes t
            /\ (ansi.Mode_Mode m = 25 ->
                vt.scr t' = vt.scr t
                /\ vt.active t' = vt.set_Visible (negb true) (vt.active t))
       else vt.modes t' = <[ansi.Mode_Mode m := vt.ModeReset]> (vt.modes t)
            /\ vt.pmodes t' = vt.pmodes t
            /\ vt.scrs0 t' = vt.scrs0 t /\ vt.scrs1 t' = vt.scrs1 t
            /\ vt.scr t' = vt.scr t.
Proof.
  apply (@mode_sequence_records_first_mode layout32 one_rune_segmenter
           no_value true ansi.TextCursorEnableMode [ansi.BracketedPasteMode]
           (terminal_with (blank_screen 4 2 1 0 bold_on_red)
              (blank_screen 4 2 0 0 cellbuf.zeroStyle) (fresh_parser 16 0))).
  - exact layout32_command_layout.
  - reflexivity.
  - repeat constructor; discriminate.
  - reflexivity.
  - split; [discriminate | reflexivity].
Defined.

Lemma SixelSequence_decoded_witness :
  let s := ansi.mkSixelSequence 1 1 2 6 (str "#0;2;0;0;0") (str "#0~~") in
  let P := fresh_parser 16 8 in
  ansi.SixelSequence_String s = ansi.SixelSequence_Bytes s
  /\ exists P',
       @ansi.DecodeSequence layout32 one_rune_segmenter
         (ansi.SixelSequence_Bytes s) ansi.NormalState (Some P)
       = Ok (ansi.mkDecoded (ansi.SixelSequence_Bytes s) 0
               (len (ansi.SixelSequence_Bytes s)) ansi.NormalState (Some P'))
       /\ ansi.params P' = [0; 1; 0] ++ drop 3 (ansi.params P)
       /\ ansi.paramsLen P' = 3
       /\ ansi.cmd P' = 0x71
       /\ collected P' = take (length (ansi.data P)) (sixel_data s).
Proof.
  apply (@SixelSequence_decoded layout32 one_rune_segmenter
           (ansi.mkSixelSequence 1 1 2 6 (str "#0;2;0;0;0") (str "#0~~"))
           (fresh_parser 16 8)).
  - split; reflexivity.
  - repeat constructor; discriminate.
  - repeat constructor; discriminate.
  - split; reflexivity.
  - reflexivity.
Defined.

Lemma osc_decoded_witness :
  let P := fresh_parser 16 8 in
  exists P',
    @ansi.DecodeSequence layout32 one_rune_segmenter
      (osc_bytes 2 (str "title")) ansi.NormalState (Some P)
    = Ok (ansi.mkDecoded (osc_bytes 2 (str "title")) 0
            (len (osc_bytes 2 (str "title"))) ansi.NormalState (Some P'))
    /\ ansi.cmd P' = 2 /\ ansi.paramsLen P' = 0
    /\ collected P'
       = take (length (ansi.data P)) (strconv_Itoa 2 ++ Byte.x3b :: str "title").
Proof.
  apply (@osc_decoded layout32 one_rune_segmenter 2 (str "title")
           (fresh_parser 16 8)).
  - split; [discriminate | reflexivity].
  - reflexivity.
  - repeat constructor; discriminate.
  - split; reflexivity.
Defined.

Lemma erase_in_line_witness :
  let t := terminal_with (blank_screen 4 2 1 0 bold_on_red)
             (blank_screen 4 2 0 0 cellbuf.zeroStyle)
             (ansi.mkParser [1] 1 0x4B [] 0) in
  exists t',
    @vt.handleCsi layout32 no_value t = Ok t'
    /\ (forall k j,
           0 <= k < vt.Width (vt.active t) -> 0 <= j < vt.Height (vt.active t) ->
           cellbuf.cell_at (vt.buf (vt.active t')) k j
           = if bool_decide
                  (j = vt.PosY (vt.cur (vt.active t))
                   /\ ((1 = 0 /\ vt.PosX (vt.cur (vt.active t)) <= k)
                       \/ (1 = 1 /\ k <= vt.PosX (vt.cur (vt.active t)))
                       \/ 1 = 2))
             then Some (cellbuf.mkCell " " 1 (vt.Pen (vt.cur (vt.active t))))
             else cellbuf.cell_at (vt.buf (vt.active t)) k j)
    /\ vt.cur (vt.active t') = vt.cur (vt.active t)
    /\ vt.scr t' = vt.scr t.
Proof.
  apply (@erase_in_line layout32 no_value
           (terminal_with (blank_screen 4 2 1 0 bold_on_red)
              (blank_screen 4 2 0 0 cellbuf.zeroStyle)
              (ansi.mkParser [1] 1 0x4B [] 0)) 1).
  - exact layout32_command_layout.
  - reflexivity.
  - reflexivity.
  - split; [reflexivity|]. split; [discriminate | reflexivity].
  - reflexivity.
  - split; [discriminate | reflexivity].
Defined.

Lemma erase_in_display_witness :
  let t := terminal_with (blank_screen 4 3 2 1 bold_on_red)
             (blank_screen 4 3 0 0 cellbuf.zeroStyle)
             (ansi.mkParser [0] 0 0x4A [] 0) in
  exists t',
    @vt.handleCsi layout32 no_value t = Ok t'
    /\ (forall k j,
           0 <= k < vt.Width (vt.active t) -> 0 <= j < vt.Height (vt.active t) ->
           cellbuf.cell_at (vt.buf (vt.active t')) k j
           = if bool_decide
                  ((0 = 0 /\ vt.PosY (vt.cur (vt.active t)) <= j)
                   \/ (0 = 1 /\ j <= vt.PosY (vt.cur (vt.active t)))
                   \/ 0 = 2 \/ 0 = 3)
             then Some cellbuf.blankCell
             else cellbuf.cell_at (vt.buf (vt.active t)) k j)
    /\ vt.cur (vt.active t') = vt.cur (vt.active t)
    /\ vt.scr t' = vt.scr t.
Proof.
  apply (@erase_in_display layout32 no_value
           (terminal_with (blank_screen 4 3 2 1 bold_on_red)
              (blank_screen 4 3 0 0 cellbuf.zeroStyle)
              (ansi.mkParser [0] 0 0x4A [] 0)) 0).
  - exact layout32_command_layout.
  - reflexivity.
  - reflexivity.
  - split; [reflexivity|]. split; [discriminate | reflexivity].
  - reflexivity.
  - split; [discriminate | reflexivity].
Defined.

Lemma sgr_params_compose_witness :
  exists pen1,
    @sgr_run layout32 no_value [1; 31] cellbuf.zeroStyle = Ok pen1
    /\ forall l2,
         @sgr_run layout32 no_value ([1; 31] ++ l2) cellbuf.zeroStyle
         = @sgr_run layout32 no_value l2 pen1.
Proof.
  apply (@sgr_params_compose layout32 no_value [1; 31] cellbuf.zeroStyle).
  repeat constructor; discriminate.
Defined.

Lemma sgr_colour_groups_witness :
  (forall n,
      5 = 5 ->
      @sgr_run layout32 no_value (38 :: 5 :: n :: [1]) cellbuf.zeroStyle
      = @sgr_run layout32 no_value [1]
          (set_colour (@vt.ParamValue layout32 no_value 38)
             (Some (cellbuf.ExtendedColor (uint8 n))) cellbuf.zeroStyle))
  /\ (forall r g b,
         5 = 2 ->
         @sgr_run layout32 no_value (38 :: 5 :: r :: g :: b :: [1])
           cellbuf.zeroStyle
         = @sgr_run layout32 no_value [1]
             (set_colour (@vt.ParamValue layout32 no_value 38)
                (Some (cellbuf.RGBA (uint8 r) (uint8 g) (uint8 b) 0xff))
                cellbuf.zeroStyle))
  /\ (5 <> 5 -> 5 <> 2 ->
      @sgr_run layout32 no_value (38 :: 5 :: [1]) cellbuf.zeroStyle
      = @sgr_run layout32 no_value (5 :: [1]) cellbuf.zeroStyle).
Proof.
  apply (@sgr_colour_groups layout32 no_value 38 5 [1] cellbuf.zeroStyle).
  left. reflexivity.
Defined.

Lemma sgr_underline_sub_parameter_witness :
  let u := Z.lor 4 (@parser.HasMoreFlag layout32) in
  (forall n rest,
      @sgr_run layout32 no_value (u :: n :: rest) cellbuf.zeroStyle
      = @sgr_run layout32 no_value (n :: rest)
          (underline_sub (@vt.ParamValue layout32 no_value n) cellbuf.zeroStyle))
  /\ @sgr_run layout32 no_value [u] cellbuf.zeroStyle = Panic.
Proof.
  apply (@sgr_underline_sub_parameter layout32 no_value
           (Z.lor 4 (@parser.HasMoreFlag layout32)) cellbuf.zeroStyle).
  - reflexivity.
  - reflexivity.
Defined.

Lemma handleCsi_leaves_terminal_witness :
  let t := terminal_with (blank_screen 4 2 1 0 bold_on_red)
             (blank_screen 4 2 0 0 cellbuf.zeroStyle)
             (ansi.mkParser [0] 0 (@ansi.Cmd layout32 0x3F 0 0x4B) [] 0) in
  (0x3F <> 0 \/ 0 <> 0 ->
   ~ (0x3F = 0x3F /\ 0 = 0 /\ (0x4B = 0x68 \/ 0x4B = 0x6C)) ->
   @vt.handleCsi layout32 no_value t = Ok t)
  /\ (0x3F = 0 -> 0 = 0 -> 0x4B = 0x4C \/ 0x4B = 0x4D \/ 0x4B = 0x53 \/ 0x4B = 0x54 ->
      (0 < ansi.paramsLen (vt.parser t) -> ansi.params (vt.parser t) <> []) ->
      @vt.handleCsi layout32 no_value t = Ok t).
Proof.
  apply (@handleCsi_leaves_terminal layout32 no_value
           (terminal_with (blank_screen 4 2 1 0 bold_on_red)
              (blank_screen 4 2 0 0 cellbuf.zeroStyle)
              (ansi.mkParser [0] 0 (@ansi.Cmd layout32 0x3F 0 0x4B) [] 0))
           0x3F 0 0x4B).
  - exact layout32_command_layout.
  - split; discriminate.
  - split; discriminate.
  - split; discriminate.
  - reflexivity.
Defined.

Lemma handleCursor_in_bounds_witness :
  let t := terminal_with (blank_screen 4 2 1 0 bold_on_red)
             (blank_screen 4 2 0 0 cellbuf.zeroStyle)
             (ansi.mkParser [3; 0] 1 0x42 [] 0) in
  exists t', @vt.handleCursor layout32 no_value t = Ok t'
             /\ cursor_in_bounds t' /\ vt.scr t' = vt.scr t.
Proof.
  apply (@handleCursor_in_bounds layout32 no_value
           (terminal_with (blank_screen 4 2 1 0 bold_on_red)
              (blank_screen 4 2 0 0 cellbuf.zeroStyle)
              (ansi.mkParser [3; 0] 1 0x42 [] 0)) 3).
  - reflexivity.
  - split; [discriminate | reflexivity].
  - discriminate.
  - split; (split; [discriminate | reflexivity]).
  - split; (split; discriminate).
Defined.

(** ** The mode constants *)

(** X21.  Every sequence that [mode.go] spells out as a constant is the
    sequence [SetMode], [ResetMode] or [RequestMode] writes for the
    mode constant declared with it. *)
Theorem mode_constants_agree :
  ansi.SetMode [ansi.CursorKeysMode] = ansi.SetCursorKeysMode
    /\ ansi.ResetMode [ansi.CursorKeysMode] = ansi.ResetCursorKeysMode
    /\ ansi.RequestMode ansi.CursorKeysMode = ansi.RequestCursorKeysMode
    /\ ansi.SetMode [ansi.CursorKeysMode] = ansi.EnableCursorKeys
    /\ ansi.ResetMode [ansi.CursorKeysMode] = ansi.DisableCursorKeys
    /\ ansi.SetMode [ansi.OriginMode] = ansi.SetOriginMode
    /\ ansi.ResetMode [ansi.OriginMode] = ansi.ResetOriginMode
    /\ ansi.RequestMode ansi.OriginMode = ansi.RequestOriginMode
    /\ ansi.SetMode [ansi.AutowrapMode] = ansi.SetAutowrapMode
    /\ ansi.ResetMode [ansi.AutowrapMode] = ansi.ResetAutowrapMode
    /\ ansi.RequestMode ansi.AutowrapMode = ansi.RequestAutowrapMode
    /\ ansi.SetMode [ansi.X10MouseMode] = ansi.SetX10MouseMode
    /\ ansi.ResetMode [ansi.X10MouseMode] = ansi.ResetX10MouseMode
    /\ ansi.RequestMode ansi.X10MouseMode = ansi.RequestX10MouseMode
    /\ ansi.SetMode [ansi.TextCursorEnableMode] = ansi.SetTextCursorEnableMode
    /\ ansi.ResetMode [ansi.TextCursorEnableMode] = ansi.ResetTextCursorEnableMode
    /\ ansi.RequestMode ansi.TextCursorEnableMode = ansi.RequestTextCursorEnableMode
    /\ ansi.RequestMode ansi.CursorEnableMode = ansi.RequestCursorVisibility
    /\ ansi.SetMode [ansi.NumericKeypadMode] = ansi.SetNumericKeypadMode
    /\ ansi.ResetMode [ansi.NumericKeypadMode] = ansi.ResetNumericKeypadMode
    /\ ansi.RequestMode ansi.NumericKeypadMode = ansi.RequestNumericKeypadMode
    /\ ansi.SetMode [ansi.NormalMouseMode] = ansi.SetNormalMouseMode
    /\ ansi.ResetMode [ansi.NormalMouseMode] = ansi.ResetNormalMouseMode
    /\ ansi.RequestMode ansi.NormalMouseMode = ansi.RequestNormalMouseMode
    /\ ansi.SetMode [ansi.MouseMode] = ansi.EnableMouse
    /\ ansi.ResetMode [ansi.MouseMode] = ansi.DisableMouse
    /\ ansi.RequestMode ansi.MouseMode = ansi.RequestMouse
    /\ ansi.SetMode [ansi.HighlightMouseMode] = ansi.SetHighlightMouseMode
    /\ ansi.ResetMode [ansi.HighlightMouseMode] = ansi.ResetHighlightMouseMode
    /\ ansi.RequestMode ansi.HighlightMouseMode = ansi.RequestHighlightMouseMode
    /\ ansi.SetMode [ansi.MouseHiliteMode] = ansi.EnableMouseHilite
    /\ ansi.ResetMode [ansi.MouseHiliteMode] = ansi.DisableMouseHilite
    /\ ansi.RequestMode ansi.MouseHiliteMode = ansi.RequestMouseHilite
    /\ ansi.SetMode [ansi.ButtonEventMouseMode] = ansi.SetButtonEventMouseMode
    /\ ansi.ResetMode [ansi.ButtonEventMouseMode] = ansi.ResetButtonEventMouseMode
    /\ ansi.RequestMode ansi.ButtonEventMouseMode = ansi.RequestButtonEventMouseMode
    /\ ansi.SetMode [ansi.MouseCellMotionMode] = ansi.EnableMouseCellMotion
    /\ ansi.ResetMode [ansi.MouseCellMotionMode] = ansi.DisableMouseCellMotion
    /\ ansi.RequestMode ansi.MouseCellMotionMode = ansi.RequestMouseCellMotion
    /\ ansi.SetMode [ansi.AnyEventMouseMode] = ansi.SetAnyEventMouseMode
    /\ ansi.ResetMode [ansi.AnyEventMouseMode] = ansi.ResetAnyEventMouseMode
    /\ ansi.RequestMode ansi.AnyEventMouseMode = ansi.RequestAnyEventMouseMode
    /\ ansi.SetMode [ansi.MouseAllMotionMode] = ansi.EnableMouseAllMotion
    /\ ansi.ResetMode [ansi.MouseAllMotionMode] = ansi.DisableMouseAllMotion
    /\ ansi.RequestMode ansi.MouseAllMotionMode = ansi.RequestMouseAllMotion
    /\ ansi.SetMode [ansi.FocusEventMode] = ansi.SetFocusEventMode
    /\ ansi.ResetMode [ansi.FocusEventMode] = ansi.ResetFocusEventMode
    /\ ansi.RequestMode ansi.FocusEventMode = ansi.RequestFocusEventMode
    /\ ansi.SetMode [ansi.ReportFocusMode] = ansi.EnableReportFocus
    /\ ansi.ResetMode [ansi.ReportFocusMode] = ansi.DisableReportFocus
    /\ ansi.RequestMode ansi.ReportFocusMode = ansi.RequestReportFocus
    /\ ansi.SetMode [ansi.MouseSgrExtMode] = ansi.SetSgrExtMouseMode
    /\ ansi.ResetMode [ansi.MouseSgrExtMode] = ansi.ResetSgrExtMouseMode
    /\ ansi.RequestMode ansi.MouseSgrExtMode = ansi.RequestSgrExtMouseMode
    /\ ansi.SetMode [ansi.MouseSgrExtMode] = ansi.EnableMouseSgrExt
    /\ ansi.ResetMode [ansi.MouseSgrExtMode] = ansi.DisableMouseSgrExt
    /\ ansi.RequestMode ansi.MouseSgrExtMode = ansi.RequestMouseSgrExt
    /\ ansi.SetMode [ansi.AltScreenBufferMode] = ansi.SetAltScreenBufferMode
    /\ ansi.ResetMode [ansi.AltScreenBufferMode] = ansi.ResetAltScreenBufferMode
    /\ ansi.RequestMode ansi.AltScreenBufferMode = ansi.RequestAltScreenBufferMode
    /\ ansi.SetMode [ansi.AltScreenBufferMode] = ansi.EnableAltScreenBuffer
    /\ ansi.ResetMode [ansi.AltScreenBufferMode] = ansi.DisableAltScreenBuffer
    /\ ansi.RequestMode ansi.AltScreenBufferMode = ansi.RequestAltScreenBuffer
    /\ ansi.SetMode [ansi.BracketedPasteMode] = ansi.SetBracketedPasteMode
    /\ ansi.ResetMode [ansi.BracketedPasteMode] = ansi.ResetBracketedPasteMode
    /\ ansi.RequestMode ansi.BracketedPasteMode = ansi.RequestBracketedPasteMode
    /\ ansi.SetMode [ansi.BracketedPasteMode] = ansi.EnableBracketedPaste
    /\ ansi.ResetMode [ansi.BracketedPasteMode] = ansi.DisableBracketedPaste
    /\ ansi.RequestMode ansi.BracketedPasteMode = ansi.RequestBracketedPaste
    /\ ansi.SetMode [ansi.SynchronizedOutputMode] = ansi.SetSynchronizedOutputMode
    /\ ansi.ResetMode [ansi.SynchronizedOutputMode] = ansi.ResetSynchronizedOutputMode
    /\ ansi.RequestMode ansi.SynchronizedOutputMode = ansi.RequestSynchronizedOutputMode
    /\ ansi.SetMode [ansi.SyncdOutputMode] = ansi.EnableSyncdOutput
    /\ ansi.ResetMode [ansi.SyncdOutputMode] = ansi.DisableSyncdOutput
    /\ ansi.RequestMode ansi.SyncdOutputMode = ansi.RequestSyncdOutput
    /\ ansi.SetMode [ansi.GraphemeClusteringMode] = ansi.SetGraphemeClusteringMode
    /\ ansi.ResetMode [ansi.GraphemeClusteringMode] = ansi.ResetGraphemeClusteringMode
    /\ ansi.RequestMode ansi.GraphemeClusteringMode = ansi.RequestGraphemeClusteringMode
    /\ ansi.SetMode [ansi.GraphemeClusteringMode] = ansi.EnableGraphemeClustering
    /\ ansi.ResetMode [ansi.GraphemeClusteringMode] = ansi.DisableGraphemeClustering
    /\ ansi.RequestMode ansi.GraphemeClusteringMode = ansi.RequestGraphemeClustering
    /\ ansi.SetMode [ansi.Win32InputMode] = ansi.SetWin32InputMode
    /\ ansi.ResetMode [ansi.Win32InputMode] = ansi.ResetWin32InputMode
    /\ ansi.RequestMode ansi.Win32InputMode = ansi.RequestWin32InputMode
    /\ ansi.SetMode [ansi.Win32InputMode] = ansi.EnableWin32Input
    /\ ansi.ResetMode [ansi.Win32InputMode] = ansi.DisableWin32Input
    /\ ansi.RequestMode ansi.Win32InputMode = ansi.RequestWin32Input.
Proof. by vm_compute. Qed.
